(** * Executive Flash News: portfolio health scoring and permission filtering

    A shallow embedding of the source files that carry the decision logic
    of the plugin:

    - [src/domain/entities/ExecutivePortfolio.js]: the health score of a
      project, the critical-alert triggers and the portfolio summary;
    - [src/application/services/AuthorizationService.js]: the access gate
      [authorizePortfolioAccess] and the permission-driven filter
      [filterPortfolioDataByPermissions];
    - [src/application/services/PortfolioService.js]: the application
      service that asks the gate, reads the Jira port, builds the entity
      and has the data filtered.

    The first part of the file holds the definitions, the second part the
    lemmas and theorems about them. *)

From stdpp Require Import gmap strings list fin_maps pretty.
From Stdlib Require Import ZArith Lia.

Local Open Scope Z_scope.

(* ===================================================================== *)
(** * Part I: definitions                                                  *)
(* ===================================================================== *)

(** ** The domain entity [ExecutivePortfolio] *)

Module ExecutivePortfolio.

(** A project as the entity reads it: the identifying strings and the three
    issue counts.  Counts are JavaScript numbers holding integers; they are
    kept as [Z] so that the guards [count > 0] of the source stay
    meaningful (a negative count deducts nothing). *)
Record Project : Type := {
  key : string;
  name : string;
  overdueIssues : Z;
  blockedIssues : Z;
  highPriorityIssues : Z
}.

(** The entity: [lastUpdated] is a wall-clock timestamp that no method
    reads, and is left out. *)
Record t : Type := {
  executiveId : string;
  projects : list Project
}.

(** [constructor(executiveId, portfolioData)]: [portfolioData.projects || []]. *)
Definition constructor (executiveId : string)
    (portfolioData_projects : option (list Project)) : t :=
  {| executiveId := executiveId;
     projects := default [] portfolioData_projects |}.

(** The local [score] of [_calculateProjectHealth(project)] as it stands
    after the three deductions, just before the final [Math.max(0, score)]. *)
Definition score_before_clamp (project : Project) : Z :=
  let score := 100 in
  let score :=
    if 0 <? overdueIssues project
    then score - Z.min 30 (overdueIssues project * 5) else score in
  let score :=
    if 0 <? blockedIssues project
    then score - Z.min 20 (blockedIssues project * 3) else score in
  let score :=
    if 0 <? highPriorityIssues project
    then score - Z.min 25 (highPriorityIssues project * 2) else score in
  score.

(** [_calculateProjectHealth(project)]. *)
Definition _calculateProjectHealth (project : Project) : Z :=
  Z.max 0 (score_before_clamp project).

(** [Math.round(a / b)] for integers [0 <= a] and [0 < b].  [Math.round]
    rounds to the nearest integer, a tie going up: it is
    [floor (a/b + 1/2)].  The quotient of the source is a double; for
    [b] below [2^46] a double cannot land on a half-integer unless [a/b]
    is one exactly, so the integer formula below is what the source
    computes (an array has fewer than [2^32] elements). *)
Definition Math_round_div (a b : Z) : Z := (2 * a + b) / (2 * b).

(** [calculateHealthScore()]. *)
Definition calculateHealthScore (this : t) : Z :=
  if (length (projects this) =? 0)%nat then 0
  else
    let totalScore :=
      fold_left (fun sum project => sum + _calculateProjectHealth project)
                (projects this) 0 in
    Math_round_div totalScore (Z.of_nat (length (projects this))).

(** [_isProjectCritical(project)]. *)
Definition _isProjectCritical (project : Project) : bool :=
  (_calculateProjectHealth project <? 50)
  || (5 <? overdueIssues project)
  || (3 <? blockedIssues project).

(** [_getCriticalReason(project)]; the template literals print the count
    in decimal. *)
Definition _getCriticalReason (project : Project) : string :=
  if 5 <? overdueIssues project
  then pretty (overdueIssues project) +:+ " overdue issues"
  else if 3 <? blockedIssues project
  then pretty (blockedIssues project) +:+ " blocked issues"
  else if _calculateProjectHealth project <? 50
  then "Overall health below 50%"
  else "Multiple risk factors".

Record Alert : Type := {
  projectKey : string;
  projectName : string;
  alertLevel : string;
  reason : string
}.

(** [getCriticalAlerts()]. *)
Definition getCriticalAlerts (this : t) : list Alert :=
  (fun project =>
     {| projectKey := key project;
        projectName := name project;
        alertLevel := "CRITICAL";
        reason := _getCriticalReason project |})
  <$> filter (fun project => _isProjectCritical project = true)
             (projects this).

Record Summary : Type := {
  totalProjects : nat;
  healthScore : Z;
  criticalAlerts : nat;
  onTrackProjects : nat;
  atRiskProjects : nat
}.

(** [getPortfolioSummary()]. *)
Definition getPortfolioSummary (this : t) : Summary :=
  {| totalProjects := length (projects this);
     healthScore := calculateHealthScore this;
     criticalAlerts := length (getCriticalAlerts this);
     onTrackProjects :=
       length (filter (fun p => 70 <= _calculateProjectHealth p)
                      (projects this));
     atRiskProjects :=
       length (filter (fun p => _calculateProjectHealth p < 70)
                      (projects this)) |}.

(** The formula of the specification, written from its words:
    [max(0, 100 - min(30, o*5) - min(20, b*3) - min(25, h*2))]. *)
Definition reference_health (o b h : Z) : Z :=
  Z.max 0 (100 - Z.min 30 (o * 5) - Z.min 20 (b * 3) - Z.min 25 (h * 2)).

(** The sum of the per-project scores, as the specification's mean has it. *)
Definition score_sum (ps : list Project) : Z :=
  foldr Z.add 0 (_calculateProjectHealth <$> ps).

(** A project record built from its three counts, for the concrete
    scenarios of the specification. *)
Definition sample (o b h : Z) : Project :=
  {| key := "EXEC"; name := "Executive project"; overdueIssues := o;
     blockedIssues := b; highPriorityIssues := h |}.

End ExecutivePortfolio.

(** ** The fragment of JavaScript the authorization service runs on *)

Module JS.

(** Heap locations and values.  Objects and arrays live in the heap and are
    passed by reference, as in the source.  Numbers are kept as integers,
    which the issue counts and the amounts of the portfolio are; the service
    does no arithmetic, it only copies numbers and tests them for
    truthiness. *)
Abbreviation loc := nat.

Inductive val : Type :=
| VUndefined
| VNull
| VBool (b : bool)
| VNum (n : Z)
| VStr (s : string)
| VRef (l : loc).

(** A heap cell: a plain object (own properties by name) or an array. *)
Inductive cell : Type :=
| CObject (fields : gmap string val)
| CArray (elems : list val).

(** The heap is a growing list of cells; a [new] object takes the next
    index. *)
Abbreviation heap := (list cell).

(** Thrown values are [Error] objects; the handlers of the service read
    their [message] only. *)
Record JsError : Type := { message : string }.

Inductive outcome (A : Type) : Type :=
| Ok (a : A)
| Throw (e : JsError).
Arguments Ok {A} a.
Arguments Throw {A} e.

(** Statements of the source run in a state-and-exception monad: a thrown
    error keeps the state reached so far.  An [await] is the call itself: a
    promise that resolves gives its value, one that rejects throws. *)
Definition M (S A : Type) : Type := S -> outcome A * S.

Definition ret {S A} (a : A) : M S A := fun s => (Ok a, s).

Definition bind {S A B} (m : M S A) (f : A -> M S B) : M S B :=
  fun s =>
    match m s with
    | (Ok a, s') => f a s'
    | (Throw e, s') => (Throw e, s')
    end.

Definition throw {S A} (e : JsError) : M S A := fun s => (Throw e, s).

(** [try { body } catch (error) { handler }]. *)
Definition try_catch {S A} (body : M S A) (handler : JsError -> M S A) : M S A :=
  fun s =>
    match body s with
    | (Ok a, s') => (Ok a, s')
    | (Throw e, s') => handler e s'
    end.

Declare Scope js_scope.
Delimit Scope js_scope with js.
Notation "x <- m ;; k" := (bind m (fun x => k))
  (at level 100, m at next level, right associativity) : js_scope.
Notation "m ;; k" := (bind m (fun _ => k))
  (at level 100, right associativity) : js_scope.
Local Open Scope js_scope.

Fixpoint mapM {S A B} (f : A -> M S B) (l : list A) : M S (list B) :=
  match l with
  | [] => ret []
  | a :: l' => b <- f a ;; bs <- mapM f l' ;; ret (b :: bs)
  end.

Fixpoint filterM {S A} (f : A -> M S bool) (l : list A) : M S (list A) :=
  match l with
  | [] => ret []
  | a :: l' =>
      keep <- f a ;;
      rest <- filterM f l' ;;
      ret (if keep : bool then a :: rest else rest)
  end.

Definition TypeError (msg : string) : JsError := {| message := msg |}.
Definition SyntaxError (msg : string) : JsError := {| message := msg |}.

(** Truthiness, as [if (v)] and [!v] use it. *)
Definition truthy (v : val) : bool :=
  match v with
  | VUndefined | VNull => false
  | VBool b => b
  | VNum n => negb (n =? 0)
  | VStr s => negb (String.eqb s "")
  | VRef _ => true
  end.

(** [typeof v === 'string' && v.startsWith(p)]. *)
Definition is_string_with_prefix (p : string) (v : val) : bool :=
  match v with
  | VStr s => String.prefix p s
  | _ => false
  end.

(** [arr.includes(v)] on an array of strings: [includes] compares with
    SameValueZero, so only a string value can be found. *)
Definition includes (arr : list string) (v : val) : bool :=
  match v with
  | VStr s => bool_decide (s ∈ arr)
  | _ => false
  end.

(** *** Heap operations *)

(** The cell a reference points to.  Every reference the source can hold
    points into the heap; for totality a location outside it reads as an
    object without properties. *)
Definition cell_at (h : heap) (l : loc) : cell :=
  default (CObject ∅) (h !! l).

(** The own properties of the object at [l]; a location that holds an array
    has none of the named properties the service reads ([projects],
    [businessUnit]). *)
Definition fields_at (h : heap) (l : loc) : gmap string val :=
  match cell_at h l with
  | CObject fs => fs
  | CArray _ => ∅
  end.

(** The value of [v.k] in heap [h], when reading it does not throw: a
    missing property reads as [undefined], and so does a property of a
    number, boolean or string (the service reads no built-in member). *)
Definition field (h : heap) (v : val) (k : string) : val :=
  match v with
  | VRef l => default VUndefined (fields_at h l !! k)
  | _ => VUndefined
  end.

(** [new]: the cell goes to the end of the heap. *)
Definition alloc (c : cell) : M heap val :=
  fun h => (Ok (VRef (length h)), h ++ [c]).

(** [v.k]: reading a property of [null] or [undefined] throws. *)
Definition getProp (v : val) (k : string) : M heap val :=
  fun h =>
    match v with
    | VUndefined | VNull =>
        (Throw (TypeError ("Cannot read properties of null or undefined: " +:+ k)), h)
    | _ => (Ok (field h v k), h)
    end.

(** [v.k = x] in strict code (the service is an ES module): assignment to a
    property of a primitive, [null] or [undefined] throws.  The service
    assigns to [filteredData.projects] only after it has read a truthy
    [filteredData.projects], which an array out of [JSON.parse] never
    has; the model lets the array case throw as well. *)
Definition setProp (v : val) (k : string) (x : val) : M heap unit :=
  fun h =>
    match v with
    | VRef l =>
        match h !! l with
        | Some (CObject fs) => (Ok tt, <[l := CObject (<[k := x]> fs)]> h)
        | _ => (Throw (TypeError ("Cannot create property " +:+ k)), h)
        end
    | _ => (Throw (TypeError ("Cannot create property " +:+ k)), h)
    end.

(** [delete v.k]: removes an own property of an object; on [null] and
    [undefined] it throws; on anything else there is nothing named [k] to
    remove. *)
Definition deleteProp (v : val) (k : string) : M heap unit :=
  fun h =>
    match v with
    | VUndefined | VNull =>
        (Throw (TypeError "Cannot convert undefined or null to object"), h)
    | VRef l =>
        match h !! l with
        | Some (CObject fs) => (Ok tt, <[l := CObject (delete k fs)]> h)
        | _ => (Ok tt, h)
        end
    | _ => (Ok tt, h)
    end.

(** The own enumerable properties that [{ ...v }] copies: those of an
    object; the indexed elements of an array; the indexed characters of a
    string; none for the other values. *)
Definition indexed {A} (f : A -> val) (l : list A) : gmap string val :=
  list_to_map (imap (fun i a => (pretty i, f a)) l).

Definition own_properties (h : heap) (v : val) : gmap string val :=
  match v with
  | VRef l =>
      match cell_at h l with
      | CObject fs => fs
      | CArray es => indexed id es
      end
  | VStr s => indexed (fun c => VStr (String c EmptyString)) (String.list_ascii_of_string s)
  | _ => ∅
  end.

(** [{ ...v }]: a new object with the own properties of [v]. *)
Definition spread (v : val) : M heap val :=
  fun h => alloc (CObject (own_properties h v)) h.

(** [arr.filter(cb)]: a new array of the elements [cb] accepts; calling it
    on a value that is not an array throws. *)
Definition array_filter (arr : val) (cb : val -> M heap bool) : M heap val :=
  fun h =>
    match arr with
    | VRef l =>
        match h !! l with
        | Some (CArray es) => (kept <- filterM cb es ;; alloc (CArray kept)) h
        | _ => (Throw (TypeError "filter is not a function"), h)
        end
    | _ => (Throw (TypeError "filter is not a function"), h)
    end.

(** [arr.map(cb)]. *)
Definition array_map (arr : val) (cb : val -> M heap val) : M heap val :=
  fun h =>
    match arr with
    | VRef l =>
        match h !! l with
        | Some (CArray es) => (out <- mapM cb es ;; alloc (CArray out)) h
        | _ => (Throw (TypeError "map is not a function"), h)
        end
    | _ => (Throw (TypeError "map is not a function"), h)
    end.

(** *** [JSON.parse(JSON.stringify(v))]

    The text in between is not modelled: the copy is built directly.
    [JSON.stringify] leaves out the properties whose value is [undefined],
    writes [null] for an [undefined] array element, and throws a
    [TypeError] on a cyclic structure; [undefined] at the top gives no text
    at all, and [JSON.parse] then throws a [SyntaxError].  The recursion
    follows references to a depth of [fuel]; a chain of references longer
    than the number of cells of the heap goes through a cell twice, so with
    [fuel] above that number running out of fuel is meeting a cycle (see
    [JSON_parse_stringify_throws_on_cycle] below). *)
Definition is_defined (v : val) : bool :=
  match v with VUndefined => false | _ => true end.

Definition undefined_to_null (v : val) : val :=
  match v with VUndefined => VNull | _ => v end.

Fixpoint json_clone (fuel : nat) (v : val) {struct fuel} : M heap val :=
  match v with
  | VUndefined => throw (SyntaxError "undefined is not valid JSON")
  | VRef l =>
      match fuel with
      | O => throw (TypeError "Converting circular structure to JSON")
      | S fuel' =>
          fun h =>
            match cell_at h l with
            | CObject fs =>
                (kvs <- mapM (fun kv : string * val =>
                                x <- json_clone fuel' kv.2 ;; ret (kv.1, x))
                             (filter (fun kv => is_defined kv.2 = true)
                                     (map_to_list fs)) ;;
                 alloc (CObject (list_to_map kvs))) h
            | CArray es =>
                (es' <- mapM (json_clone fuel') (undefined_to_null <$> es) ;;
                 alloc (CArray es')) h
            end
      end
  | _ => ret v
  end.

(** [JSON.parse(JSON.stringify(v))] on the current heap. *)
Definition JSON_parse_stringify (v : val) : M heap val :=
  fun h => json_clone (S (length h)) v h.

(** *** Freshness and reachability

    [stores c v]: the value [v] is held by the cell [c], as a property value
    or as an element. *)
Definition stores (c : cell) (v : val) : Prop :=
  match c with
  | CObject fs => exists k, fs !! k = Some v
  | CArray es => v ∈ es
  end.

(** A value is new with respect to a heap of [n] older cells when it is not a
    reference or refers to a cell allocated after them. *)
Definition fresh (n : nat) (h : heap) (v : val) : Prop :=
  forall l, v = VRef l -> (n <= l < length h)%nat.

(** The cells allocated after the first [n] refer to one another only. *)
Definition region (n : nat) (h : heap) : Prop :=
  forall l c, (n <= l)%nat -> h !! l = Some c ->
              forall v, stores c v -> fresh n h v.

(** The cells allocated after the first [n] form a forest: a cell refers
    only to cells allocated after the first [n] and before itself. *)
Definition forest (n : nat) (h : heap) : Prop :=
  forall l c, (n <= l)%nat -> h !! l = Some c ->
              forall v, stores c v ->
                        forall l', v = VRef l' -> (n <= l' < l)%nat.

(** The heap [h] has grown out of [h0]: the cells of [h0] are all there,
    unchanged, and the cells allocated since refer to one another only. *)
Definition grown (h0 h : heap) : Prop :=
  h0 `prefix_of` h /\ region (length h0) h.

(** A value that is not a reference past the end of the heap. *)
Definition in_bounds (h : heap) (v : val) : Prop :=
  forall l, v = VRef l -> (l < length h)%nat.

(** No cell of the heap holds a reference past its end. *)
Definition well_formed (h : heap) : Prop :=
  forall l c v, h !! l = Some c -> stores c v -> in_bounds h v.

(** The same, as a check that runs. *)
Definition well_formedb (h : heap) : bool :=
  forallb (fun c =>
             forallb (fun v => match v with
                               | VRef l => (l <? length h)%nat
                               | _ => true
                               end)
                     match c with
                     | CObject fs => (map_to_list fs).*2
                     | CArray es => es
                     end) h.

(** The values JSON text holds as they are. *)
Definition is_primitive (v : val) : bool :=
  match v with
  | VNull | VBool _ | VNum _ | VStr _ => true
  | VUndefined | VRef _ => false
  end.

(** [json_copy n h h' v v']: the value [v'] in heap [h'] is what JSON makes
    of the value [v] in heap [h], the structure of [v] being at most [n]
    objects deep: a primitive is itself, an object has the properties of the
    original that are not [undefined], each a copy, and an array has the
    copies of the elements, [null] standing for [undefined]. *)
Fixpoint json_copy (n : nat) (h h' : heap) (v v' : val) {struct n} : Prop :=
  match v with
  | VUndefined => False
  | VRef l =>
      match n with
      | O => False
      | S m =>
          exists l', v' = VRef l' /\
          match cell_at h l with
          | CObject fs =>
              exists fs', h' !! l' = Some (CObject fs') /\
                forall k,
                  match fs !! k with
                  | None | Some VUndefined => fs' !! k = None
                  | Some x =>
                      exists x', fs' !! k = Some x' /\ json_copy m h h' x x'
                  end
          | CArray es =>
              exists es', h' !! l' = Some (CArray es') /\
                Forall2 (fun x x' => json_copy m h h' (undefined_to_null x) x')
                        es es'
          end
      end
  | _ => v' = v
  end.

(** A chain of references: each location of the list holds a reference to
    the next one. *)
Inductive chain (h : heap) : list loc -> Prop :=
| chain_end l : chain h [l]
| chain_link l l' ls :
    stores (cell_at h l) (VRef l') -> chain h (l' :: ls) ->
    chain h (l :: l' :: ls).

(** The chains that start at the value [v]. *)
Definition starts_at (v : val) (ls : list loc) : Prop :=
  exists l rest, v = VRef l /\ ls = l :: rest.

(** The locations an object graph reaches from a value. *)
Inductive reachable (h : heap) : val -> loc -> Prop :=
| reach_here l : reachable h (VRef l) l
| reach_step l v l' :
    stores (cell_at h l) v -> reachable h v l' -> reachable h (VRef l) l'.

End JS.

(** ** The application service [AuthorizationService] *)

Module AuthorizationService.
Import JS.
Local Open Scope js_scope.

(** A permission grant as the identity provider returns it. *)
Record Permission : Type := {
  type : string;
  scope : list string
}.

(** The record handed to the audit sink by [_logAuthorizationEvent]; its
    [timestamp] is the wall clock and is left out.  [reason] is the one key
    the callers put in [additionalData]. *)
Record AuditData : Type := {
  userId : val;
  resource : string;
  action : string;
  businessUnit : val;
  result : string;
  reason : option string
}.

(** The two collaborators given to the constructor, each as the outcome of
    its call: [forgeUserAdapter.getUserPermissions(id)] resolves to a
    permission list or rejects, [auditService.logAuthorizationEvent(data)]
    resolves or rejects. *)
Record Collaborators : Type := {
  forgeUserAdapter_getUserPermissions : val -> outcome (list Permission);
  auditService_logAuthorizationEvent : AuditData -> outcome unit
}.

(** The calls made on the collaborators, in order. *)
Inductive Call : Type :=
| GetUserPermissions (executiveUserId : val)
| LogAuthorizationEvent (auditData : AuditData).

(** The state a method of the service runs in: the heap of objects and the
    calls made so far. *)
Record World : Type := {
  heap_of : heap;
  calls : list Call
}.

Definition on_heap {A} (m : M heap A) : M World A :=
  fun w =>
    let '(r, h') := m (heap_of w) in
    (r, {| heap_of := h'; calls := calls w |}).

Definition call {A} (c : Call) (r : outcome A) : M World A :=
  fun w => (r, {| heap_of := heap_of w; calls := calls w ++ [c] |}).

(** [_isValidExecutiveUserId(userId)]. *)
Definition _isValidExecutiveUserId (userId : val) : bool :=
  is_string_with_prefix "exec-" userId.

(** [_hasPermissionType(permissions, permissionType)]. *)
Definition _hasPermissionType (permissions : list Permission)
    (permissionType : string) : bool :=
  existsb (fun permission => String.eqb (type permission) permissionType)
          permissions.

(** [_hasBusinessUnitAccess(permissions, permissionType, businessUnit)]. *)
Definition _hasBusinessUnitAccess (permissions : list Permission)
    (permissionType : string) (businessUnit : val) : bool :=
  let relevantPermissions :=
    List.filter (fun p => String.eqb (type p) permissionType) permissions in
  existsb (fun permission =>
             includes (scope permission) businessUnit
             || includes (scope permission) (VStr "All_Units"))
          relevantPermissions.

Section Service.
Context (this : Collaborators).

(** [_logAuthorizationEvent(userId, businessUnit, result, additionalData)]. *)
Definition _logAuthorizationEvent (userId businessUnit : val) (result : string)
    (additionalData_reason : option string) : M World unit :=
  let auditData :=
    {| userId := userId;
       resource := "PORTFOLIO_DATA";
       action := "READ";
       businessUnit := businessUnit;
       result := result;
       reason := additionalData_reason |} in
  call (LogAuthorizationEvent auditData)
       (auditService_logAuthorizationEvent this auditData).

(** [getUserPermissions(executiveUserId)] of the adapter, awaited. *)
Definition getUserPermissions (executiveUserId : val) : M World (list Permission) :=
  call (GetUserPermissions executiveUserId)
       (forgeUserAdapter_getUserPermissions this executiveUserId).

(** [authorizePortfolioAccess(executiveUserId, businessUnit, authToken)]. *)
Definition authorizePortfolioAccess (executiveUserId businessUnit authToken : val)
    : M World bool :=
  try_catch
    (if negb (truthy authToken) then
       _logAuthorizationEvent executiveUserId businessUnit "DENIED"
         (Some "Invalid authentication token") ;;
       ret false
     else if negb (_isValidExecutiveUserId executiveUserId) then
       _logAuthorizationEvent executiveUserId businessUnit "DENIED"
         (Some "Invalid executive user ID format") ;;
       ret false
     else
       userPermissions <- getUserPermissions executiveUserId ;;
       let hasPortfolioPermission :=
         _hasPermissionType userPermissions "PORTFOLIO_VIEW" in
       if negb hasPortfolioPermission then
         _logAuthorizationEvent executiveUserId businessUnit "DENIED"
           (Some "No portfolio view permissions") ;;
         ret false
       else
         let hasBusinessUnitAccess :=
           _hasBusinessUnitAccess userPermissions "PORTFOLIO_VIEW" businessUnit in
         if negb hasBusinessUnitAccess then
           _logAuthorizationEvent executiveUserId businessUnit "DENIED"
             (Some "Insufficient permissions for business unit") ;;
           ret false
         else
           _logAuthorizationEvent executiveUserId businessUnit "AUTHORIZED" None ;;
           ret true)
    (fun error =>
       _logAuthorizationEvent executiveUserId businessUnit "ERROR"
         (Some (message error)) ;;
       ret false).

End Service.

(** The business units gathered from the [PORTFOLIO_VIEW] grants:
    [portfolioPermissions.reduce((units, p) => units.concat(p.scope), [])]. *)
Definition authorizedUnits (portfolioPermissions : list Permission) : list string :=
  fold_left (fun units permission => units ++ scope permission)
            portfolioPermissions [].

(** [_filterProjectsByBusinessUnit(projects, permissions)]. *)
Definition _filterProjectsByBusinessUnit (projects : val)
    (permissions : list Permission) : M heap val :=
  let portfolioPermissions :=
    List.filter (fun p => String.eqb (type p) "PORTFOLIO_VIEW") permissions in
  if (length portfolioPermissions =? 0)%nat then alloc (CArray [])
  else
    let authorizedUnits := authorizedUnits portfolioPermissions in
    array_filter projects (fun project =>
      project_businessUnit <- getProp project "businessUnit" ;;
      ret (includes authorizedUnits project_businessUnit
           || includes authorizedUnits (VStr "All_Units"))).

(** [_filterSensitiveProjectData(projects, permissions)]. *)
Definition _filterSensitiveProjectData (projects : val)
    (permissions : list Permission) : M heap val :=
  let hasFinancialAccess := _hasPermissionType permissions "FINANCIAL_DATA" in
  let hasDetailedMetrics := _hasPermissionType permissions "DETAILED_METRICS" in
  array_map projects (fun project =>
    filteredProject <- spread project ;;
    (if negb hasFinancialAccess then
       deleteProp filteredProject "budget" ;;
       deleteProp filteredProject "revenue"
     else ret tt) ;;
    (if negb hasDetailedMetrics then
       deleteProp filteredProject "detailedMetrics"
     else ret tt) ;;
    ret filteredProject).

(** The body of [if (filteredData.projects) { ... }] in
    [filterPortfolioDataByPermissions]: the two assignments to
    [filteredData.projects]. *)
Definition filter_projects (userPermissions : list Permission)
    (filteredData : val) : M heap unit :=
  projects <- getProp filteredData "projects" ;;
  scoped <- _filterProjectsByBusinessUnit projects userPermissions ;;
  setProp filteredData "projects" scoped ;;
  projects <- getProp filteredData "projects" ;;
  redacted <- _filterSensitiveProjectData projects userPermissions ;;
  setProp filteredData "projects" redacted.

(** The statements of the [try] block of
    [filterPortfolioDataByPermissions] that follow the fetch of the
    permissions; they act on the heap only. *)
Definition filter_with_permissions (userPermissions : list Permission)
    (portfolioData : val) : M heap val :=
  filteredData <- JSON_parse_stringify portfolioData ;;
  filteredData_projects <- getProp filteredData "projects" ;;
  (if truthy filteredData_projects then
     filter_projects userPermissions filteredData
   else ret tt) ;;
  (if negb (_hasPermissionType userPermissions "FINANCIAL_DATA") then
     deleteProp filteredData "financialData"
   else ret tt) ;;
  ret filteredData.

(** The value of the [catch] block: [{ projects: [] }]. *)
Definition fail_safe_result : M heap val :=
  projects <- alloc (CArray []) ;;
  alloc (CObject {[ "projects" := projects ]}).

Section Filter.
Context (this : Collaborators).

(** The [try] block of [filterPortfolioDataByPermissions]. *)
Definition filter_try (executiveUserId portfolioData : val) : M World val :=
  userPermissions <- getUserPermissions this executiveUserId ;;
  on_heap (filter_with_permissions userPermissions portfolioData).

(** [filterPortfolioDataByPermissions(executiveUserId, portfolioData)].  The
    handler's [console.error] has no effect on the state. *)
Definition filterPortfolioDataByPermissions (executiveUserId portfolioData : val)
    : M World val :=
  try_catch (filter_try executiveUserId portfolioData)
            (fun error => on_heap fail_safe_result).

End Filter.

(** *** Vocabulary of the specification *)

(** The caller holds a [PORTFOLIO_VIEW] grant whose scope contains the
    requested business unit or the sentinel [All_Units]. *)
Definition has_grant (permissions : list Permission) (businessUnit : val) : Prop :=
  exists p, p ∈ permissions /\ type p = "PORTFOLIO_VIEW" /\
    ((exists s, businessUnit = VStr s /\ s ∈ scope p) \/ "All_Units" ∈ scope p).

(** The audit sink takes the [ERROR] record that the handler of
    [authorizePortfolioAccess] writes. *)
Definition accepts_error_records (this : Collaborators) : Prop :=
  forall d, result d = "ERROR" ->
            auditService_logAuthorizationEvent this d = Ok tt.

(** The permissions of type [PORTFOLIO_VIEW], and the test that the callback
    of [projects.filter] makes on a [businessUnit]. *)
Abbreviation portfolio_view permissions :=
  (List.filter (fun p => String.eqb (type p) "PORTFOLIO_VIEW") permissions).

Abbreviation scope_test permissions businessUnit :=
  (includes (authorizedUnits (portfolio_view permissions)) businessUnit
   || includes (authorizedUnits (portfolio_view permissions)) (VStr "All_Units")).

(** The value [v] is an object whose [projects] is the array [es]. *)
Definition has_projects (h : heap) (v : val) (es : list val) : Prop :=
  exists a, field h v "projects" = VRef a /\ h !! a = Some (CArray es).

(** The projects that the scoping step lets through, in order. *)
Definition surviving (permissions : list Permission) (h : heap)
    (es : list val) : list val :=
  if _hasPermissionType permissions "PORTFOLIO_VIEW"
  then List.filter
         (fun q => scope_test permissions (field h q "businessUnit")) es
  else [].

(** [p], an object of [h'] allocated after the first [n] cells, is the
    redacted copy of the project [q] of heap [h]: it lacks the sensitive
    properties the caller may not see, and every other property of [q]
    that holds a string, a number, a boolean or [null] is there with the
    same value. *)
Definition redacted_copy (permissions : list Permission) (n : nat)
    (h h' : heap) (q p : val) : Prop :=
  exists o fs,
    p = VRef o /\ h' !! o = Some (CObject fs) /\ (n <= o)%nat
    /\ (_hasPermissionType permissions "FINANCIAL_DATA" = false ->
        fs !! "budget" = None /\ fs !! "revenue" = None)
    /\ (_hasPermissionType permissions "DETAILED_METRICS" = false ->
        fs !! "detailedMetrics" = None)
    /\ forall k x,
         k <> "budget" -> k <> "revenue" -> k <> "detailedMetrics" ->
         field h q k = x -> is_primitive x = true -> fs !! k = Some x.

(** The properties a redacted copy is left with. *)
Definition redacted_fields (permissions : list Permission)
    (fs : gmap string val) : gmap string val :=
  let fs :=
    if _hasPermissionType permissions "FINANCIAL_DATA" then fs
    else delete "revenue" (delete "budget" fs) in
  if _hasPermissionType permissions "DETAILED_METRICS" then fs
  else delete "detailedMetrics" fs.

(** No call went to the identity provider. *)
Definition permissions_not_consulted (cs : list Call) : Prop :=
  forall c, c ∈ cs -> forall id, c <> GetUserPermissions id.

(** *** Sample data, from the unit tests of the service *)

(** Collaborators that answer every call: the adapter with a fixed
    permission list, the audit sink by accepting the record. *)
Definition answering (permissions : list Permission) : Collaborators :=
  {| forgeUserAdapter_getUserPermissions := fun _ => Ok permissions;
     auditService_logAuthorizationEvent := fun _ => Ok tt |}.

(** An audit sink that is down: every call on it rejects. *)
Definition audit_down (permissions : list Permission) : Collaborators :=
  {| forgeUserAdapter_getUserPermissions := fun _ => Ok permissions;
     auditService_logAuthorizationEvent :=
       fun _ => Throw {| message := "Audit service unavailable" |} |}.

(** An identity provider that is down. *)
Definition adapter_down : Collaborators :=
  {| forgeUserAdapter_getUserPermissions :=
       fun _ => Throw {| message := "User service unavailable" |};
     auditService_logAuthorizationEvent := fun _ => Ok tt |}.

Definition sales_only : list Permission :=
  [ {| type := "PORTFOLIO_VIEW"; scope := ["Sales"] |} ].

Definition cfo_permissions : list Permission :=
  [ {| type := "PORTFOLIO_VIEW"; scope := ["Corporate"] |};
    {| type := "FINANCIAL_DATA"; scope := ["Corporate"] |};
    {| type := "DETAILED_METRICS"; scope := ["Corporate"] |} ].

Definition ceo_permissions : list Permission :=
  [ {| type := "PORTFOLIO_VIEW"; scope := ["Corporate"; "All_Units"] |} ].

Definition empty_world : World := {| heap_of := []; calls := [] |}.

(** The portfolio of the test [FilterProjectsByBusinessUnitAccess] with the
    sensitive fields of [RemoveSensitiveDataBasedOnPermissions] on its first
    project: cells 0 to 3 are the projects, 4 the project array, 5 the
    [detailedMetrics] of project 0, 6 [financialData], 7 the portfolio. *)
Definition test_heap : heap :=
  [ CObject (list_to_map
      [("id", VStr "proj-1"); ("businessUnit", VStr "Sales");
       ("name", VStr "Sales CRM"); ("budget", VNum 1000000);
       ("revenue", VNum 2000000); ("detailedMetrics", VRef 5%nat)]);
    CObject (list_to_map
      [("id", VStr "proj-2"); ("businessUnit", VStr "Engineering");
       ("name", VStr "Platform API")]);
    CObject (list_to_map
      [("id", VStr "proj-3"); ("businessUnit", VStr "Sales");
       ("name", VStr "Sales Analytics")]);
    CObject (list_to_map
      [("id", VStr "proj-4"); ("businessUnit", VStr "Marketing");
       ("name", VStr "Campaign Tools")]);
    CArray [VRef 0%nat; VRef 1%nat; VRef 2%nat; VRef 3%nat];
    CObject (list_to_map [("velocity", VNum 85); ("burndown", VStr "on-track")]);
    CObject (list_to_map
      [("totalBudget", VNum 5000000); ("totalRevenue", VNum 8000000)]);
    CObject (list_to_map
      [("projects", VRef 4%nat); ("financialData", VRef 6%nat)]) ].

Definition test_world : World := {| heap_of := test_heap; calls := [] |}.

(** The elements of [result.projects] after a run, and the value of a
    property on each of them. *)
Definition returned_projects (r : outcome val * World) : list val :=
  match r.1 with
  | Ok res =>
      match field (heap_of r.2) res "projects" with
      | VRef a =>
          match cell_at (heap_of r.2) a with
          | CArray ps => ps
          | CObject _ => []
          end
      | _ => []
      end
  | Throw _ => []
  end.

Definition returned_property (k : string) (r : outcome val * World) : list val :=
  (fun p => field (heap_of r.2) p k) <$> returned_projects r.

(** The audit records written during a run. *)
Definition audit_trail (r : outcome bool * World) : list (string * option string) :=
  omap (fun c => match c with
                 | LogAuthorizationEvent d => Some (result d, reason d)
                 | GetUserPermissions _ => None
                 end) (calls r.2).

End AuthorizationService.

(** ** The audit trail of the gate *)

Module AuditTrail.
Import JS AuthorizationService.

(** The record that [authorizePortfolioAccess] hands to
    [_logAuthorizationEvent]: the resource is [PORTFOLIO_DATA] and the action
    [READ] at every call. *)
Definition decision_record (uid bu : val) (res : string) (why : option string)
    : AuditData :=
  {| userId := uid; resource := "PORTFOLIO_DATA"; action := "READ";
     businessUnit := bu; result := res; reason := why |}.

End AuditTrail.

(** ** The application service [PortfolioService]

    The caller of the two services above: it derives the business unit of
    the executive, asks the gate, fetches the projects and their metrics from
    the Jira port, builds the entity, has the data filtered and writes the
    audit records. *)

Module PortfolioService.
Import JS.
Local Open Scope js_scope.

(** [s.includes(t)] on strings: [t] occurs in [s]. *)
Fixpoint String_includes (t s : string) : bool :=
  String.prefix t s
  || match s with
     | EmptyString => false
     | String _ s' => String_includes t s'
     end.

(** [v.includes(t)] for a string [t]: the substring test on a string, the
    membership test on an array; reading [includes] off [null] or
    [undefined] throws, and no other value has a method of that name. *)
Definition includes_method (v : val) (t : string) : M heap bool :=
  fun h =>
    match v with
    | VStr s => (Ok (String_includes t s), h)
    | VRef l =>
        match h !! l with
        | Some (CArray es) =>
            (Ok (existsb (fun e => match e with
                                   | VStr s => String.eqb s t
                                   | _ => false
                                   end) es), h)
        | _ => (Throw (TypeError "includes is not a function"), h)
        end
    | VUndefined | VNull =>
        (Throw (TypeError "Cannot read properties of null or undefined: includes"), h)
    | _ => (Throw (TypeError "includes is not a function"), h)
    end.

(** [_getExecutiveBusinessUnit(executiveUserId)]. *)
Definition _getExecutiveBusinessUnit (executiveUserId : val) : M heap string :=
  ceo <- includes_method executiveUserId "ceo" ;;
  ceo_or_cfo <- (if ceo : bool then ret true
                 else includes_method executiveUserId "cfo") ;;
  if ceo_or_cfo : bool then ret "Corporate"%string
  else
    sales <- includes_method executiveUserId "sales" ;;
    if sales : bool then ret "Sales"%string
    else
      engineering <- includes_method executiveUserId "engineering" ;;
      if engineering : bool then ret "Engineering"%string
      else ret "Corporate"%string.

(** The answers of the Jira port, in the shape its interface documents and
    the acceptance tests give them: a project has a key, a name and maybe a
    business unit; the health metrics are the three issue counts. *)
Record JiraProject : Type := {
  key : string;
  name : string;
  businessUnit : option string
}.

Record HealthMetrics : Type := {
  overdueIssues : Z;
  blockedIssues : Z;
  highPriorityIssues : Z
}.

Record CurrentUser : Type := {
  accountId : string;
  displayName : string
}.

(** The records handed to the audit sink; the [timestamp] of each is the
    wall clock and is left out. *)
Module DataAccessEvent.
Record read_record : Type := {
  userId : val;
  resource : string;
  action : string;
  businessUnit : string;
  projectCount : val
}.
End DataAccessEvent.

Module SecurityEvent.
Record refusal_record : Type := {
  userId : val;
  event : string;
  reason : string
}.
End SecurityEvent.

(** The collaborators given to the constructor: the Jira port, the
    authorization service (with its own two collaborators) and the audit
    sink, each method as the outcome of its call. *)
Record Dependencies : Type := {
  jiraDataPort_getExecutiveProjects : outcome (list JiraProject);
  jiraDataPort_getProjectHealthMetrics : string -> outcome HealthMetrics;
  jiraDataPort_getCurrentUser : outcome CurrentUser;
  authorizationService : AuthorizationService.Collaborators;
  auditService_logDataAccessEvent : DataAccessEvent.read_record -> outcome unit;
  auditService_logSecurityEvent : SecurityEvent.refusal_record -> outcome unit
}.

(** The calls made on the collaborators, in order; those that the
    authorization service makes on its own collaborators are kept as they
    are. *)
Inductive ServiceCall : Type :=
| Authorization (c : AuthorizationService.Call)
| GetExecutiveProjects
| GetProjectHealthMetrics (projectKey : string)
| GetCurrentUser
| LogDataAccessEvent (e : DataAccessEvent.read_record)
| LogSecurityEvent (e : SecurityEvent.refusal_record).

(** The state a method of the service runs in: the heap of the objects and
    the calls made so far. *)
Record ServiceState : Type := {
  objects : heap;
  history : list ServiceCall
}.

(** A computation on the heap alone. *)
Definition in_heap {A} (m : M heap A) : M ServiceState A :=
  fun w =>
    let '(r, h') := m (objects w) in
    (r, {| objects := h'; history := history w |}).

(** A call on a collaborator: it is recorded, and its outcome is the answer
    of the collaborator. *)
Definition invoke {A} (c : ServiceCall) (r : outcome A) : M ServiceState A :=
  fun w => (r, {| objects := objects w; history := history w ++ [c] |}).

(** A method of the authorization service, run on the heap of this service;
    the calls it makes are added to the history. *)
Definition authorization {A} (m : M AuthorizationService.World A)
    : M ServiceState A :=
  fun w =>
    let '(r, w') := m {| AuthorizationService.heap_of := objects w;
                         AuthorizationService.calls := [] |} in
    (r, {| objects := AuthorizationService.heap_of w';
           history := history w
                      ++ (Authorization <$> AuthorizationService.calls w') |}).

(** [new Error(message)]. *)
Definition Error (msg : string) : JsError := {| message := msg |}.

(** [Promise.all] on promises that are settled: the list of the values, or
    the first rejection. *)
Fixpoint Promise_all {A} (rs : list (outcome A)) : outcome (list A) :=
  match rs with
  | [] => Ok []
  | Ok a :: rs' =>
      match Promise_all rs' with
      | Ok l => Ok (a :: l)
      | Throw e => Throw e
      end
  | Throw e :: _ => Throw e
  end.

(** [project.businessUnit || 'Corporate']. *)
Definition businessUnit_or_default (project : JiraProject) : string :=
  match businessUnit project with
  | Some s => if String.eqb s "" then "Corporate" else s
  | None => "Corporate"
  end.

(** The object [{ ...project, ...healthMetrics }]; when [withBusinessUnit]
    is set, [{ ...project, businessUnit: project.businessUnit ||
    'Corporate', ...healthMetrics }]. *)
Definition enhanced_fields (withBusinessUnit : bool) (project : JiraProject)
    (healthMetrics : HealthMetrics) : gmap string val :=
  let fields : gmap string val :=
    {[ "key" := VStr (key project); "name" := VStr (name project) ]} in
  let fields :=
    match businessUnit project with
    | Some s => <["businessUnit" := VStr s]> fields
    | None => fields
    end in
  let fields :=
    if withBusinessUnit
    then <["businessUnit" := VStr (businessUnit_or_default project)]> fields
    else fields in
  <["highPriorityIssues" := VNum (highPriorityIssues healthMetrics)]>
    (<["blockedIssues" := VNum (blockedIssues healthMetrics)]>
       (<["overdueIssues" := VNum (overdueIssues healthMetrics)]> fields)).

(** The same object as the entity reads it. *)
Definition enhanced_project (project : JiraProject)
    (healthMetrics : HealthMetrics) : ExecutivePortfolio.Project :=
  {| ExecutivePortfolio.key := key project;
     ExecutivePortfolio.name := name project;
     ExecutivePortfolio.overdueIssues := overdueIssues healthMetrics;
     ExecutivePortfolio.blockedIssues := blockedIssues healthMetrics;
     ExecutivePortfolio.highPriorityIssues := highPriorityIssues healthMetrics |}.

(** The objects that [getPortfolioSummary()] and [getCriticalAlerts()]
    return. *)
Definition summary_fields (s : ExecutivePortfolio.Summary) : gmap string val :=
  {[ "totalProjects" := VNum (Z.of_nat (ExecutivePortfolio.totalProjects s));
     "healthScore" := VNum (ExecutivePortfolio.healthScore s);
     "criticalAlerts" := VNum (Z.of_nat (ExecutivePortfolio.criticalAlerts s));
     "onTrackProjects" := VNum (Z.of_nat (ExecutivePortfolio.onTrackProjects s));
     "atRiskProjects" := VNum (Z.of_nat (ExecutivePortfolio.atRiskProjects s)) ]}.

Definition alert_fields (a : ExecutivePortfolio.Alert) : gmap string val :=
  {[ "projectKey" := VStr (ExecutivePortfolio.projectKey a);
     "projectName" := VStr (ExecutivePortfolio.projectName a);
     "alertLevel" := VStr (ExecutivePortfolio.alertLevel a);
     "reason" := VStr (ExecutivePortfolio.reason a) ]}.

(** The summary written out in the two fallback values. *)
Definition zero_summary : gmap string val :=
  {[ "totalProjects" := VNum 0; "healthScore" := VNum 0;
     "criticalAlerts" := VNum 0; "onTrackProjects" := VNum 0;
     "atRiskProjects" := VNum 0 ]}.

(** The identifier that the entity stores; no method of the entity reads
    it. *)
Definition executiveId_of (executiveUserId : val) : string :=
  match executiveUserId with
  | VStr s => s
  | _ => ""
  end.

(** [v?.length]. *)
Definition optional_length (h : heap) (v : val) : val :=
  match v with
  | VRef a =>
      match cell_at h a with
      | CArray es => VNum (Z.of_nat (length es))
      | CObject fs => default VUndefined (fs !! "length")
      end
  | VStr s => VNum (Z.of_nat (String.length s))
  | _ => VUndefined
  end.

Section Service.
(** The service, the reading of the wall clock ([new Date().toISOString()])
    and the literal [8.2] of [_getRawPortfolioData]: the numbers of [val]
    are integers, so this one number is a parameter; the service only stores
    it. *)
Context (this : Dependencies) (now : string) (teamSatisfaction : val).

(** [await Promise.all(projects.map(async (project) => { const
    healthMetrics = await
    this.jiraDataPort.getProjectHealthMetrics(project.key); ... }))], up
    to the answers of the port: [map] runs every callback to its [await], so
    the port is called for each project, in the order of the list, before
    any answer is looked at.  The answers are settled when the calls
    return, as everywhere in this model, and the rejection that
    [Promise.all] passes on is then the first of the list. *)
Definition getAllProjectHealthMetrics (projects : list JiraProject)
    : M ServiceState (list HealthMetrics) :=
  fun w =>
    (Promise_all ((fun project =>
                     jiraDataPort_getProjectHealthMetrics this (key project))
                    <$> projects),
     {| objects := objects w;
        history := history w
                   ++ ((fun project => GetProjectHealthMetrics (key project))
                         <$> projects) |}).

(** The entity built from the enhanced projects. *)
Definition portfolio_of (executiveId : string) (allProjects : list JiraProject)
    (healthMetrics : list HealthMetrics) : ExecutivePortfolio.t :=
  ExecutivePortfolio.constructor executiveId
    (Some (zip_with enhanced_project allProjects healthMetrics)).

(** [_getRawPortfolioData(executiveUserId)]. *)
Definition _getRawPortfolioData (executiveUserId : val) : M ServiceState val :=
  allProjects <- invoke GetExecutiveProjects
                   (jiraDataPort_getExecutiveProjects this) ;;
  healthMetrics <- getAllProjectHealthMetrics allProjects ;;
  in_heap
    (enhancedProjects <-
       mapM (fun fields => alloc (CObject fields))
            (zip_with (enhanced_fields true) allProjects healthMetrics) ;;
     projects <- alloc (CArray enhancedProjects) ;;
     let portfolio :=
       portfolio_of (executiveId_of executiveUserId) allProjects healthMetrics in
     summary <- alloc (CObject (summary_fields
                                  (ExecutivePortfolio.getPortfolioSummary portfolio))) ;;
     alerts <- mapM (fun alert => alloc (CObject (alert_fields alert)))
                    (ExecutivePortfolio.getCriticalAlerts portfolio) ;;
     criticalAlerts <- alloc (CArray alerts) ;;
     financialData <- alloc (CObject {[ "totalBudget" := VNum 5000000;
                                        "totalRevenue" := VNum 8000000 ]}) ;;
     detailedMetrics <- alloc (CObject {[ "averageVelocity" := VNum 85;
                                          "teamSatisfaction" := teamSatisfaction ]}) ;;
     alloc (CObject {[ "projects" := projects;
                       "portfolio" := summary;
                       "criticalAlerts" := criticalAlerts;
                       "financialData" := financialData;
                       "detailedMetrics" := detailedMetrics;
                       "lastUpdated" := VStr now ]})).

(** [_getSecureFallbackPortfolio()]. *)
Definition _getSecureFallbackPortfolio : M heap val :=
  projects <- alloc (CArray []) ;;
  portfolio <- alloc (CObject zero_summary) ;;
  criticalAlerts <- alloc (CArray []) ;;
  alloc (CObject {[ "projects" := projects;
                    "portfolio" := portfolio;
                    "criticalAlerts" := criticalAlerts;
                    "lastUpdated" := VStr now;
                    "status" := VStr "access_denied" ]}).

(** The record of a read, and the record of a refusal. *)
Definition data_access_event (executiveUserId : val)
    (executiveBusinessUnit : string) (projects_length : val)
    : DataAccessEvent.read_record :=
  {| DataAccessEvent.userId := executiveUserId;
     DataAccessEvent.resource := "EXECUTIVE_PORTFOLIO";
     DataAccessEvent.action := "read";
     DataAccessEvent.businessUnit := executiveBusinessUnit;
     DataAccessEvent.projectCount :=
       if truthy projects_length then projects_length else VNum 0 |}.

Definition security_event (executiveUserId : val) (error : JsError)
    : SecurityEvent.refusal_record :=
  {| SecurityEvent.userId := executiveUserId;
     SecurityEvent.event := "PORTFOLIO_ACCESS_DENIED";
     SecurityEvent.reason := message error |}.

(** The statements of the [try] block of [getExecutivePortfolio] that
    follow the authorization check: the fetch of the raw data, the
    filtering, the audit record of the read and the [return]. *)
Definition authorized_read (executiveUserId : val)
    (executiveBusinessUnit : string) : M ServiceState val :=
  rawPortfolioData <- _getRawPortfolioData executiveUserId ;;
  filteredPortfolioData <-
    authorization
      (AuthorizationService.filterPortfolioDataByPermissions
         (authorizationService this) executiveUserId rawPortfolioData) ;;
  filteredPortfolioData_projects <-
    in_heap (getProp filteredPortfolioData "projects") ;;
  projects_length <-
    in_heap (fun h =>
               (Ok (optional_length h filteredPortfolioData_projects), h)) ;;
  invoke (LogDataAccessEvent
          (data_access_event executiveUserId executiveBusinessUnit
             projects_length))
       (auditService_logDataAccessEvent this
          (data_access_event executiveUserId executiveBusinessUnit
             projects_length)) ;;
  ret filteredPortfolioData.

(** The [try] block of [getExecutivePortfolio]. *)
Definition getExecutivePortfolio_try (executiveUserId authToken : val)
    : M ServiceState val :=
  (if negb (truthy authToken)
   then throw (Error "Authentication token required for portfolio access")
   else ret tt) ;;
  executiveBusinessUnit <-
    in_heap (_getExecutiveBusinessUnit executiveUserId) ;;
  isAuthorized <-
    authorization
      (AuthorizationService.authorizePortfolioAccess
         (authorizationService this) executiveUserId
         (VStr executiveBusinessUnit) authToken) ;;
  (if negb isAuthorized
   then throw (Error "Unauthorized access to portfolio data")
   else ret tt) ;;
  authorized_read executiveUserId executiveBusinessUnit.

(** [getExecutivePortfolio(executiveUserId, authToken)].  The handler's
    [console.error] has no effect on the state. *)
Definition getExecutivePortfolio (executiveUserId authToken : val)
    : M ServiceState val :=
  try_catch
    (getExecutivePortfolio_try executiveUserId authToken)
    (fun error =>
       invoke (LogSecurityEvent (security_event executiveUserId error))
            (auditService_logSecurityEvent this
               (security_event executiveUserId error)) ;;
       in_heap _getSecureFallbackPortfolio).

(** [_getFallbackDashboard()]. *)
Definition _getFallbackDashboard : M heap val :=
  executive <- alloc (CObject {[ "name" := VStr "Executive User";
                                 "accountId" := VStr "unknown" ]}) ;;
  portfolio <- alloc (CObject zero_summary) ;;
  criticalAlerts <- alloc (CArray []) ;;
  alloc (CObject {[ "executive" := executive;
                    "portfolio" := portfolio;
                    "criticalAlerts" := criticalAlerts;
                    "lastUpdated" := VStr now;
                    "status" := VStr "fallback" ]}).

(** [getExecutiveDashboard()].  The handler's [console.error] has no effect
    on the state. *)
Definition getExecutiveDashboard : M ServiceState val :=
  try_catch
    (currentUser <- invoke GetCurrentUser (jiraDataPort_getCurrentUser this) ;;
     projects <- invoke GetExecutiveProjects
                   (jiraDataPort_getExecutiveProjects this) ;;
     healthMetrics <- getAllProjectHealthMetrics projects ;;
     in_heap
       (enhancedProjects <-
          mapM (fun fields => alloc (CObject fields))
               (zip_with (enhanced_fields false) projects healthMetrics) ;;
        enhancedProjects <- alloc (CArray enhancedProjects) ;;
        let portfolio :=
          portfolio_of (accountId currentUser) projects healthMetrics in
        executive <- alloc (CObject {[ "name" := VStr (displayName currentUser);
                                       "accountId" := VStr (accountId currentUser) ]}) ;;
        summary <- alloc (CObject (summary_fields
                                     (ExecutivePortfolio.getPortfolioSummary portfolio))) ;;
        alerts <- mapM (fun alert => alloc (CObject (alert_fields alert)))
                       (ExecutivePortfolio.getCriticalAlerts portfolio) ;;
        criticalAlerts <- alloc (CArray alerts) ;;
        alloc (CObject {[ "executive" := executive;
                          "portfolio" := summary;
                          "criticalAlerts" := criticalAlerts;
                          "lastUpdated" := VStr now ]})))
    (fun error => in_heap _getFallbackDashboard).

(** [refreshPortfolioData()]: the [try] block holds [return true] only. *)
Definition refreshPortfolioData : M ServiceState bool :=
  try_catch (ret true) (fun error => ret false).

End Service.

(** *** Vocabulary of the properties *)

(** The cells that [_getRawPortfolioData] allocates when the port has
    answered, the first of them at location [n]: the enhanced projects,
    their array, the summary, the alerts, their array, the two literals and
    the portfolio. *)
Definition raw_cells (now : string) (teamSatisfaction executiveUserId : val)
    (allProjects : list JiraProject) (healthMetrics : list HealthMetrics)
    (n : nat) : list cell :=
  let enhanced := zip_with (enhanced_fields true) allProjects healthMetrics in
  let portfolio :=
    portfolio_of (executiveId_of executiveUserId) allProjects healthMetrics in
  let alerts := ExecutivePortfolio.getCriticalAlerts portfolio in
  let k := length enhanced in
  let a := length alerts in
  (CObject <$> enhanced)
  ++ [CArray ((fun i => VRef (n + i)%nat) <$> seq 0 k);
      CObject (summary_fields (ExecutivePortfolio.getPortfolioSummary portfolio))]
  ++ ((fun alert => CObject (alert_fields alert)) <$> alerts)
  ++ [CArray ((fun i => VRef (n + k + 2 + i)%nat) <$> seq 0 a);
      CObject {[ "totalBudget" := VNum 5000000;
                 "totalRevenue" := VNum 8000000 ]};
      CObject {[ "averageVelocity" := VNum 85;
                 "teamSatisfaction" := teamSatisfaction ]};
      CObject {[ "projects" := VRef (n + k)%nat;
                 "portfolio" := VRef (n + k + 1)%nat;
                 "criticalAlerts" := VRef (n + k + 2 + a)%nat;
                 "financialData" := VRef (n + k + 2 + a + 1)%nat;
                 "detailedMetrics" := VRef (n + k + 2 + a + 2)%nat;
                 "lastUpdated" := VStr now ]}].

(** The cells of the secure fallback, the first at location [n]. *)
Definition fallback_cells (now : string) (n : nat) : list cell :=
  [CArray []; CObject zero_summary; CArray [];
   CObject {[ "projects" := VRef n;
              "portfolio" := VRef (n + 1)%nat;
              "criticalAlerts" := VRef (n + 2)%nat;
              "lastUpdated" := VStr now;
              "status" := VStr "access_denied" ]}].

(** The cells that [getExecutiveDashboard] allocates when the port has
    answered, and those of its fallback. *)
Definition dashboard_cells (now : string) (currentUser : CurrentUser)
    (projects : list JiraProject) (healthMetrics : list HealthMetrics)
    (n : nat) : list cell :=
  let enhanced := zip_with (enhanced_fields false) projects healthMetrics in
  let portfolio := portfolio_of (accountId currentUser) projects healthMetrics in
  let alerts := ExecutivePortfolio.getCriticalAlerts portfolio in
  let k := length enhanced in
  let a := length alerts in
  (CObject <$> enhanced)
  ++ [CArray ((fun i => VRef (n + i)%nat) <$> seq 0 k);
      CObject {[ "name" := VStr (displayName currentUser);
                 "accountId" := VStr (accountId currentUser) ]};
      CObject (summary_fields (ExecutivePortfolio.getPortfolioSummary portfolio))]
  ++ ((fun alert => CObject (alert_fields alert)) <$> alerts)
  ++ [CArray ((fun i => VRef (n + k + 3 + i)%nat) <$> seq 0 a);
      CObject {[ "executive" := VRef (n + k + 1)%nat;
                 "portfolio" := VRef (n + k + 2)%nat;
                 "criticalAlerts" := VRef (n + k + 3 + a)%nat;
                 "lastUpdated" := VStr now ]}].

Definition fallback_dashboard_cells (now : string) (n : nat) : list cell :=
  [CObject {[ "name" := VStr "Executive User";
              "accountId" := VStr "unknown" ]};
   CObject zero_summary; CArray [];
   CObject {[ "executive" := VRef n;
              "portfolio" := VRef (n + 1)%nat;
              "criticalAlerts" := VRef (n + 2)%nat;
              "lastUpdated" := VStr now;
              "status" := VStr "fallback" ]}].

(** [t] occurs in [s]. *)
Definition occurs (t s : string) : Prop := exists a b, s = a +:+ t +:+ b.

(** The calls on the Jira port. *)
Definition is_port_call (c : ServiceCall) : bool :=
  match c with
  | GetExecutiveProjects | GetProjectHealthMetrics _ | GetCurrentUser => true
  | Authorization _ | LogDataAccessEvent _ | LogSecurityEvent _ => false
  end.

(** The calls that read or record portfolio data: those on the Jira port
    and the record of a read. *)
Definition is_data_call (c : ServiceCall) : bool :=
  match c with
  | GetExecutiveProjects | GetProjectHealthMetrics _ | GetCurrentUser
  | LogDataAccessEvent _ => true
  | Authorization _ | LogSecurityEvent _ => false
  end.

(** *** Sample data, after the mocks of the acceptance tests *)

Definition sample_projects : list JiraProject :=
  [ {| key := "PROJ1"; name := "Platform Project";
       businessUnit := Some "Corporate" |};
    {| key := "PROJ2"; name := "Analytics Project";
       businessUnit := Some "Corporate" |};
    {| key := "PROJ3"; name := "Sales Tool"; businessUnit := Some "Sales" |} ].

(** The metrics of the mock for the first two projects; seven overdue
    issues make the third one critical. *)
Definition sample_metrics (projectKey : string) : HealthMetrics :=
  if String.eqb projectKey "PROJ3"
  then {| overdueIssues := 7; blockedIssues := 1; highPriorityIssues := 3 |}
  else {| overdueIssues := 2; blockedIssues := 1; highPriorityIssues := 3 |}.

(** Collaborators that answer every call, the identity provider with the
    given permission list. *)
Definition all_answering (permissions : list AuthorizationService.Permission)
    : Dependencies :=
  {| jiraDataPort_getExecutiveProjects := Ok sample_projects;
     jiraDataPort_getProjectHealthMetrics :=
       fun projectKey => Ok (sample_metrics projectKey);
     jiraDataPort_getCurrentUser :=
       Ok {| accountId := "exec-ceo-001";
             displayName := "Chief Executive Officer" |};
     authorizationService := AuthorizationService.answering permissions;
     auditService_logDataAccessEvent := fun _ => Ok tt;
     auditService_logSecurityEvent := fun _ => Ok tt |}.

(** A Jira port that is down. *)
Definition port_down (permissions : list AuthorizationService.Permission)
    : Dependencies :=
  {| jiraDataPort_getExecutiveProjects :=
       Throw {| message := "Jira API error: Service Unavailable" |};
     jiraDataPort_getProjectHealthMetrics :=
       fun _ => Throw {| message := "Jira API error: Service Unavailable" |};
     jiraDataPort_getCurrentUser :=
       Throw {| message := "Jira API error: Service Unavailable" |};
     authorizationService := AuthorizationService.answering permissions;
     auditService_logDataAccessEvent := fun _ => Ok tt;
     auditService_logSecurityEvent := fun _ => Ok tt |}.

(** A user whose one grant is the portfolio of [Corporate]. *)
Definition corporate_only : list AuthorizationService.Permission :=
  [ {| AuthorizationService.type := "PORTFOLIO_VIEW";
       AuthorizationService.scope := ["Corporate"] |} ].

Definition fresh_state : ServiceState := {| objects := []; history := [] |}.

End PortfolioService.

(* ===================================================================== *)
(** * Part II: lemmas and theorems                                         *)
(* ===================================================================== *)

Module ExecutivePortfolioFacts.
Import ExecutivePortfolio.

Example health_scenario_1 : _calculateProjectHealth (sample 0 0 0) = 100.
Proof. reflexivity. Qed.

Example health_scenario_2 : _calculateProjectHealth (sample 7 0 0) = 70.
Proof. reflexivity. Qed.

Example health_scenario_3 : _calculateProjectHealth (sample 0 4 0) = 88.
Proof. reflexivity. Qed.

Example reason_scenario_2 :
  _getCriticalReason (sample 7 0 0) = "7 overdue issues"%string.
Proof. vm_compute. reflexivity. Qed.

Example reason_scenario_3 :
  _getCriticalReason (sample 0 4 0) = "4 blocked issues"%string.
Proof. vm_compute. reflexivity. Qed.

(** The three deductions, each within its cap. *)
Lemma score_before_clamp_bounds p : 25 <= score_before_clamp p <= 100.
Proof.
  unfold score_before_clamp.
  destruct (0 <? overdueIssues p) eqn:Ho;
    destruct (0 <? blockedIssues p) eqn:Hb;
    destruct (0 <? highPriorityIssues p) eqn:Hh;
    rewrite ?Z.ltb_lt, ?Z.ltb_ge in *; lia.
Qed.

Lemma calculateProjectHealth_unclamped p :
  _calculateProjectHealth p = score_before_clamp p.
Proof.
  unfold _calculateProjectHealth.
  pose proof (score_before_clamp_bounds p). lia.
Qed.

Lemma score_before_clamp_reference p :
  0 <= overdueIssues p -> 0 <= blockedIssues p -> 0 <= highPriorityIssues p ->
  score_before_clamp p =
  100 - Z.min 30 (overdueIssues p * 5) - Z.min 20 (blockedIssues p * 3)
      - Z.min 25 (highPriorityIssues p * 2).
Proof.
  intros Ho Hb Hh. unfold score_before_clamp.
  destruct (0 <? overdueIssues p) eqn:Eo;
    destruct (0 <? blockedIssues p) eqn:Eb;
    destruct (0 <? highPriorityIssues p) eqn:Eh;
    rewrite ?Z.ltb_lt, ?Z.ltb_ge in *; lia.
Qed.

(** C3: on a project whose three counts are non-negative integers the health
    score is the reference formula of the specification,
    [max(0, 100 - min(30, o*5) - min(20, b*3) - min(25, h*2))]; it lies in
    [0, 100]; and it is 100 when the three counts are zero.  The embedding of
    [_calculateProjectHealth] is a plain function of the project: the source
    has no statement that can raise on such a project. *)
Theorem calculateProjectHealth_reference p :
  0 <= overdueIssues p -> 0 <= blockedIssues p -> 0 <= highPriorityIssues p ->
  _calculateProjectHealth p =
    reference_health (overdueIssues p) (blockedIssues p) (highPriorityIssues p)
  /\ 0 <= _calculateProjectHealth p <= 100
  /\ (overdueIssues p = 0 -> blockedIssues p = 0 -> highPriorityIssues p = 0 ->
      _calculateProjectHealth p = 100).
Proof.
  intros Ho Hb Hh. split; [|split].
  - unfold _calculateProjectHealth, reference_health.
    by rewrite score_before_clamp_reference.
  - rewrite calculateProjectHealth_unclamped.
    pose proof (score_before_clamp_bounds p). lia.
  - intros Eo Eb Eh. rewrite calculateProjectHealth_unclamped.
    rewrite score_before_clamp_reference by done.
    rewrite Eo, Eb, Eh. reflexivity.
Qed.

Lemma calculateProjectHealth_reference_witness :
  _calculateProjectHealth (sample 7 4 2) = reference_health 7 4 2
  /\ 0 <= _calculateProjectHealth (sample 7 4 2) <= 100.
Proof.
  destruct (calculateProjectHealth_reference (sample 7 4 2)) as (H1 & H2 & _);
    simpl; [lia | lia | lia |].
  split; [exact H1 | exact H2].
Defined.

(** C4: a project is critical exactly when one of the three triggers fires
    (health below 50, more than 5 overdue issues, more than 3 blocked
    issues); a project with 7 overdue issues and nothing else scores 70 and
    is critical all the same. *)
Theorem isProjectCritical_iff :
  (forall p,
      _isProjectCritical p = true <->
      _calculateProjectHealth p < 50 \/ 5 < overdueIssues p
      \/ 3 < blockedIssues p)
  /\ (forall p,
      overdueIssues p = 7 -> blockedIssues p = 0 -> highPriorityIssues p = 0 ->
      _calculateProjectHealth p = 70 /\ _isProjectCritical p = true).
Proof.
  split.
  - intros p. unfold _isProjectCritical.
    rewrite !orb_true_iff, !Z.ltb_lt. tauto.
  - intros p Eo Eb Eh.
    assert (Hs : _calculateProjectHealth p = 70).
    { unfold _calculateProjectHealth, score_before_clamp.
      rewrite Eo, Eb, Eh. reflexivity. }
    split; [exact Hs|].
    unfold _isProjectCritical. rewrite Eo.
    by rewrite orb_true_r.
Qed.

Lemma isProjectCritical_iff_witness :
  _calculateProjectHealth (sample 7 0 0) = 70
  /\ _isProjectCritical (sample 7 0 0) = true.
Proof.
  apply (proj2 isProjectCritical_iff (sample 7 0 0)); reflexivity.
Defined.

(** The [reduce] of the source adds the scores up from the left; the total
    is the plain sum of the scores. *)
Lemma fold_left_score_sum ps acc :
  fold_left (fun sum project => sum + _calculateProjectHealth project) ps acc
  = acc + score_sum ps.
Proof.
  revert acc. induction ps as [|p ps IH]; intros acc.
  - change (score_sum []) with 0. simpl. lia.
  - change (score_sum (p :: ps))
      with (_calculateProjectHealth p + score_sum ps).
    cbn [fold_left]. rewrite IH. lia.
Qed.

(** [Math.round] of a quotient is within one half of the quotient, the tie
    going up. *)
Lemma Math_round_div_nearest a b :
  0 < b ->
  2 * b * Math_round_div a b - b <= 2 * a < 2 * b * Math_round_div a b + b.
Proof.
  intros Hb. unfold Math_round_div.
  pose proof (Z.div_mod (2 * a + b) (2 * b) ltac:(lia)) as Hdm.
  pose proof (Z.mod_pos_bound (2 * a + b) (2 * b) ltac:(lia)) as Hm.
  lia.
Qed.

(** C7: the health score of the summary is the mean of the per-project
    scores rounded to the nearest integer (it is within one half of
    [score_sum / n], a tie going up); on an empty project list the health
    score is 0, there is no critical alert, and both the on-track and the
    at-risk counts are 0. *)
Theorem getPortfolioSummary_health_score this :
  let s := getPortfolioSummary this in
  let n := Z.of_nat (length (projects this)) in
  (projects this <> [] ->
     2 * n * healthScore s - n <= 2 * score_sum (projects this)
       < 2 * n * healthScore s + n)
  /\ (projects this = [] ->
      healthScore s = 0 /\ getCriticalAlerts this = []
      /\ criticalAlerts s = 0%nat
      /\ onTrackProjects s = 0%nat /\ atRiskProjects s = 0%nat).
Proof.
  simpl. split.
  - intros Hne. unfold calculateHealthScore.
    destruct (projects this) as [|p ps] eqn:E; [done|].
    change (length (p :: ps) =? 0)%nat with false. cbv iota.
    rewrite fold_left_score_sum, Z.add_0_l.
    apply Math_round_div_nearest. simpl length. lia.
  - intros E. unfold calculateHealthScore, getCriticalAlerts.
    rewrite E. simpl. done.
Qed.

Lemma getPortfolioSummary_health_score_witness :
  let this := constructor "exec-ceo-001"
                (Some [sample 7 0 0; sample 0 4 0; sample 1 0 0]) in
  healthScore (getPortfolioSummary (constructor "exec-ceo-001" None)) = 0
  /\ 2 * 3 * healthScore (getPortfolioSummary this) - 3
      <= 2 * score_sum (projects this)
      < 2 * 3 * healthScore (getPortfolioSummary this) + 3.
Proof.
  intros this. split.
  - apply (proj2 (getPortfolioSummary_health_score
                    (constructor "exec-ceo-001" None))).
    reflexivity.
  - apply (proj1 (getPortfolioSummary_health_score this)). discriminate.
Defined.

Example health_score_of_three :
  healthScore
    (getPortfolioSummary
       (constructor "exec-ceo-001"
          (Some [sample 7 0 0; sample 0 4 0; sample 1 0 0]))) = 84.
Proof. reflexivity. Qed.

(** C8: the reason reported for a critical project follows the first trigger
    that applies, in the order overdue (more than 5), blocked (more than 3),
    low health (below 50), and else the fallback text. *)
Theorem getCriticalReason_first_match p :
  (5 < overdueIssues p ->
     _getCriticalReason p = pretty (overdueIssues p) +:+ " overdue issues")
  /\ (overdueIssues p <= 5 -> 3 < blockedIssues p ->
      _getCriticalReason p = pretty (blockedIssues p) +:+ " blocked issues")
  /\ (overdueIssues p <= 5 -> blockedIssues p <= 3 ->
      _calculateProjectHealth p < 50 ->
      _getCriticalReason p = "Overall health below 50%"%string)
  /\ (overdueIssues p <= 5 -> blockedIssues p <= 3 ->
      50 <= _calculateProjectHealth p ->
      _getCriticalReason p = "Multiple risk factors"%string).
Proof.
  unfold _getCriticalReason.
  destruct (5 <? overdueIssues p) eqn:Eo;
    destruct (3 <? blockedIssues p) eqn:Eb;
    destruct (_calculateProjectHealth p <? 50) eqn:Eh;
    rewrite ?Z.ltb_lt, ?Z.ltb_ge in *;
    repeat split; intros; first [reflexivity | lia].
Qed.

Lemma getCriticalReason_first_match_witness :
  _getCriticalReason (sample 7 4 9) = "7 overdue issues"%string
  /\ _getCriticalReason (sample 5 4 9) = "4 blocked issues"%string
  /\ _getCriticalReason (sample 5 3 13) = "Overall health below 50%"%string
  /\ _getCriticalReason (sample 1 1 1) = "Multiple risk factors"%string.
Proof.
  split; [|split; [|split]].
  - rewrite (proj1 (getCriticalReason_first_match (sample 7 4 9)));
      [vm_compute; reflexivity | simpl; lia].
  - rewrite (proj1 (proj2 (getCriticalReason_first_match (sample 5 4 9))));
      [vm_compute; reflexivity | simpl; lia | simpl; lia].
  - apply (proj1 (proj2 (proj2 (getCriticalReason_first_match (sample 5 3 13)))));
      vm_compute; done.
  - apply (proj2 (proj2 (proj2 (getCriticalReason_first_match (sample 1 1 1)))));
      vm_compute; done.
Defined.

(** C9: on non-negative counts the score never drops below 25: the three
    deductions sum to at most 75, so the final [Math.max(0, score)] returns
    the score it is given. *)
Theorem calculateProjectHealth_at_least_25 p :
  0 <= overdueIssues p -> 0 <= blockedIssues p -> 0 <= highPriorityIssues p ->
  25 <= _calculateProjectHealth p
  /\ _calculateProjectHealth p = score_before_clamp p
  /\ Z.min 30 (overdueIssues p * 5) + Z.min 20 (blockedIssues p * 3)
     + Z.min 25 (highPriorityIssues p * 2) <= 75.
Proof.
  intros Ho Hb Hh.
  rewrite calculateProjectHealth_unclamped.
  pose proof (score_before_clamp_bounds p).
  repeat split; lia.
Qed.

Lemma calculateProjectHealth_at_least_25_witness :
  25 <= _calculateProjectHealth (sample 1000 1000 1000).
Proof.
  apply (calculateProjectHealth_at_least_25 (sample 1000 1000 1000)); simpl; lia.
Defined.

End ExecutivePortfolioFacts.

Module JSFacts.
Import JS.
Local Open Scope js_scope.

(** *** The monad *)

Lemma bind_inv {S A B} (m : M S A) (f : A -> M S B) s r s' :
  bind m f s = (r, s') ->
  (exists a s1, m s = (Ok a, s1) /\ f a s1 = (r, s'))
  \/ (exists e, m s = (Throw e, s') /\ r = Throw e).
Proof.
  unfold bind. destruct (m s) as [[a|e] s1]; intros H.
  - left. eauto.
  - right. exists e. by injection H as <- <-.
Qed.

Lemma bind_ok {S A B} (m : M S A) (f : A -> M S B) s b s' :
  bind m f s = (Ok b, s') ->
  exists a s1, m s = (Ok a, s1) /\ f a s1 = (Ok b, s').
Proof.
  intros H. apply bind_inv in H as [H|(e & _ & ?)]; [done|discriminate].
Qed.

Lemma ret_inv {S A} (a : A) (s : S) r s' :
  ret a s = (r, s') -> r = Ok a /\ s' = s.
Proof. unfold ret. by intros [= <- <-]. Qed.

(** [mapM] threads an invariant [I] and a step relation [R] through the
    list, and relates every input to its output by [Q]. *)
Lemma mapM_spec {S A B} (f : A -> M S B) (I : S -> Prop) (R : S -> S -> Prop)
    (Q : S -> A -> B -> Prop) (l : list A) :
  (forall s, R s s) ->
  (forall s1 s2 s3, R s1 s2 -> R s2 s3 -> R s1 s3) ->
  (forall s a b s', Q s a b -> R s s' -> Q s' a b) ->
  (forall a s r s', a ∈ l -> I s -> f a s = (r, s') ->
     I s' /\ R s s' /\ forall b, r = Ok b -> Q s' a b) ->
  forall s r s', I s -> mapM f l s = (r, s') ->
    I s' /\ R s s' /\ forall bs, r = Ok bs -> Forall2 (Q s') l bs.
Proof.
  intros Hrefl Htrans Hstable. induction l as [|a l IH]; intros Hf s r s' HI Hrun.
  - apply ret_inv in Hrun as [-> ->]. split; [done|]. split; [done|].
    intros bs [= <-]. constructor.
  - simpl in Hrun.
    apply bind_inv in Hrun as [(b & s1 & Ha & Hrun)|(e & Ha & ->)].
    2:{ destruct (Hf a s _ _ ltac:(left) HI Ha) as (? & ? & _).
        split; [done|]. split; [done|]. by intros ? [=]. }
    destruct (Hf a s _ _ ltac:(left) HI Ha) as (HI1 & HR1 & HQ1).
    assert (Hf' : forall a0 s0 r0 s0', a0 ∈ l -> I s0 -> f a0 s0 = (r0, s0') ->
              I s0' /\ R s0 s0' /\ forall b0, r0 = Ok b0 -> Q s0' a0 b0).
    { intros a0 s0 r0 s0' Hin. apply Hf. by right. }
    apply bind_inv in Hrun as [(bs & s2 & Hl & Hrun)|(e & Hl & ->)].
    2:{ destruct (IH Hf' _ _ _ HI1 Hl) as (? & ? & _).
        split; [done|]. split; [eauto|]. by intros ? [=]. }
    destruct (IH Hf' _ _ _ HI1 Hl) as (HI2 & HR2 & HQ2).
    apply ret_inv in Hrun as [-> ->].
    split; [done|]. split; [eauto|].
    intros ? [= <-]. constructor; [|by apply HQ2].
    eapply Hstable; [by apply HQ1|done].
Qed.

(** *** Heap growth *)

Lemma fresh_mono n h h' v :
  fresh n h v -> (length h <= length h')%nat -> fresh n h' v.
Proof. intros Hf Hlen l ->. specialize (Hf l eq_refl). lia. Qed.

Lemma fresh_prefix n h h' v : fresh n h v -> h `prefix_of` h' -> fresh n h' v.
Proof. intros Hf Hp. eapply fresh_mono; [done|]. by apply prefix_length. Qed.

Lemma fresh_primitive n h v : (forall l, v <> VRef l) -> fresh n h v.
Proof. intros Hv l ->. by destruct (Hv l). Qed.

Lemma forest_region n h : forest n h -> region n h.
Proof.
  intros Hf l c Hl Hlook v Hv l' ->.
  specialize (Hf l c Hl Hlook _ Hv l' eq_refl).
  apply lookup_lt_Some in Hlook. lia.
Qed.

Lemma forest_start h : forest (length h) h.
Proof. intros l c Hl Hlook. apply lookup_lt_Some in Hlook. lia. Qed.

(** A cell allocated with values that are already there extends the forest. *)
Lemma forest_alloc n h c :
  forest n h -> (forall v, stores c v -> fresh n h v) -> forest n (h ++ [c]).
Proof.
  intros Hf Hc l c' Hl Hlook v Hv l' ->.
  destruct (decide (l < length h)%nat) as [Hlt|Hge].
  - rewrite lookup_app_l in Hlook by done. by eapply Hf.
  - apply lookup_lt_Some in Hlook as Hlen. rewrite length_app in Hlen.
    simpl in Hlen. assert (l = length h) as -> by lia.
    rewrite lookup_app_r in Hlook by done. rewrite Nat.sub_diag in Hlook.
    injection Hlook as <-. by apply (Hc _ Hv).
Qed.

(** Allocation keeps the older cells and the region. *)
Lemma region_alloc n h c :
  region n h -> (forall v, stores c v -> fresh n (h ++ [c]) v) ->
  region n (h ++ [c]).
Proof.
  intros Hreg Hc l c' Hl Hlook v Hv.
  destruct (decide (l < length h)%nat) as [Hlt|Hge].
  - rewrite lookup_app_l in Hlook by done.
    eapply fresh_mono; [by eapply Hreg|]. rewrite length_app. lia.
  - rewrite lookup_app_r in Hlook by lia.
    destruct (l - length h)%nat; [|done]. injection Hlook as <-. by apply Hc.
Qed.

(** A write into a cell of the region keeps the region when the new cell
    holds new values only. *)
Lemma region_insert n h l c :
  region n h -> (forall v, stores c v -> fresh n h v) ->
  region n (<[l := c]> h).
Proof.
  intros Hreg Hc l' c' Hl' Hlook v Hv.
  apply (fresh_mono n h); [|by rewrite length_insert].
  destruct (decide (l = l')) as [<-|Hne].
  - apply list_lookup_insert_Some in Hlook as [(_ & <- & _)|(? & _)]; [|done].
    by apply Hc.
  - rewrite list_lookup_insert_ne in Hlook by done. by eapply Hreg.
Qed.

Lemma Forall2_right {A B} (P : B -> Prop) (l : list A) (bs : list B) :
  Forall2 (fun _ b => P b) l bs -> Forall P bs.
Proof. induction 1; constructor; auto. Qed.

Lemma alloc_inv c h r h' :
  alloc c h = (r, h') -> r = Ok (VRef (length h)) /\ h' = h ++ [c].
Proof. unfold alloc. by intros [= <- <-]. Qed.

(** The new reference of an allocation is new. *)
Lemma fresh_alloc n h c : (n <= length h)%nat -> fresh n (h ++ [c]) (VRef (length h)).
Proof. intros Hn l [= <-]. rewrite length_app. simpl. lia. Qed.

(** *** The copy made by [JSON.parse(JSON.stringify(v))]

    The copy only allocates: the heap it starts from is a prefix of the heap
    it ends with, whether it returns or throws; the cells it allocates form
    a forest, a parent allocated after its children; and the value it
    returns is new. *)
Lemma json_clone_spec n fuel :
  forall v h r h',
    (n <= length h)%nat -> forest n h ->
    json_clone fuel v h = (r, h') ->
    h `prefix_of` h' /\ forest n h' /\ forall v', r = Ok v' -> fresh n h' v'.
Proof.
  induction fuel as [|fuel IH]; intros v h r h' Hn Hreg Hrun.
  - destruct v; simpl in Hrun; injection Hrun as <- <-;
      (split; [done|]; split; [done|]); intros v' [= <-];
      by apply fresh_primitive.
  - destruct v as [| | | | |l]; simpl in Hrun;
      try (injection Hrun as <- <-;
           (split; [done|]; split; [done|]); intros v' [= <-];
           by apply fresh_primitive).
    set (I := fun h : heap => (n <= length h)%nat /\ forest n h).
    assert (Hrec : forall {A} (g : A -> val) (a : A) s r0 s',
               I s -> json_clone fuel (g a) s = (r0, s') ->
               I s' /\ s `prefix_of` s' /\
               forall b, r0 = Ok b -> fresh n s' b).
    { intros A g a s r0 s' [Hs1 Hs2] Hc.
      destruct (IH _ _ _ _ Hs1 Hs2 Hc) as (Hp & Hr & Hf).
      split; [|done]. split; [|done].
      apply prefix_length in Hp. lia. }
    destruct (cell_at h l) as [fs|es].
    + apply bind_inv in Hrun as [(kvs & h1 & Hmap & Halloc)|(e & Hmap & ->)].
      * eapply (mapM_spec _ I prefix (fun s _ kv' => fresh n s kv'.2))
          in Hmap as ([Hn1 Hreg1] & Hp1 & HQ); [| done | by etrans
            | by intros; eapply fresh_prefix | | done].
        2:{ intros kv s r0 s' _ HI Hkv.
            apply bind_inv in Hkv as [(x & s1 & Hx & Hret)|(e & Hx & ->)].
            - apply ret_inv in Hret as [-> ->].
              destruct (Hrec _ snd kv _ _ _ HI Hx) as (? & ? & Hf).
              split; [done|]. split; [done|]. intros b [= <-]. by apply Hf.
            - destruct (Hrec _ snd kv _ _ _ HI Hx) as (? & ? & _).
              split; [done|]. split; [done|]. by intros ? [=]. }
        apply alloc_inv in Halloc as [-> ->].
        specialize (HQ kvs eq_refl). apply Forall2_right in HQ.
        split; [by apply prefix_app_r|]. split.
        -- apply forest_alloc; [done|]. intros v [k Hk].
           apply elem_of_list_to_map_2 in Hk.
           rewrite Forall_forall in HQ. by apply (HQ (k, v)).
        -- intros v' [= <-]. by apply fresh_alloc.
      * eapply (mapM_spec _ I prefix (fun s _ kv' => fresh n s kv'.2))
          in Hmap as ([Hn1 Hreg1] & Hp1 & _); [| done | by etrans
            | by intros; eapply fresh_prefix | | done].
        2:{ intros kv s r0 s' _ HI Hkv.
            apply bind_inv in Hkv as [(x & s1 & Hx & Hret)|(e' & Hx & ->)].
            - apply ret_inv in Hret as [-> ->].
              destruct (Hrec _ snd kv _ _ _ HI Hx) as (? & ? & Hf).
              split; [done|]. split; [done|]. intros b [= <-]. by apply Hf.
            - destruct (Hrec _ snd kv _ _ _ HI Hx) as (? & ? & _).
              split; [done|]. split; [done|]. by intros ? [=]. }
        split; [done|]. split; [done|]. by intros ? [=].
    + apply bind_inv in Hrun as [(es' & h1 & Hmap & Halloc)|(e & Hmap & ->)].
      * eapply (mapM_spec _ I prefix (fun s _ v' => fresh n s v'))
          in Hmap as ([Hn1 Hreg1] & Hp1 & HQ); [| done | by etrans
            | by intros; eapply fresh_prefix | | done].
        2:{ intros a s r0 s' _ HI Ha. by apply (Hrec _ id a). }
        apply alloc_inv in Halloc as [-> ->].
        specialize (HQ es' eq_refl). apply Forall2_right in HQ.
        split; [by apply prefix_app_r|]. split.
        -- apply forest_alloc; [done|]. intros v Hv.
           rewrite Forall_forall in HQ. by apply HQ.
        -- intros v' [= <-]. by apply fresh_alloc.
      * eapply (mapM_spec _ I prefix (fun s _ v' => fresh n s v'))
          in Hmap as ([Hn1 Hreg1] & Hp1 & _); [| done | by etrans
            | by intros; eapply fresh_prefix | | done].
        2:{ intros a s r0 s' _ HI Ha. by apply (Hrec _ id a). }
        split; [done|]. split; [done|]. by intros ? [=].
Qed.

(** *** Reads and writes *)

Lemma getProp_inv v k h r h' :
  getProp v k h = (r, h') ->
  h' = h /\
  (((v = VNull \/ v = VUndefined) /\ exists e, r = Throw e)
   \/ (v <> VNull /\ v <> VUndefined /\ r = Ok (field h v k))).
Proof.
  unfold getProp. destruct v; intros [= <- <-]; (split; [done|]);
    first [left; split; eauto; fail | right; done].
Qed.

Lemma setProp_inv v k x h r h' :
  setProp v k x h = (r, h') ->
  (h' = h /\ exists e, r = Throw e)
  \/ (exists l fs, v = VRef l /\ h !! l = Some (CObject fs) /\ r = Ok tt
        /\ h' = <[l := CObject (<[k := x]> fs)]> h).
Proof.
  unfold setProp. destruct v as [| | | | |l]; try (intros [= <- <-]; left; eauto).
  destruct (h !! l) as [[fs|es]|] eqn:E; intros [= <- <-]; [|left; eauto..].
  right. eauto 10.
Qed.

Lemma deleteProp_inv v k h r h' :
  deleteProp v k h = (r, h') ->
  (h' = h /\ ((r = Ok tt /\ v <> VNull /\ v <> VUndefined) \/ exists e, r = Throw e))
  \/ (exists l fs, v = VRef l /\ h !! l = Some (CObject fs) /\ r = Ok tt
        /\ h' = <[l := CObject (delete k fs)]> h).
Proof.
  unfold deleteProp.
  destruct v as [| | | | |l]; try (intros [= <- <-]; left; eauto 10; fail).
  destruct (h !! l) as [[fs|es]|] eqn:E; intros [= <- <-];
    [|left; eauto 10..].
  right. eauto 10.
Qed.

Lemma prefix_insert_ge (h0 h : heap) l c :
  h0 `prefix_of` h -> (length h0 <= l)%nat -> h0 `prefix_of` <[l := c]> h.
Proof.
  intros [k ->] Hl. rewrite insert_app_r_alt by done. by apply prefix_app_r.
Qed.

Lemma grown_refl h : grown h h.
Proof.
  split; [done|]. intros l c Hl Hlook.
  apply lookup_lt_Some in Hlook. lia.
Qed.

Lemma grown_length h0 h : grown h0 h -> (length h0 <= length h)%nat.
Proof. intros [Hp _]. by apply prefix_length. Qed.

Lemma grown_alloc h0 h c :
  grown h0 h -> (forall v, stores c v -> fresh (length h0) h v) ->
  grown h0 (h ++ [c]) /\ fresh (length h0) (h ++ [c]) (VRef (length h)).
Proof.
  intros [Hp Hreg] Hc. split; [split|].
  - by apply prefix_app_r.
  - apply region_alloc; [done|]. intros v Hv.
    eapply fresh_mono; [by apply Hc|]. rewrite length_app. lia.
  - apply fresh_alloc. by apply prefix_length.
Qed.

(** The values an object of the new region holds are new. *)
Lemma grown_stores h0 h l c v :
  grown h0 h -> (length h0 <= l)%nat -> h !! l = Some c -> stores c v ->
  fresh (length h0) h v.
Proof. intros [_ Hreg] Hl Hlook Hv. by eapply Hreg. Qed.

Lemma grown_write h0 h l c c' :
  grown h0 h -> (length h0 <= l)%nat -> h !! l = Some c ->
  (forall v, stores c' v -> stores c v \/ fresh (length h0) h v) ->
  grown h0 (<[l := c']> h).
Proof.
  intros Hg Hl Hlook Hc'. split.
  - apply prefix_insert_ge; [apply Hg|done].
  - apply region_insert; [apply Hg|]. intros v Hv.
    destruct (Hc' v Hv) as [Hold|Hnew]; [|done].
    by eapply grown_stores.
Qed.

Lemma grown_setProp h0 h v k x r h' :
  grown h0 h -> (forall l, v = VRef l -> (length h0 <= l)%nat) ->
  fresh (length h0) h x ->
  setProp v k x h = (r, h') -> grown h0 h'.
Proof.
  intros Hg Hv Hx Hrun.
  apply setProp_inv in Hrun as [[-> _]|(l & fs & -> & Hl & -> & ->)]; [done|].
  eapply grown_write; [done|by apply Hv|done|].
  intros y [k' Hy]. simpl.
  destruct (decide (k = k')) as [<-|Hne].
  - rewrite lookup_insert_eq in Hy. injection Hy as <-. by right.
  - rewrite lookup_insert_ne in Hy by done. left. eauto.
Qed.

Lemma deleteProp_ref_ok l k h r h' :
  deleteProp (VRef l) k h = (r, h') -> r = Ok tt.
Proof.
  unfold deleteProp. by destruct (h !! l) as [[fs|es]|]; intros [= <- _].
Qed.

Lemma deleteProp_length v k h r h' :
  deleteProp v k h = (r, h') -> length h' = length h.
Proof.
  intros Hrun.
  apply deleteProp_inv in Hrun as [[-> _]|(l & fs & -> & Hl & -> & ->)]; [done|].
  apply length_insert.
Qed.

Lemma grown_deleteProp h0 h v k r h' :
  grown h0 h -> (forall l, v = VRef l -> (length h0 <= l)%nat) ->
  deleteProp v k h = (r, h') -> grown h0 h'.
Proof.
  intros Hg Hv Hrun.
  apply deleteProp_inv in Hrun as [[-> _]|(l & fs & -> & Hl & -> & ->)]; [done|].
  eapply grown_write; [done|by apply Hv|done|].
  intros y [k' Hy]. simpl. left. exists k'.
  by apply lookup_delete_Some in Hy as [_ ?].
Qed.

(** [delete v.k] leaves the other properties of every object as they are. *)
Lemma field_deleteProp_ne v k h r h' x k' :
  deleteProp v k h = (r, h') -> k' <> k -> field h' x k' = field h x k'.
Proof.
  intros Hrun Hne.
  apply deleteProp_inv in Hrun as [[-> _]|(l & fs & -> & Hl & -> & ->)]; [done|].
  destruct x as [| | | | |l']; try done. simpl. unfold fields_at, cell_at.
  destruct (decide (l = l')) as [<-|Hll].
  - rewrite list_lookup_insert_eq by by eapply lookup_lt_Some.
    rewrite Hl. simpl. by rewrite lookup_delete_ne.
  - by rewrite list_lookup_insert_ne.
Qed.

(** *** Copies *)

Lemma cell_at_app h k l : (l < length h)%nat -> cell_at (h ++ k) l = cell_at h l.
Proof. intros Hl. unfold cell_at. by rewrite lookup_app_l. Qed.

Lemma own_properties_app h k v :
  in_bounds h v -> own_properties (h ++ k) v = own_properties h v.
Proof.
  intros Hv. destruct v as [| | | | |l]; try done.
  simpl. by rewrite cell_at_app by by apply Hv.
Qed.

Lemma in_bounds_app h k v : in_bounds h v -> in_bounds (h ++ k) v.
Proof. intros Hv l Hl. specialize (Hv l Hl). rewrite length_app. lia. Qed.

Lemma spread_run v h :
  spread v h = (Ok (VRef (length h)), h ++ [CObject (own_properties h v)]).
Proof. done. Qed.

(** [delete] on the object just allocated. *)
Lemma deleteProp_last h fs k :
  deleteProp (VRef (length h)) k (h ++ [CObject fs])
  = (Ok tt, h ++ [CObject (delete k fs)]).
Proof.
  unfold deleteProp. rewrite lookup_app_r by done.
  rewrite Nat.sub_diag. simpl.
  rewrite insert_app_r_alt by done. by rewrite Nat.sub_diag.
Qed.

(** A callback that allocates one cell per element, the cell depending on
    the element as it stood in the heap before the loop. *)
Lemma mapM_alloc_each (f : val -> M heap val) (g : heap -> val -> cell) :
  (forall q s, f q s = (Ok (VRef (length s)), s ++ [g s q])) ->
  (forall q h k, in_bounds h q -> g (h ++ k) q = g h q) ->
  forall qs h pre,
    Forall (in_bounds h) qs ->
    mapM f qs (h ++ pre)
    = (Ok ((fun i => VRef (length h + length pre + i)%nat) <$> seq 0 (length qs)),
       h ++ pre ++ (g h <$> qs)).
Proof.
  intros Hf Hg qs. induction qs as [|q qs IH]; intros h pre Hqs.
  - simpl. unfold ret. by rewrite !app_nil_r.
  - apply Forall_cons in Hqs as [Hq Hqs].
    cbn [mapM]. unfold bind at 1. rewrite Hf, Hg by done.
    rewrite <- app_assoc. unfold bind at 1. rewrite IH by done.
    unfold ret. f_equal.
    + f_equal. cbn [length seq fmap list_fmap]. f_equal.
      * f_equal. rewrite length_app. lia.
      * rewrite <- seq_shift, <- (list_fmap_compose S).
        apply list_fmap_ext. intros _ i _. simpl. f_equal.
        rewrite length_app. simpl. lia.
    + rewrite fmap_cons. by rewrite <- !app_assoc.
Qed.

Lemma mapM_alloc_each_run (f : val -> M heap val) (g : heap -> val -> cell) :
  (forall q s, f q s = (Ok (VRef (length s)), s ++ [g s q])) ->
  (forall q h k, in_bounds h q -> g (h ++ k) q = g h q) ->
  forall qs h,
    Forall (in_bounds h) qs ->
    mapM f qs h
    = (Ok ((fun i => VRef (length h + i)%nat) <$> seq 0 (length qs)),
       h ++ (g h <$> qs)).
Proof.
  intros Hf Hg qs h Hqs.
  pose proof (mapM_alloc_each f g Hf Hg qs h [] Hqs) as H.
  rewrite app_nil_r in H. rewrite H. simpl. f_equal. f_equal.
  apply list_fmap_ext. intros _ i _. f_equal. lia.
Qed.

Lemma grown_app h0 h k :
  grown h0 h ->
  (forall c v, c ∈ k -> stores c v -> fresh (length h0) (h ++ k) v) ->
  grown h0 (h ++ k).
Proof.
  intros [Hp Hreg] Hk. split; [by apply prefix_app_r|].
  intros l c Hl Hlook v Hv.
  destruct (decide (l < length h)%nat) as [Hlt|Hge].
  - rewrite lookup_app_l in Hlook by done.
    eapply fresh_mono; [by eapply Hreg|]. rewrite length_app. lia.
  - rewrite lookup_app_r in Hlook by lia.
    apply list_elem_of_lookup_2 in Hlook. by eapply Hk.
Qed.

Lemma fresh_in_bounds n h v : fresh n h v -> in_bounds h v.
Proof. intros Hf l Hl. by apply Hf. Qed.

(** The values copied by [{ ...v }] out of a new value are new. *)
Lemma own_properties_fresh h0 h v k x :
  grown h0 h -> fresh (length h0) h v ->
  own_properties h v !! k = Some x -> fresh (length h0) h x.
Proof.
  intros Hg Hv Hx. destruct v as [| | | | s |l]; simpl in Hx; try done.
  - apply elem_of_list_to_map_2, elem_of_lookup_imap in Hx
      as (i & c & [= _ ->] & _).
    by apply fresh_primitive.
  - destruct (Hv l eq_refl) as [Hl1 Hl2].
    unfold cell_at in Hx. destruct (h !! l) as [c|] eqn:E.
    2:{ apply lookup_ge_None in E. lia. }
    simpl in Hx. destruct c as [fs|es].
    + eapply grown_stores; [done..|]. simpl. eauto.
    + apply elem_of_list_to_map_2, elem_of_lookup_imap in Hx
        as (i & c & [= _ ->] & Hc).
      eapply grown_stores; [done..|]. simpl.
      by eapply list_elem_of_lookup_2.
Qed.

(** *** The copy is faithful *)

Lemma json_copy_mono n h h1 h2 v v' :
  h1 `prefix_of` h2 -> json_copy n h h1 v v' -> json_copy n h h2 v v'.
Proof.
  intros Hp. revert v v'.
  induction n as [|n IH]; intros v v'; destruct v as [| | | | |l]; simpl;
    try done.
  intros (l' & -> & H). exists l'. split; [done|].
  destruct (cell_at h l) as [fs|es].
  - destruct H as (fs' & Hl' & Hk). exists fs'.
    split; [by eapply prefix_lookup_Some|].
    intros k. specialize (Hk k).
    destruct (fs !! k) as [[| | | | |]|]; try done;
      destruct Hk as (x' & ? & ?); eauto.
  - destruct H as (es' & Hl' & HF). exists es'.
    split; [by eapply prefix_lookup_Some|].
    eapply Forall2_impl; [done|]. intros x x'. apply IH.
Qed.

Lemma json_copy_primitive n h h' v v' :
  is_primitive v = true -> json_copy n h h' v v' -> v' = v.
Proof. by destruct n, v. Qed.

Lemma cell_at_prefix h0 h l :
  h0 `prefix_of` h -> (l < length h0)%nat -> cell_at h l = cell_at h0 l.
Proof. intros [k ->] Hl. by apply cell_at_app. Qed.

Lemma well_formedb_correct h : well_formedb h = true -> well_formed h.
Proof.
  unfold well_formedb. rewrite forallb_forall.
  intros Hall l c v Hl Hv l' ->.
  apply list_elem_of_lookup_2, list_elem_of_In, Hall in Hl.
  rewrite forallb_forall in Hl.
  assert (Hin : In (VRef l') match c with
                             | CObject fs => (map_to_list fs).*2
                             | CArray es => es
                             end).
  { apply list_elem_of_In. destruct c as [fs|es]; simpl in Hv; [|done].
    destruct Hv as [k Hk]. apply list_elem_of_fmap. exists (k, VRef l').
    split; [done|]. by apply elem_of_map_to_list. }
  apply Hl in Hin. by apply Nat.ltb_lt in Hin.
Qed.

(** A JSON copy of depth [n] has no chain of more than [n] references. *)
Lemma json_copy_chain n h h' :
  forall v v' ls,
    json_copy n h h' v v' -> starts_at v ls -> chain h ls ->
    (length ls <= n)%nat.
Proof.
  induction n as [|n IH]; intros v v' ls Hcopy (l & rest & -> & ->) Hch;
    [done|].
  cbn [json_copy] in Hcopy. destruct Hcopy as (l1 & -> & Hcell).
  inversion Hch as [|? l' ls' Hst Hch']; subst; [simpl; lia|].
  simpl. apply le_n_S. change (S (length ls')) with (length (l' :: ls')).
  destruct (cell_at h l) as [fs|es]; simpl in Hst.
  - destruct Hcell as (fs' & _ & Hk). destruct Hst as [k Hfk].
    specialize (Hk k). rewrite Hfk in Hk. destruct Hk as (x' & _ & Hx).
    eapply (IH (VRef l')); [done|by eexists _, _|done].
  - destruct Hcell as (es' & _ & HF).
    apply list_elem_of_lookup in Hst as [i Hi].
    destruct (Forall2_lookup_l _ _ _ _ _ HF Hi) as (x' & _ & Hx).
    eapply (IH (VRef l')); [done|by eexists _, _|done].
Qed.

Section clone_copy.
Context (h0 : heap) (Hwf : well_formed h0).

(** What [JSON.parse(JSON.stringify(v))] returns is the JSON copy of [v]. *)
Lemma json_clone_copy fuel :
  forall v h v' h',
    h0 `prefix_of` h -> in_bounds h0 v ->
    json_clone fuel v h = (Ok v', h') ->
    json_copy fuel h0 h' v v'.
Proof.
  assert (Hpre : forall fuel v h r h',
             json_clone fuel v h = (r, h') -> h `prefix_of` h').
  { intros f v h r h' Hrun.
    by apply (json_clone_spec (length h)) in Hrun as [? _];
      [|done|apply forest_start]. }
  induction fuel as [|fuel IH]; intros v h v' h' Hp Hv Hrun.
  - destruct v; simpl in Hrun; try (by injection Hrun as <- _); done.
  - destruct v as [| | | | |l]; simpl in Hrun;
      try (by injection Hrun as <- _); try done.
    specialize (Hv l eq_refl). cbn [json_copy].
    rewrite (cell_at_prefix h0 h) in Hrun by done.
    destruct (lookup_lt_is_Some_2 h0 l Hv) as [c Hc].
    assert (Hcell : cell_at h0 l = c) by (unfold cell_at; by rewrite Hc).
    rewrite Hcell in *. destruct c as [fs|es].
    + apply bind_ok in Hrun as (kvs & h1 & Hmap & Halloc).
      apply alloc_inv in Halloc as [[= ->] ->].
      eapply (mapM_spec _ (fun s => h0 `prefix_of` s) prefix
                (fun s kv kv' => kv'.1 = kv.1
                                 /\ json_copy fuel h0 s kv.2 kv'.2))
        in Hmap as (Hp1 & _ & HQ); [| done | by etrans | | | done].
      2:{ intros s a b s' [? ?] ?. split; [done|]. by eapply json_copy_mono. }
      2:{ intros kv s r s' Hkv Hs Hrun.
          apply list_elem_of_filter in Hkv as [_ Hkv].
          destruct kv as [k x]. apply elem_of_map_to_list in Hkv.
          apply bind_inv in Hrun as [(x' & s1 & Hx & Hret)|(e & Hx & ->)].
          - apply ret_inv in Hret as [-> ->].
            pose proof (Hpre _ _ _ _ _ Hx) as Hss.
            split; [by etrans|]. split; [done|]. intros b [= <-].
            split; [done|]. apply (IH _ s); [done| |done].
            eapply Hwf; [done|]. simpl. eauto.
          - pose proof (Hpre _ _ _ _ _ Hx) as Hss.
            split; [by etrans|]. split; [done|]. by intros ? [=]. }
      specialize (HQ kvs eq_refl).
      exists (length h1). split; [done|]. exists (list_to_map kvs).
      split; [rewrite lookup_app_r by done; by rewrite Nat.sub_diag|].
      set (kept := filter (fun kv : string * val => is_defined kv.2 = true)
                          (map_to_list fs)) in *.
      assert (Hkeys : kvs.*1 = kept.*1).
      { clear -HQ.
        induction HQ as [|a b l l' [Hab _] _ IHQ]; [done|].
        rewrite !fmap_cons. by f_equal. }
      assert (Hnodup : NoDup (kvs.*1)).
      { rewrite Hkeys.
        apply (sublist_NoDup _ ((map_to_list fs).*1));
          [apply NoDup_fst_map_to_list|].
        unfold kept. apply fmap_sublist, sublist_filter. }
      assert (Hin : forall k x, (k, x) ∈ kept <-> fs !! k = Some x
                                                  /\ is_defined x = true).
      { intros k x. unfold kept. rewrite list_elem_of_filter.
        rewrite elem_of_map_to_list. simpl. tauto. }
      assert (Hmiss : forall k, (forall x, (k, x) ∉ kept) ->
                                (list_to_map kvs : gmap string val) !! k = None).
      { intros k Hk. apply not_elem_of_list_to_map_1. rewrite Hkeys.
        intros Hk'. apply list_elem_of_fmap in Hk' as ([k' x] & -> & Hk').
        by apply (Hk x). }
      intros k. destruct (fs !! k) as [x|] eqn:Hfk.
      2:{ apply Hmiss. intros x Hx. apply Hin in Hx as [? _]. congruence. }
      destruct (is_defined x) eqn:Hdef.
      2:{ destruct x; try discriminate Hdef.
          apply Hmiss. intros x Hx. apply Hin in Hx as [Hx Hd].
          rewrite Hfk in Hx. injection Hx as <-. discriminate Hd. }
      assert (Hkx : (k, x) ∈ kept) by by apply Hin.
      apply list_elem_of_lookup in Hkx as [i Hi].
      destruct (Forall2_lookup_l _ _ _ _ _ HQ Hi) as ([k' x'] & Hi' & Hk' & Hcopy).
      simpl in Hk', Hcopy. subst k'.
      assert (Hres : (list_to_map kvs : gmap string val) !! k = Some x').
      { apply elem_of_list_to_map_1; [done|]. by eapply list_elem_of_lookup_2. }
      assert (Hcopy' : json_copy fuel h0 (h1 ++ [CObject (list_to_map kvs)]) x x').
      { eapply json_copy_mono; [|done]. by apply prefix_app_r. }
      destruct x; try discriminate Hdef; eauto.
    + apply bind_ok in Hrun as (es' & h1 & Hmap & Halloc).
      apply alloc_inv in Halloc as [[= ->] ->].
      eapply (mapM_spec _ (fun s => h0 `prefix_of` s) prefix
                (fun s x x' => json_copy fuel h0 s x x'))
        in Hmap as (Hp1 & _ & HQ); [| done | by etrans | | | done].
      2:{ intros s a b s' ? ?. by eapply json_copy_mono. }
      2:{ intros x s r s' Hx Hs Hrun.
          pose proof (Hpre _ _ _ _ _ Hrun) as Hss.
          split; [by etrans|]. split; [done|]. intros b ->.
          apply (IH _ s); [done| |done].
          apply list_elem_of_fmap in Hx as (y & -> & Hy).
          destruct y; try (by intros ? [=]).
          eapply Hwf; [done|]. done. }
      specialize (HQ es' eq_refl).
      exists (length h1). split; [done|]. exists es'.
      split; [rewrite lookup_app_r by done; by rewrite Nat.sub_diag|].
      rewrite Forall2_fmap_l in HQ.
      eapply Forall2_impl; [exact HQ|]. intros x x' Hxx. simpl in Hxx.
      eapply json_copy_mono; [|exact Hxx]. by apply prefix_app_r.
Qed.

(** A failing [mapM] fails in the callback, on some element. *)
Lemma mapM_throw {S A B} (f : A -> M S B) (R : S -> S -> Prop) l :
  (forall s, R s s) ->
  (forall s1 s2 s3, R s1 s2 -> R s2 s3 -> R s1 s3) ->
  (forall a s r s', f a s = (r, s') -> R s s') ->
  forall s e s',
    mapM f l s = (Throw e, s') ->
    exists a s1, a ∈ l /\ R s s1 /\ f a s1 = (Throw e, s').
Proof.
  intros Hrefl Htrans Hf. induction l as [|a l IH]; intros s e s' Hrun.
  - by apply ret_inv in Hrun as [[=] _].
  - simpl in Hrun.
    apply bind_inv in Hrun as [(b & s1 & Ha & Hrun)|(e' & Ha & [= ->])].
    2:{ exists a, s. split; [by left|done]. }
    apply bind_inv in Hrun as [(bs & s2 & Hl & Hrun)|(e' & Hl & [= ->])].
    { by apply ret_inv in Hrun as [[=] _]. }
    destruct (IH _ _ _ Hl) as (a0 & s0 & Hin & HR & Hthrow).
    exists a0, s0. split; [by right|]. split; [|done].
    eapply Htrans; [|done]. by eapply Hf.
Qed.

(** The copy fails only where [JSON.stringify] does: when it gives up on a
    value, a chain of references as long as the fuel, and one more, starts
    at that value. *)
Lemma json_clone_throw fuel :
  forall v h e h',
    h0 `prefix_of` h -> in_bounds h0 v -> v <> VUndefined ->
    json_clone fuel v h = (Throw e, h') ->
    exists ls, starts_at v ls /\ length ls = S fuel /\ chain h0 ls
               /\ Forall (fun l => l < length h0)%nat ls.
Proof.
  assert (Hpre : forall fuel v h r h',
             json_clone fuel v h = (r, h') -> h `prefix_of` h').
  { intros f v h r h' Hrun.
    by apply (json_clone_spec (length h)) in Hrun as [? _];
      [|done|apply forest_start]. }
  induction fuel as [|fuel IH]; intros v h e h' Hp Hv Hdef Hrun.
  - destruct v as [| | | | |l]; simpl in Hrun; try done.
    exists [l]. split; [by exists l, []|]. split; [done|].
    split; [constructor|]. constructor; [by apply Hv|constructor].
  - destruct v as [| | | | |l]; simpl in Hrun; try done.
    specialize (Hv l eq_refl).
    rewrite (cell_at_prefix h0 h) in Hrun by done.
    assert (Hchild : forall x s e1 s',
              h0 `prefix_of` s -> stores (cell_at h0 l) x -> x <> VUndefined ->
              json_clone fuel x s = (Throw e1, s') ->
              exists ls, starts_at (VRef l) ls /\ length ls = S (S fuel)
                         /\ chain h0 ls
                         /\ Forall (fun l => l < length h0)%nat ls).
    { intros x s e1 s' Hs Hx Hxd Hthrow.
      destruct (IH x s e1 s' Hs) as (ls & (l' & rest & -> & ->) & Hlen & Hch & Hall);
        [|done|done|].
      { destruct (lookup_lt_is_Some_2 h0 l Hv) as [c Hc].
        eapply Hwf; [done|]. unfold cell_at in Hx. by rewrite Hc in Hx. }
      exists (l :: l' :: rest). split; [by exists l, (l' :: rest)|].
      split; [simpl in *; lia|]. split; [by constructor|by constructor]. }
    destruct (cell_at h0 l) as [fs|es] eqn:Hcell.
    + apply bind_inv in Hrun as [(kvs & h1 & Hmap & Halloc)|(e' & Hmap & [= <-])].
      { by apply alloc_inv in Halloc as [[=] _]. }
      apply (mapM_throw _ prefix) in Hmap as ([k x] & s1 & Hkx & Hs1 & Hthrow);
        [| done | by intros; etrans | ].
      2:{ intros a s r s' Hr.
          apply bind_inv in Hr as [(y & s2 & Hy & Hret)|(e' & Hy & _)].
          - apply ret_inv in Hret as [_ ->]. by eapply Hpre.
          - by eapply Hpre. }
      apply list_elem_of_filter in Hkx as [Hxd Hkx]. simpl in Hxd.
      apply elem_of_map_to_list in Hkx.
      apply bind_inv in Hthrow as [(y & s2 & Hy & Hret)|(e' & Hy & [= <-])].
      { by apply ret_inv in Hret as [[=] _]. }
      eapply (Hchild x); [by etrans|simpl; eauto|by destruct x|done].
    + apply bind_inv in Hrun as [(es' & h1 & Hmap & Halloc)|(e' & Hmap & [= <-])].
      { by apply alloc_inv in Halloc as [[=] _]. }
      apply (mapM_throw _ prefix) in Hmap as (x & s1 & Hx & Hs1 & Hthrow);
        [| done | by intros; etrans | by intros; eapply Hpre].
      apply list_elem_of_fmap in Hx as (y & -> & Hy).
      destruct y; simpl in Hthrow;
        try (destruct fuel; simpl in Hthrow; discriminate Hthrow).
      eapply (Hchild (VRef l0)); [by etrans|done|done|done].
Qed.

(** Enough fuel: when [JSON.parse(JSON.stringify(v))] throws on a value that
    is not [undefined], a chain of references that starts at [v] comes
    back to a location it has been through: the structure is cyclic, and
    [JSON.stringify] throws on it. *)
Lemma JSON_parse_stringify_throws_on_cycle v e h' :
  in_bounds h0 v -> v <> VUndefined ->
  JSON_parse_stringify v h0 = (Throw e, h') ->
  exists ls, starts_at v ls /\ chain h0 ls /\ ~ NoDup ls.
Proof.
  intros Hv Hdef Hrun. unfold JSON_parse_stringify in Hrun.
  apply json_clone_throw in Hrun as (ls & Hstart & Hlen & Hch & Hall);
    [|done..].
  exists ls. split; [done|]. split; [done|]. intros Hnd.
  assert (ls ⊆+ seq 0 (length h0)) as Hsub.
  { apply NoDup_submseteq; [done|]. intros l Hl.
    rewrite Forall_forall in Hall. apply elem_of_seq. specialize (Hall l Hl). lia. }
  apply submseteq_length in Hsub. rewrite length_seq in Hsub. lia.
Qed.

(** And when it returns, no chain that starts at [v] is longer than the
    fuel: the structure copied is not cyclic. *)
Lemma JSON_parse_stringify_returns_on_chains v v' h' ls :
  in_bounds h0 v ->
  JSON_parse_stringify v h0 = (Ok v', h') ->
  starts_at v ls -> chain h0 ls -> (length ls <= S (length h0))%nat.
Proof.
  intros Hv Hrun Hstart Hch. unfold JSON_parse_stringify in Hrun.
  apply json_clone_copy in Hrun; [|done..].
  by eapply json_copy_chain.
Qed.

End clone_copy.

(** Everything reachable from a new value in a grown heap is new. *)
Lemma reachable_fresh h0 h v l :
  grown h0 h -> fresh (length h0) h v -> reachable h v l ->
  (length h0 <= l < length h)%nat.
Proof.
  intros Hg Hv Hreach. induction Hreach as [l|l v l' Hst Hreach IH].
  - by apply Hv.
  - apply IH. specialize (Hv l eq_refl) as [Hl1 Hl2].
    unfold cell_at in Hst.
    destruct (h !! l) as [c|] eqn:E; simpl in Hst.
    + by eapply grown_stores.
    + apply lookup_ge_None in E. lia.
Qed.

End JSFacts.

Module AuthorizationServiceFacts.
Import JS JSFacts AuthorizationService.

(** *** The unit tests of the service, run on the model *)

Example AuthorizeAccessWhenUserHasPortfolioPermissions :
  let r := authorizePortfolioAccess
             (answering [ {| type := "PORTFOLIO_VIEW";
                             scope := ["Corporate"; "Sales"] |} ])
             (VStr "exec-ceo-001") (VStr "Corporate") (VStr "auth-token-12345")
             empty_world in
  r.1 = Ok true /\ audit_trail r = [("AUTHORIZED"%string, None)].
Proof. by vm_compute. Qed.

Example DenyAccessWhenUserLacksPortfolioPermissions :
  let r := authorizePortfolioAccess (answering sales_only)
             (VStr "exec-sales-001") (VStr "Engineering")
             (VStr "auth-token-12345") empty_world in
  r.1 = Ok false
  /\ audit_trail r
     = [("DENIED", Some "Insufficient permissions for business unit")]%string.
Proof. by vm_compute. Qed.

Example DenyAccessWhenNoPortfolioPermissions :
  let r := authorizePortfolioAccess
             (answering [ {| type := "BASIC_ACCESS"; scope := ["Corporate"] |} ])
             (VStr "exec-readonly-001") (VStr "Corporate")
             (VStr "auth-token-12345") empty_world in
  r.1 = Ok false
  /\ audit_trail r = [("DENIED", Some "No portfolio view permissions")]%string.
Proof. by vm_compute. Qed.

Example RequireValidAuthTokenForAuthorization :
  let r := authorizePortfolioAccess (answering ceo_permissions)
             (VStr "exec-ceo-001") (VStr "Corporate") VNull empty_world in
  r.1 = Ok false
  /\ audit_trail r = [("DENIED", Some "Invalid authentication token")]%string
  /\ calls r.2 = [LogAuthorizationEvent
                    {| userId := VStr "exec-ceo-001";
                       resource := "PORTFOLIO_DATA"; action := "READ";
                       businessUnit := VStr "Corporate"; result := "DENIED";
                       reason := Some "Invalid authentication token" |}]%string.
Proof. by vm_compute. Qed.

Example RequireExecutiveUserIdFormat :
  let r := authorizePortfolioAccess (answering ceo_permissions)
             (VStr "regular-user-001") (VStr "Corporate")
             (VStr "auth-token-12345") empty_world in
  r.1 = Ok false
  /\ audit_trail r = [("DENIED", Some "Invalid executive user ID format")]%string.
Proof. by vm_compute. Qed.

Example EnforceBusinessUnitBoundaries :
  (authorizePortfolioAccess
     (answering [ {| type := "PORTFOLIO_VIEW"; scope := ["Sales"; "Marketing"] |} ])
     (VStr "exec-sales-001") (VStr "TopSecret") (VStr "auth-token-12345")
     empty_world).1 = Ok false.
Proof. by vm_compute. Qed.

Example FilterProjectsByBusinessUnitAccess :
  let r := filterPortfolioDataByPermissions (answering sales_only)
             (VStr "exec-sales-001") (VRef 7%nat) test_world in
  returned_property "id" r = [VStr "proj-1"; VStr "proj-3"]
  /\ returned_property "businessUnit" r = [VStr "Sales"; VStr "Sales"].
Proof. by vm_compute. Qed.

Example RemoveSensitiveDataBasedOnPermissions :
  let r := filterPortfolioDataByPermissions (answering sales_only)
             (VStr "exec-manager-001") (VRef 7%nat) test_world in
  returned_property "budget" r = [VUndefined; VUndefined]
  /\ returned_property "revenue" r = [VUndefined; VUndefined]
  /\ returned_property "detailedMetrics" r = [VUndefined; VUndefined]
  /\ returned_property "name" r = [VStr "Sales CRM"; VStr "Sales Analytics"]
  /\ (exists res, r.1 = Ok res
                  /\ field (heap_of r.2) res "financialData" = VUndefined).
Proof. vm_compute. repeat split. by eexists. Qed.

Example PreserveSensitiveDataForAuthorizedUsers :
  let r := filterPortfolioDataByPermissions
             (answering [ {| type := "PORTFOLIO_VIEW"; scope := ["Sales"] |};
                          {| type := "FINANCIAL_DATA"; scope := ["Sales"] |};
                          {| type := "DETAILED_METRICS"; scope := ["Sales"] |} ])
             (VStr "exec-cfo-001") (VRef 7%nat) test_world in
  returned_property "budget" r = [VNum 1000000; VUndefined]
  /\ returned_property "revenue" r = [VNum 2000000; VUndefined]
  /\ (exists res m, r.1 = Ok res
         /\ field (heap_of r.2) res "financialData" = VRef m
         /\ field (heap_of r.2) (VRef m) "totalBudget" = VNum 5000000).
Proof. vm_compute. repeat split. by eexists _, _. Qed.

(** A portfolio that is its own project: [JSON.stringify] throws on the
    cycle and the handler answers with an empty list. *)
Example cyclic_portfolio_fails_safe :
  let w := {| heap_of := [CObject {[ "projects" := VRef 1%nat ]};
                          CArray [VRef 0%nat]];
              calls := [] |} in
  let r := filterPortfolioDataByPermissions (answering ceo_permissions)
             (VStr "exec-ceo-001") (VRef 0%nat) w in
  (filter_try (answering ceo_permissions) (VStr "exec-ceo-001") (VRef 0%nat) w).1
  = Throw (TypeError "Converting circular structure to JSON")
  /\ r.1 = Ok (VRef 3%nat) /\ returned_projects r = [].
Proof. by vm_compute. Qed.

(** The input of these runs is as it was. *)
Example test_heap_untouched :
  take 8 (heap_of
            (filterPortfolioDataByPermissions (answering sales_only)
               (VStr "exec-sales-001") (VRef 7%nat) test_world).2)
  = test_heap.
Proof. by vm_compute. Qed.

(** *** The access gate *)

Lemma hasPermissionType_true permissions t :
  _hasPermissionType permissions t = true <->
  exists p, p ∈ permissions /\ type p = t.
Proof.
  unfold _hasPermissionType. rewrite existsb_exists. split.
  - intros (p & Hin & Heq). exists p. split; [by apply list_elem_of_In|].
    by apply String.eqb_eq.
  - intros (p & Hin & Heq). exists p. split; [by apply list_elem_of_In|].
    by apply String.eqb_eq.
Qed.

Lemma includes_true units v :
  includes units v = true <-> exists s, v = VStr s /\ s ∈ units.
Proof.
  destruct v; simpl; try (split; [discriminate | by intros (? & ? & _)]).
  rewrite bool_decide_eq_true. split; [eauto|].
  by intros (? & [= <-] & ?).
Qed.

Lemma hasBusinessUnitAccess_grant permissions businessUnit :
  _hasBusinessUnitAccess permissions "PORTFOLIO_VIEW" businessUnit = true <->
  has_grant permissions businessUnit.
Proof.
  unfold _hasBusinessUnitAccess, has_grant. rewrite existsb_exists. split.
  - intros (p & Hin & Hsc). apply filter_In in Hin as [Hin Ht].
    exists p. split; [by apply list_elem_of_In|].
    split; [by apply String.eqb_eq|].
    apply orb_true_iff in Hsc as [Hsc|Hsc]; apply includes_true in Hsc.
    + by left.
    + right. by destruct Hsc as (? & [= <-] & ?).
  - intros (p & Hin & Ht & Hsc). exists p. split.
    + apply filter_In. split; [by apply list_elem_of_In|by apply String.eqb_eq].
    + apply orb_true_iff. destruct Hsc as [Hsc|Hsc]; [left|right];
        apply includes_true; eauto.
Qed.

(** A grant needs a [PORTFOLIO_VIEW] entry to begin with. *)
Lemma has_grant_permission_type permissions businessUnit :
  has_grant permissions businessUnit ->
  _hasPermissionType permissions "PORTFOLIO_VIEW" = true.
Proof.
  intros (p & Hin & Ht & _). apply hasPermissionType_true. eauto.
Qed.

Ltac run_service :=
  unfold authorizePortfolioAccess, try_catch, bind, _logAuthorizationEvent,
    getUserPermissions, call, ret; simpl.

(** The outcome of the gate when the audit sink takes the handler's record. *)
Lemma authorizePortfolioAccess_returns this uid bu tok w :
  accepts_error_records this ->
  exists b, (authorizePortfolioAccess this uid bu tok w).1 = Ok b
    /\ (b = true ->
        truthy tok = true /\ _isValidExecutiveUserId uid = true /\
        exists perms, forgeUserAdapter_getUserPermissions this uid = Ok perms
          /\ _hasPermissionType perms "PORTFOLIO_VIEW" = true
          /\ _hasBusinessUnitAccess perms "PORTFOLIO_VIEW" bu = true).
Proof.
  intros Hacc. run_service.
  destruct (truthy tok); simpl.
  2:{ destruct (auditService_logAuthorizationEvent this _) as [[]|e]; simpl;
        [|rewrite Hacc by done]; by exists false. }
  destruct (_isValidExecutiveUserId uid); simpl.
  2:{ destruct (auditService_logAuthorizationEvent this _) as [[]|e]; simpl;
        [|rewrite Hacc by done]; by exists false. }
  destruct (forgeUserAdapter_getUserPermissions this uid) as [perms|e]; simpl.
  2:{ rewrite Hacc by done. by exists false. }
  destruct (_hasPermissionType perms "PORTFOLIO_VIEW") eqn:Ht; simpl.
  2:{ destruct (auditService_logAuthorizationEvent this _) as [[]|e]; simpl;
        [|rewrite Hacc by done]; by exists false. }
  destruct (_hasBusinessUnitAccess perms "PORTFOLIO_VIEW" bu) eqn:Hb; simpl.
  2:{ destruct (auditService_logAuthorizationEvent this _) as [[]|e]; simpl;
        [|rewrite Hacc by done]; by exists false. }
  destruct (auditService_logAuthorizationEvent this _) as [[]|e]; simpl.
  - exists true. split; [done|]. intros _. repeat split; eauto.
  - rewrite Hacc by done. by exists false.
Qed.

(** C5 (amended): when the audit sink takes the [ERROR] record of the
    handler, [authorizePortfolioAccess] returns a boolean on every input and
    never throws (a failure of the identity provider included), and it
    returns [false] whenever the permission list has no [PORTFOLIO_VIEW]
    entry or no [PORTFOLIO_VIEW] entry whose scope contains the requested
    business unit or [All_Units]. *)
Theorem authorizePortfolioAccess_false_without_grant this uid bu tok w :
  accepts_error_records this ->
  (exists b, (authorizePortfolioAccess this uid bu tok w).1 = Ok b)
  /\ (forall perms,
       forgeUserAdapter_getUserPermissions this uid = Ok perms ->
       (forall p, p ∈ perms -> type p <> "PORTFOLIO_VIEW")
       \/ ~ has_grant perms bu ->
       (authorizePortfolioAccess this uid bu tok w).1 = Ok false)
  /\ (forall e,
       forgeUserAdapter_getUserPermissions this uid = Throw e ->
       (authorizePortfolioAccess this uid bu tok w).1 = Ok false).
Proof.
  intros Hacc.
  destruct (authorizePortfolioAccess_returns this uid bu tok w Hacc)
    as (b & Hb & Htrue).
  split; [eauto|]. split.
  - intros perms Hperms Hno. rewrite Hb. destruct b; [|done].
    destruct Htrue as (_ & _ & perms' & Hperms' & Ht & Hbu); [done|].
    rewrite Hperms in Hperms'. injection Hperms' as <-.
    exfalso. apply hasBusinessUnitAccess_grant in Hbu.
    destruct Hno as [Hno|Hno]; [|done].
    destruct Hbu as (p & Hin & Htp & _). by apply (Hno p).
  - intros e He. rewrite Hb. destruct b; [|done].
    destruct Htrue as (_ & _ & perms' & Hperms' & _); [done|].
    congruence.
Qed.

Lemma authorizePortfolioAccess_false_without_grant_witness :
  (authorizePortfolioAccess (answering sales_only) (VStr "exec-sales-001")
     (VStr "Engineering") (VStr "auth-token-12345") empty_world).1 = Ok false.
Proof.
  refine (proj1 (proj2 (authorizePortfolioAccess_false_without_grant
            (answering sales_only) (VStr "exec-sales-001") (VStr "Engineering")
            (VStr "auth-token-12345") empty_world _)) sales_only eq_refl _).
  - intros d _. reflexivity.
  - right. intros (p & Hin & _ & Hsc).
    apply list_elem_of_In in Hin. destruct Hin as [<-|[]].
    destruct Hsc as [(s0 & [= <-] & Hs)|Hs];
      apply list_elem_of_In in Hs; destruct Hs as [Hs|[]]; discriminate Hs.
Defined.

(** The claim C5 as it is worded fails when the audit sink is down: the
    caller has no [PORTFOLIO_VIEW] entry, the [DENIED] record is rejected, the
    handler's [ERROR] record is rejected as well, and the rejection leaves
    [authorizePortfolioAccess]. *)
Lemma authorizePortfolioAccess_throws_when_audit_down :
  forgeUserAdapter_getUserPermissions (audit_down []) (VStr "exec-sales-001")
    = Ok []
  /\ _hasPermissionType [] "PORTFOLIO_VIEW" = false
  /\ (authorizePortfolioAccess (audit_down []) (VStr "exec-sales-001")
        (VStr "Sales") (VStr "auth-token-12345") empty_world).1
     = Throw {| message := "Audit service unavailable" |}.
Proof. repeat split. Qed.

(** C10 (amended): when the caller identifier is not a string starting with
    [exec-], or the token is falsy, [authorizePortfolioAccess] never returns
    [true], whatever grants the caller holds; it makes no call to the
    identity provider (the only calls it adds are to the audit sink); and it
    returns [false] when the audit sink takes the handler's [ERROR] record. *)
Theorem authorizePortfolioAccess_refuses_before_lookup this uid bu tok w :
  _isValidExecutiveUserId uid = false \/ truthy tok = false ->
  (authorizePortfolioAccess this uid bu tok w).1 <> Ok true
  /\ (exists logs,
        calls (authorizePortfolioAccess this uid bu tok w).2 = calls w ++ logs
        /\ permissions_not_consulted logs)
  /\ (accepts_error_records this ->
      (authorizePortfolioAccess this uid bu tok w).1 = Ok false).
Proof.
  intros Hbad.
  assert (Hlogs : forall d, permissions_not_consulted [LogAuthorizationEvent d]).
  { intros d c Hc id. apply list_elem_of_In in Hc as [<-|[]]. discriminate. }
  assert (Hlogs2 : forall d d', permissions_not_consulted
            [LogAuthorizationEvent d; LogAuthorizationEvent d']).
  { intros d d' c Hc id. apply list_elem_of_In in Hc as [<-|[<-|[]]]; discriminate. }
  run_service.
  destruct (truthy tok); simpl.
  - destruct Hbad as [Hbad|Hbad]; [|done]. rewrite Hbad. simpl.
    destruct (auditService_logAuthorizationEvent this _) as [[]|e]; simpl.
    + split; [done|]. split; [eauto|done].
    + destruct (auditService_logAuthorizationEvent this _) as [[]|e'] eqn:E;
        simpl.
      * split; [done|]. split; [|done].
        eexists. split; [by rewrite <- app_assoc | apply Hlogs2].
      * split; [done|].
        split; [eexists; split; [by rewrite <- app_assoc | apply Hlogs2]|].
        intros Hacc. rewrite Hacc in E by done. done.
  - destruct (auditService_logAuthorizationEvent this _) as [[]|e]; simpl.
    + split; [done|]. split; [eauto|done].
    + destruct (auditService_logAuthorizationEvent this _) as [[]|e'] eqn:E;
        simpl.
      * split; [done|]. split; [|done].
        eexists. split; [by rewrite <- app_assoc | apply Hlogs2].
      * split; [done|].
        split; [eexists; split; [by rewrite <- app_assoc | apply Hlogs2]|].
        intros Hacc. rewrite Hacc in E by done. done.
Qed.

Lemma authorizePortfolioAccess_refuses_before_lookup_witness :
  (authorizePortfolioAccess (answering ceo_permissions) (VStr "regular-user-001")
     (VStr "Corporate") (VStr "auth-token-12345") empty_world).1 = Ok false.
Proof.
  refine (proj2 (proj2 (authorizePortfolioAccess_refuses_before_lookup
            (answering ceo_permissions) (VStr "regular-user-001")
            (VStr "Corporate") (VStr "auth-token-12345") empty_world _)) _).
  - left. reflexivity.
  - intros d _. reflexivity.
Defined.

(** The claim C10 as it is worded fails when the audit sink is down: the
    token is absent and the caller holds a grant for every unit, yet the
    call ends in the rejection of the audit sink and not in [false]. *)
Lemma authorizePortfolioAccess_refusal_throws_when_audit_down :
  truthy VNull = false
  /\ has_grant ceo_permissions (VStr "Corporate")
  /\ (authorizePortfolioAccess (audit_down ceo_permissions) (VStr "exec-ceo-001")
        (VStr "Corporate") VNull empty_world).1
     = Throw {| message := "Audit service unavailable" |}.
Proof.
  split; [done|]. split; [|done].
  exists {| type := "PORTFOLIO_VIEW"; scope := ["Corporate"; "All_Units"] |}.
  split; [apply list_elem_of_In; by left|]. split; [done|].
  right. apply list_elem_of_In. right. by left.
Qed.

(** *** Business-unit scoping *)

Lemma authorizedUnits_elem pp s :
  s ∈ authorizedUnits pp <-> exists p, p ∈ pp /\ s ∈ scope p.
Proof.
  unfold authorizedUnits.
  assert (Hgen : forall acc,
    s ∈ fold_left (fun units permission => units ++ scope permission) pp acc
    <-> s ∈ acc \/ exists p, p ∈ pp /\ s ∈ scope p).
  { induction pp as [|p pp IH]; intros acc; simpl.
    - split; [by left|]. intros [?|(p & Hp & _)]; [done|]. by inversion Hp.
    - rewrite IH, elem_of_app. split.
      + intros [[?|?]|(q & Hq & ?)]; [by left| |].
        * right. exists p. split; [by left|done].
        * right. exists q. split; [by right|done].
      + intros [?|(q & Hq & ?)]; [by left; left|].
        apply elem_of_cons in Hq as [->|Hq]; [by left; right|].
        right. eauto. }
  rewrite Hgen. split; [|by right]. intros [H|H]; [by inversion H|done].
Qed.

(** The test of the filter callback is the grant of the specification. *)
Lemma scoping_check permissions businessUnit :
  scope_test permissions businessUnit = true
  <-> has_grant permissions businessUnit.
Proof.
  rewrite orb_true_iff, !includes_true. unfold has_grant. split.
  - intros [(s & -> & Hs)|(s & [= <-] & Hs)];
      apply authorizedUnits_elem in Hs as (p & Hp & Hs);
      apply list_elem_of_In, filter_In in Hp as [Hp Ht];
      apply list_elem_of_In in Hp; apply String.eqb_eq in Ht;
      exists p; eauto 10.
  - intros (p & Hp & Ht & Hsc).
    assert (Hpv : p ∈ portfolio_view permissions).
    { apply list_elem_of_In, filter_In. split; [by apply list_elem_of_In|].
      by apply String.eqb_eq. }
    destruct Hsc as [(s & -> & Hs)|Hs]; [left|right];
      eexists; (split; [done|]); apply authorizedUnits_elem; eauto.
Qed.

Lemma portfolio_view_empty permissions :
  (length (portfolio_view permissions) =? 0)%nat
  = negb (_hasPermissionType permissions "PORTFOLIO_VIEW").
Proof.
  unfold _hasPermissionType.
  induction permissions as [|p ps IH]; simpl; [done|].
  destruct (String.eqb (type p) "PORTFOLIO_VIEW"); simpl; [done|apply IH].
Qed.

(** The callback of [projects.filter] reads and does not write. *)
Lemma filterM_getProp k (g : val -> bool) es h r h' :
  filterM (fun project => (x <- getProp project k ;; ret (g x))%js) es h = (r, h') ->
  h' = h /\
  (r = Ok (List.filter (fun p => g (field h p k)) es)
   \/ (exists e, r = Throw e) /\ exists p, p ∈ es /\ (p = VNull \/ p = VUndefined)).
Proof.
  revert r h'. induction es as [|p es IH]; intros r h' Hrun; simpl in Hrun.
  - apply ret_inv in Hrun as [-> ->]. split; [done|by left].
  - apply bind_inv in Hrun as [(keep & h1 & Hp & Hrun)|(e & Hp & ->)].
    + apply bind_ok in Hp as (x & h2 & Hx & Hret).
      apply getProp_inv in Hx as [-> [[_ [? [=]]]|(Hn & Hu & [= ->])]].
      apply ret_inv in Hret as [[= ->] ->].
      apply bind_inv in Hrun as [(rest & h2 & Hes & Hret)|(e & Hes & ->)].
      * apply IH in Hes as [-> [[= ->]|[[? [=]] _]]].
        apply ret_inv in Hret as [-> ->]. split; [done|]. left. simpl.
        by destruct (g (field h p k)).
      * apply IH in Hes as [-> [[=]|[_ (q & Hq & Hbad)]]].
        split; [done|]. right. split; [eauto|]. exists q. split; [by right|done].
    + apply bind_inv in Hp as [(x & h2 & Hx & Hret)|(e' & Hx & [= ->])].
      { by apply ret_inv in Hret as [[=] _]. }
      apply getProp_inv in Hx as [-> [[Hbad _]|(_ & _ & [=])]].
      split; [done|]. right. split; [eauto|]. exists p. split; [by left|done].
Qed.

(** [_filterProjectsByBusinessUnit] leaves the heap as it is when it throws;
    when it returns, it has allocated one array, empty if the caller has no
    [PORTFOLIO_VIEW] entry and else made of the elements of [projects] whose
    [businessUnit] the grants cover. *)
Lemma filterProjectsByBusinessUnit_spec projects permissions h r h' :
  _filterProjectsByBusinessUnit projects permissions h = (r, h') ->
  (h' = h /\ exists e, r = Throw e)
  \/ (exists kept,
        r = Ok (VRef (length h)) /\ h' = h ++ [CArray kept]
        /\ (_hasPermissionType permissions "PORTFOLIO_VIEW" = false -> kept = [])
        /\ (_hasPermissionType permissions "PORTFOLIO_VIEW" = true ->
            exists a es, projects = VRef a /\ h !! a = Some (CArray es)
              /\ kept = List.filter
                          (fun p => scope_test permissions (field h p "businessUnit"))
                          es)).
Proof.
  unfold _filterProjectsByBusinessUnit. rewrite portfolio_view_empty.
  destruct (_hasPermissionType permissions "PORTFOLIO_VIEW") eqn:Ht; simpl.
  - unfold array_filter. intros Hrun.
    destruct projects as [| | | | |a];
      try (injection Hrun as <- <-; left; eauto; fail).
    destruct (h !! a) as [[fs|es]|] eqn:Ea;
      try (injection Hrun as <- <-; left; eauto; fail).
    apply bind_inv in Hrun as [(kept & h1 & Hf & Halloc)|(e & Hf & ->)].
    + apply filterM_getProp in Hf as [-> [[= ->]|[[? [=]] _]]].
      apply alloc_inv in Halloc as [-> ->]. right.
      eexists. split; [done|]. split; [done|]. split; [done|].
      intros _. eauto.
    + apply filterM_getProp in Hf as [-> _]. left. eauto.
  - intros Hrun. apply alloc_inv in Hrun as [-> ->]. right.
    exists []. split; [done|]. split; [done|]. split; [done|]. done.
Qed.

(** *** Field redaction *)

(** The callback of [projects.map]: a copy, then the deletions. *)
Lemma redact_callback_run permissions q s :
  (filteredProject <- spread q ;;
   (if negb (_hasPermissionType permissions "FINANCIAL_DATA") then
      deleteProp filteredProject "budget" ;;
      deleteProp filteredProject "revenue"
    else ret tt) ;;
   (if negb (_hasPermissionType permissions "DETAILED_METRICS") then
      deleteProp filteredProject "detailedMetrics"
    else ret tt) ;;
   ret filteredProject)%js s
  = (Ok (VRef (length s)),
     s ++ [CObject (redacted_fields permissions (own_properties s q))]).
Proof.
  unfold redacted_fields, bind at 1. rewrite spread_run.
  destruct (_hasPermissionType permissions "FINANCIAL_DATA");
    destruct (_hasPermissionType permissions "DETAILED_METRICS"); simpl;
    unfold bind, ret; rewrite ?deleteProp_last; done.
Qed.

(** [_filterSensitiveProjectData] on an array of [projects]: one redacted
    copy per project, in order, then the array of the copies. *)
Lemma filterSensitiveProjectData_run permissions h a qs :
  h !! a = Some (CArray qs) -> Forall (in_bounds h) qs ->
  _filterSensitiveProjectData (VRef a) permissions h
  = (Ok (VRef (length h + length qs)%nat),
     h ++ ((fun q => CObject (redacted_fields permissions (own_properties h q)))
             <$> qs)
       ++ [CArray ((fun i => VRef (length h + i)%nat) <$> seq 0 (length qs))]).
Proof.
  intros Ha Hqs. unfold _filterSensitiveProjectData, array_map. rewrite Ha.
  unfold bind at 1.
  rewrite (mapM_alloc_each_run _
    (fun s q => CObject (redacted_fields permissions (own_properties s q))));
    [| apply redact_callback_run
     | by intros q h1 k Hq; rewrite own_properties_app
     | done].
  unfold alloc. f_equal.
  - f_equal. f_equal. by rewrite length_app, length_fmap.
  - by rewrite <- app_assoc.
Qed.

Lemma redacted_fields_lookup permissions fs k x :
  redacted_fields permissions fs !! k = Some x -> fs !! k = Some x.
Proof.
  unfold redacted_fields.
  destruct (_hasPermissionType permissions "FINANCIAL_DATA");
    destruct (_hasPermissionType permissions "DETAILED_METRICS");
    intros H; repeat (apply lookup_delete_Some in H as [_ H]); done.
Qed.

Lemma redacted_fields_other permissions fs k :
  k <> "budget" -> k <> "revenue" -> k <> "detailedMetrics" ->
  redacted_fields permissions fs !! k = fs !! k.
Proof.
  intros Hb Hr Hd. unfold redacted_fields.
  destruct (_hasPermissionType permissions "FINANCIAL_DATA");
    destruct (_hasPermissionType permissions "DETAILED_METRICS");
    by rewrite ?lookup_delete_ne by done.
Qed.

Lemma redacted_fields_financial permissions fs :
  _hasPermissionType permissions "FINANCIAL_DATA" = false ->
  redacted_fields permissions fs !! "budget" = None
  /\ redacted_fields permissions fs !! "revenue" = None.
Proof.
  intros Hf. unfold redacted_fields. rewrite Hf.
  destruct (_hasPermissionType permissions "DETAILED_METRICS");
    split; by simplify_map_eq.
Qed.

Lemma redacted_fields_detailed permissions fs :
  _hasPermissionType permissions "DETAILED_METRICS" = false ->
  redacted_fields permissions fs !! "detailedMetrics" = None.
Proof.
  intros Hd. unfold redacted_fields. rewrite Hd. apply lookup_delete_eq.
Qed.

Lemma redacted_fields_authorized permissions fs :
  _hasPermissionType permissions "FINANCIAL_DATA" = true ->
  _hasPermissionType permissions "DETAILED_METRICS" = true ->
  redacted_fields permissions fs = fs.
Proof. intros Hf Hd. unfold redacted_fields. by rewrite Hf, Hd. Qed.

(** *** The two assignments to [filteredData.projects] *)

(** An object of the new region that has a property is a cell of the heap. *)
Lemma field_is_ref h v k x :
  field h v k = x -> x <> VUndefined ->
  exists l fs, v = VRef l /\ h !! l = Some (CObject fs) /\ fs !! k = Some x.
Proof.
  intros Hx Hne. destruct v as [| | | | |l]; simpl in Hx; try congruence.
  unfold fields_at, cell_at in Hx.
  destruct (h !! l) as [[fs|es]|] eqn:E; simpl in Hx;
    rewrite ?lookup_empty in Hx; simpl in Hx; try congruence.
  destruct (fs !! k) as [y|] eqn:Ek; simpl in Hx; [|congruence].
  subst y. eauto.
Qed.

Lemma filter_projects_spec permissions h0 d h1 r h5 :
  grown h0 h1 -> fresh (length h0) h1 d ->
  filter_projects permissions d h1 = (r, h5) ->
  grown h0 h5 /\
  (r = Ok tt ->
   exists ld fs kept,
     d = VRef ld /\ h1 !! ld = Some (CObject fs)
     /\ (_hasPermissionType permissions "PORTFOLIO_VIEW" = false -> kept = [])
     /\ (_hasPermissionType permissions "PORTFOLIO_VIEW" = true ->
         exists a es, fs !! "projects" = Some (VRef a)
           /\ h1 !! a = Some (CArray es)
           /\ kept = List.filter
                       (fun p => scope_test permissions (field h1 p "businessUnit"))
                       es)
     /\ Forall (fun q => in_bounds h1 q
                 /\ scope_test permissions (field h1 q "businessUnit") = true)
               kept
     /\ let h3 := <[ld := CObject (<["projects" := VRef (length h1)]> fs)]>
                    (h1 ++ [CArray kept]) in
        h5 = <[ld := CObject (<["projects" := VRef (length h3 + length kept)%nat]>
                               (<["projects" := VRef (length h1)]> fs))]>
               (h3 ++ ((fun q => CObject (redacted_fields permissions
                                            (own_properties h3 q))) <$> kept)
                   ++ [CArray ((fun i => VRef (length h3 + i)%nat)
                                 <$> seq 0 (length kept))])).
Proof.
  intros Hg Hd Hrun. unfold filter_projects in Hrun.
  apply bind_inv in Hrun as [(p0 & ? & Hget & Hrun)|(e & Hget & ->)].
  2:{ apply getProp_inv in Hget as [-> _]. done. }
  apply getProp_inv in Hget as [-> [[_ [? [=]]]|(Hdn & Hdu & [= ->])]].
  apply bind_inv in Hrun as [(scoped & h2 & Hsc & Hrun)|(e & Hsc & ->)].
  2:{ apply filterProjectsByBusinessUnit_spec in Hsc
        as [[-> _]|(? & [=] & _)]. done. }
  apply filterProjectsByBusinessUnit_spec in Hsc
    as [[_ [? [=]]]|(kept & [= ->] & -> & Hnone & Hsome)].
  assert (Hkept : Forall (fun q => fresh (length h0) h1 q
              /\ scope_test permissions (field h1 q "businessUnit") = true) kept).
  { destruct (_hasPermissionType permissions "PORTFOLIO_VIEW") eqn:Hpv.
    2:{ rewrite Hnone by done. constructor. }
    destruct (Hsome eq_refl) as (a0 & es & Hp0 & Ha0 & ->).
    apply field_is_ref in Hp0 as (ld & fs & -> & Hld & Hfs); [|done].
    assert (Hfa0 : fresh (length h0) h1 (VRef a0)).
    { eapply grown_stores; [done|by apply Hd|done|]. simpl. eauto. }
    apply Forall_forall. intros q Hq.
    apply list_elem_of_In, filter_In in Hq as [Hq Htest].
    split; [|done].
    eapply grown_stores; [done|by apply Hfa0|done|]. simpl.
    by apply list_elem_of_In. }
  assert (Hg2 : grown h0 (h1 ++ [CArray kept])).
  { apply grown_alloc; [done|]. intros v Hv. simpl in Hv.
    rewrite Forall_forall in Hkept. by apply Hkept. }
  apply bind_inv in Hrun as [([] & h3 & Hset & Hrun)|(e & Hset & ->)].
  2:{ apply setProp_inv in Hset as [[-> _]|(? & ? & _ & _ & [=] & _)]. done. }
  apply setProp_inv in Hset
    as [[_ [? [=]]]|(ld & fs & -> & Hld2 & _ & ->)].
  destruct (Hd ld eq_refl) as [Hld_n Hld_lt].
  assert (Hld : h1 !! ld = Some (CObject fs)).
  { by rewrite lookup_app_l in Hld2. }
  set (h3 := <[ld := CObject (<["projects" := VRef (length h1)]> fs)]>
               (h1 ++ [CArray kept])) in *.
  assert (Hlen3 : length h3 = S (length h1)).
  { unfold h3. rewrite length_insert, length_app. simpl. lia. }
  assert (Hg3 : grown h0 h3).
  { unfold h3. eapply grown_write; [done|done|done|].
    intros y [k' Hy]. simpl.
    destruct (decide ("projects" = k')) as [<-|Hne].
    - rewrite lookup_insert_eq in Hy. injection Hy as <-. right.
      apply fresh_alloc. by apply grown_length in Hg.
    - rewrite lookup_insert_ne in Hy by done. left. eauto. }
  assert (Hld3 : h3 !! ld
                 = Some (CObject (<["projects" := VRef (length h1)]> fs))).
  { unfold h3. apply list_lookup_insert_eq. rewrite length_app. lia. }
  apply bind_inv in Hrun as [(p2 & ? & Hget & Hrun)|(e & Hget & ->)].
  2:{ apply getProp_inv in Hget as [-> _]. done. }
  apply getProp_inv in Hget as [-> [[[[=]|[=]] _]|(_ & _ & [= ->])]].
  assert (Hp2 : field h3 (VRef ld) "projects" = VRef (length h1)).
  { simpl. unfold fields_at, cell_at. rewrite Hld3. simpl.
    by rewrite lookup_insert_eq. }
  change (default VUndefined (fields_at h3 ld !! "projects"))
    with (field h3 (VRef ld) "projects") in Hrun.
  rewrite Hp2 in Hrun.
  assert (Harr : h3 !! length h1 = Some (CArray kept)).
  { unfold h3. rewrite list_lookup_insert_ne by lia.
    rewrite lookup_app_r by done. by rewrite Nat.sub_diag. }
  assert (Hin3 : Forall (in_bounds h3) kept).
  { eapply Forall_impl; [exact Hkept|]. intros q [Hq _] l Hl.
    specialize (Hq l Hl). lia. }
  apply bind_inv in Hrun as [(red & h4 & Hred & Hrun)|(e & Hred & ->)].
  2:{ rewrite (filterSensitiveProjectData_run _ _ _ kept) in Hred by done.
      done. }
  rewrite (filterSensitiveProjectData_run _ _ _ kept) in Hred by done.
  injection Hred as <- <-.
  set (copies := (fun q => CObject (redacted_fields permissions
                                      (own_properties h3 q))) <$> kept) in *.
  set (refs := (fun i => VRef (length h3 + i)%nat) <$> seq 0 (length kept)) in *.
  assert (Hg4 : grown h0 (h3 ++ copies ++ [CArray refs])).
  { apply grown_app; [done|]. intros c v Hc Hv.
    apply elem_of_app in Hc as [Hc|Hc].
    - apply list_elem_of_fmap in Hc as (q & -> & Hq).
      destruct Hv as [k Hk]. apply redacted_fields_lookup in Hk.
      eapply fresh_mono.
      + eapply own_properties_fresh; [done| |done].
        rewrite Forall_forall in Hkept.
        eapply fresh_mono; [by apply Hkept|lia].
      + rewrite length_app. lia.
    - apply list_elem_of_In in Hc as [<-|[]]. simpl in Hv.
      apply list_elem_of_fmap in Hv as (i & -> & Hi).
      apply elem_of_seq in Hi. intros l [= <-].
      unfold copies. rewrite !length_app, length_fmap. simpl.
      apply grown_length in Hg. lia. }
  assert (Hld4 : (h3 ++ copies ++ [CArray refs]) !! ld
                 = Some (CObject (<["projects" := VRef (length h1)]> fs))).
  { rewrite lookup_app_l by lia. done. }
  apply setProp_inv in Hrun
    as [[-> [e ->]]|(ld' & fs' & [= <-] & Hld4' & -> & ->)]; [by split|].
  rewrite Hld4 in Hld4'. injection Hld4' as <-.
  split.
  - eapply grown_write; [done|done|done|].
    intros y [k' Hy]. simpl.
    destruct (decide ("projects" = k')) as [<-|Hne].
    + rewrite lookup_insert_eq in Hy. injection Hy as <-. right.
      intros l [= <-]. rewrite !length_app. unfold copies.
      rewrite length_fmap. simpl. apply grown_length in Hg. lia.
    + rewrite lookup_insert_ne in Hy by done. left. eauto.
  - intros _. exists ld, fs, kept.
    split; [done|]. split; [done|]. split; [done|]. split; [|split; [|done]].
    + intros Hpv. destruct (Hsome Hpv) as (a0 & es & Hp0 & Ha0 & Hk).
      apply field_is_ref in Hp0 as (l & fs' & [= <-] & Hl & Hfs); [|done].
      rewrite Hld in Hl. injection Hl as <-. eauto.
    + eapply Forall_impl; [exact Hkept|]. intros q [Hq Ht].
      split; [by eapply fresh_in_bounds|done].
Qed.

(** *** The [try] block after the fetch of the permissions *)

Lemma has_grant_VStr permissions v :
  has_grant permissions v ->
  (exists s, v = VStr s /\ has_grant permissions (VStr s))
  \/ (forall v', has_grant permissions v').
Proof.
  intros (p & Hp & Ht & [(s & -> & Hs)|Hall]).
  - left. exists s. split; [done|]. exists p. eauto 10.
  - right. intros v'. exists p. eauto.
Qed.

(** Whether the [try] block returns or throws, the heap it leaves has grown
    out of the heap it started in. *)
Lemma filter_with_permissions_grown permissions data h0 r h' :
  filter_with_permissions permissions data h0 = (r, h') -> grown h0 h'.
Proof.
  intros Hrun. unfold filter_with_permissions in Hrun.
  apply bind_inv in Hrun as [(d & h1 & Hclone & Hrun)|(e & Hclone & ->)].
  2:{ apply (json_clone_spec (length h0)) in Hclone as (Hp & Hreg & _);
        [|done|apply forest_start]. apply forest_region in Hreg. by split. }
  apply (json_clone_spec (length h0)) in Hclone as (Hp & Hreg & Hd);
    [|done|apply forest_start].
  apply forest_region in Hreg. specialize (Hd d eq_refl).
  assert (Hg1 : grown h0 h1) by done.
  assert (Hdn : forall l, d = VRef l -> (length h0 <= l)%nat).
  { intros l Hl. by apply Hd. }
  apply bind_inv in Hrun as [(p0 & ? & Hget & Hrun)|(e & Hget & ->)];
    apply getProp_inv in Hget as [-> _]; [|done].
  assert (Hblock : forall r5 h5,
            (if truthy p0 then filter_projects permissions d else ret tt) h1
            = (r5, h5) -> grown h0 h5).
  { intros r5 h5 Hb. destruct (truthy p0).
    - by apply filter_projects_spec with (h0 := h0) in Hb as [? _].
    - by apply ret_inv in Hb as [_ ->]. }
  apply bind_inv in Hrun as [([] & h5 & Hb & Hrun)|(e & Hb & ->)];
    apply Hblock in Hb; [|done].
  assert (Hdelete : forall r6 h6,
            (if negb (_hasPermissionType permissions "FINANCIAL_DATA")
             then deleteProp d "financialData" else ret tt) h5 = (r6, h6) ->
            grown h0 h6).
  { intros r6 h6 Hdel.
    destruct (negb (_hasPermissionType permissions "FINANCIAL_DATA")).
    - exact (grown_deleteProp _ _ _ _ _ _ Hb Hdn Hdel).
    - by apply ret_inv in Hdel as [_ ->]. }
  apply bind_inv in Hrun as [([] & h6 & Hdel & Hrun)|(e & Hdel & ->)];
    apply Hdelete in Hdel; [|done].
  by apply ret_inv in Hrun as [_ ->].
Qed.

(** The heap the [try] block leaves when it returns.  Without a project
    list, [projects] reads as it did in the copy.  With one, the copy [ld]
    of the portfolio points to a new array of redacted copies, one for each
    element [kept] by the scoping step, in order. *)
Lemma filter_with_permissions_ok permissions data h0 res h' :
  filter_with_permissions permissions data h0 = (Ok res, h') ->
  exists h1,
    JSON_parse_stringify data h0 = (Ok res, h1)
    /\ (length h1 <= length h')%nat
    /\ ((truthy (field h1 res "projects") = false
         /\ field h' res "projects" = field h1 res "projects")
        \/ (truthy (field h1 res "projects") = true /\
            exists ld fs kept,
              res = VRef ld /\ h1 !! ld = Some (CObject fs)
              /\ (_hasPermissionType permissions "PORTFOLIO_VIEW" = false ->
                  kept = [])
              /\ (_hasPermissionType permissions "PORTFOLIO_VIEW" = true ->
                  exists a es, fs !! "projects" = Some (VRef a)
                    /\ h1 !! a = Some (CArray es)
                    /\ kept = List.filter
                                (fun p => scope_test permissions
                                            (field h1 p "businessUnit")) es)
              /\ Forall (fun q => in_bounds h1 q
                          /\ scope_test permissions
                               (field h1 q "businessUnit") = true) kept
              /\ let h3 := <[ld := CObject (<["projects" := VRef (length h1)]> fs)]>
                             (h1 ++ [CArray kept]) in
                 field h' (VRef ld) "projects"
                 = VRef (length h3 + length kept)%nat
                 /\ h' !! (length h3 + length kept)%nat
                    = Some (CArray ((fun i => VRef (length h3 + i)%nat)
                                      <$> seq 0 (length kept)))
                 /\ forall i q,
                      kept !! i = Some q ->
                      h' !! (length h3 + i)%nat
                      = Some (CObject (redacted_fields permissions
                                         (own_properties h3 q))))).
Proof.
  intros Hrun. unfold filter_with_permissions in Hrun.
  apply bind_ok in Hrun as (d & h1 & Hclone & Hrun).
  pose proof Hclone as Hspec.
  apply (json_clone_spec (length h0)) in Hspec as (Hp & Hreg & Hd);
    [|done|apply forest_start].
  apply forest_region in Hreg. specialize (Hd d eq_refl).
  assert (Hg1 : grown h0 h1) by done.
  apply bind_ok in Hrun as (p0 & ? & Hget & Hrun).
  apply getProp_inv in Hget as [-> [[_ [? [=]]]|(_ & _ & [= ->])]].
  apply bind_ok in Hrun as ([] & h5 & Hblock & Hrun).
  apply bind_ok in Hrun as ([] & h6 & Hdel & Hrun).
  apply ret_inv in Hrun as [[= ->] ->].
  exists h1. split; [done|].
  destruct (truthy (field h1 d "projects")) eqn:Htruthy.
  - (* the project list is there: scoping, then redaction *)
    apply filter_projects_spec with (h0 := h0) in Hblock as [_ Hfacts];
      [|done..].
    destruct (Hfacts eq_refl)
      as (ld & fs & kept & -> & Hld & Hnone & Hsome & Hkept & Hh5).
    clear Hfacts. simpl in Hh5.
    set (h3 := <[ld := CObject (<["projects" := VRef (length h1)]> fs)]>
                 (h1 ++ [CArray kept])) in *.
    set (copies := (fun q => CObject (redacted_fields permissions
                                        (own_properties h3 q))) <$> kept) in *.
    set (refs := (fun i => VRef (length h3 + i)%nat) <$> seq 0 (length kept)) in *.
    set (fs5 := <["projects" := VRef (length h3 + length kept)%nat]>
                  (<["projects" := VRef (length h1)]> fs)) in *.
    destruct (Hd ld eq_refl) as [Hld_n Hld_lt].
    assert (Hlen3 : length h3 = S (length h1)).
    { unfold h3. rewrite length_insert, length_app. simpl. lia. }
    assert (Hlenc : length copies = length kept).
    { unfold copies. by rewrite length_fmap. }
    assert (Hlen5 : length h5 = (length h3 + length kept + 1)%nat).
    { subst h5. rewrite length_insert, !length_app, Hlenc. simpl. lia. }
    assert (Hld5 : h5 !! ld = Some (CObject fs5)).
    { subst h5. apply list_lookup_insert_eq. rewrite length_app. lia. }
    assert (Harr5 : h5 !! (length h3 + length kept)%nat = Some (CArray refs)).
    { subst h5. rewrite list_lookup_insert_ne by lia.
      rewrite lookup_app_r by lia. rewrite lookup_app_r by lia.
      rewrite Hlenc.
      by replace (length h3 + length kept - length h3 - length kept)%nat
        with 0%nat by lia. }
    assert (Hcopy5 : forall i q, kept !! i = Some q ->
              h5 !! (length h3 + i)%nat
              = Some (CObject (redacted_fields permissions (own_properties h3 q)))).
    { intros i q Hq. subst h5. rewrite list_lookup_insert_ne by lia.
      rewrite lookup_app_r by lia. apply lookup_lt_Some in Hq as Hi.
      rewrite lookup_app_l by lia.
      replace (length h3 + i - length h3)%nat with i by lia.
      unfold copies. rewrite list_lookup_fmap, Hq. done. }
    (* the deletion of [financialData] touches the root object only *)
    assert (Hlast : length h6 = length h5
              /\ (exists fs6, h6 !! ld = Some (CObject fs6)
                     /\ fs6 !! "projects"
                        = Some (VRef (length h3 + length kept)%nat))
              /\ (forall l, l <> ld -> h6 !! l = h5 !! l)).
    { destruct (negb (_hasPermissionType permissions "FINANCIAL_DATA")).
      - apply deleteProp_inv in Hdel
          as [[-> _]|(l & fs' & [= <-] & Hl & _ & ->)].
        + split; [done|]. split; [|done].
          exists fs5. split; [done|]. unfold fs5. by rewrite lookup_insert_eq.
        + rewrite Hld5 in Hl. injection Hl as <-.
          split; [apply length_insert|split].
          * eexists. split; [apply list_lookup_insert_eq; lia|].
            rewrite lookup_delete_ne by done. unfold fs5.
            by rewrite lookup_insert_eq.
          * intros l Hl. by rewrite list_lookup_insert_ne.
      - apply ret_inv in Hdel as [_ ->].
        split; [done|]. split; [|done].
        exists fs5. split; [done|]. unfold fs5. by rewrite lookup_insert_eq. }
    destruct Hlast as (Hlen6 & (fs6 & Hld6 & Hproj) & Hother).
    split; [lia|]. right. split; [done|]. exists ld, fs, kept.
    split; [done|]. split; [done|]. split; [done|]. split; [done|].
    split; [done|]. cbv zeta. fold h3. split; [|split].
    + simpl. unfold fields_at, cell_at. rewrite Hld6. simpl. by rewrite Hproj.
    + by rewrite Hother by lia.
    + intros i q Hq. apply lookup_lt_Some in Hq as Hi.
      rewrite Hother by lia. by apply Hcopy5.
  - (* no project list: only [financialData] may go *)
    apply ret_inv in Hblock as [_ ->].
    assert (length h6 = length h1
            /\ field h6 d "projects" = field h1 d "projects") as [Hlen6 Hf6].
    { destruct (negb (_hasPermissionType permissions "FINANCIAL_DATA")).
      - split; [by eapply deleteProp_length|].
        by eapply field_deleteProp_ne.
      - by apply ret_inv in Hdel as [_ ->]. }
    split; [lia|]. by left.
Qed.

Lemma filter_with_permissions_spec permissions data h0 r h' :
  filter_with_permissions permissions data h0 = (r, h') ->
  grown h0 h' /\
  forall res, r = Ok res ->
    fresh (length h0) h' res /\
    forall a ps,
      field h' res "projects" = VRef a -> h' !! a = Some (CArray ps) ->
      (_hasPermissionType permissions "PORTFOLIO_VIEW" = false -> ps = [])
      /\ forall p, p ∈ ps ->
           exists o fs, p = VRef o /\ h' !! o = Some (CObject fs)
             /\ has_grant permissions (default VUndefined (fs !! "businessUnit"))
             /\ (_hasPermissionType permissions "FINANCIAL_DATA" = false ->
                 fs !! "budget" = None /\ fs !! "revenue" = None)
             /\ (_hasPermissionType permissions "DETAILED_METRICS" = false ->
                 fs !! "detailedMetrics" = None).
Proof.
  intros Hrun. split; [by eapply filter_with_permissions_grown|].
  intros res ->.
  apply filter_with_permissions_ok in Hrun as (h1 & Hclone & Hlen & Hcases).
  apply (json_clone_spec (length h0)) in Hclone as (_ & _ & Hd);
    [|done|apply forest_start].
  specialize (Hd res eq_refl).
  split; [eapply fresh_mono; [done|lia]|].
  intros a ps Ha Hps.
  destruct Hcases as [[Hfalsy Hsame]|
    (_ & ld & fs & kept & -> & Hld & Hnone & _ & Hkept & Hproj & Harr & Hcopy)].
  { rewrite Hsame in Ha. by rewrite Ha in Hfalsy. }
  cbv zeta in Hproj, Harr, Hcopy.
  set (h3 := <[ld := CObject (<["projects" := VRef (length h1)]> fs)]>
               (h1 ++ [CArray kept])) in *.
  rewrite Hproj in Ha. injection Ha as <-.
  rewrite Harr in Hps. injection Hps as <-.
  split.
  { intros Hpv. by rewrite (Hnone Hpv). }
  intros p Hpin.
  apply list_elem_of_fmap in Hpin as (i & -> & Hi). apply elem_of_seq in Hi.
  destruct (lookup_lt_is_Some_2 kept i ltac:(lia)) as [q Hq].
  exists (length h3 + i)%nat, (redacted_fields permissions (own_properties h3 q)).
  split; [done|]. split; [by apply Hcopy|].
  split; [|split; [apply redacted_fields_financial
                  |apply redacted_fields_detailed]].
  rewrite redacted_fields_other by done.
  rewrite Forall_forall in Hkept.
  destruct (Hkept q) as [Hqb Hqt]; [by eapply list_elem_of_lookup_2|].
  apply scoping_check, has_grant_VStr in Hqt as [(s & Hs & Hgrant)|Hall];
    [|apply Hall].
  apply field_is_ref in Hs as (lq & fsq & -> & Hlq & Hbu); [|done].
  enough (own_properties h3 (VRef lq) !! "businessUnit" = Some (VStr s))
    as -> by done.
  simpl. unfold cell_at, h3.
  destruct (decide (ld = lq)) as [<-|Hne].
  + rewrite list_lookup_insert_eq
      by (rewrite length_app; apply lookup_lt_Some in Hld; lia).
    simpl. rewrite lookup_insert_ne by done. congruence.
  + rewrite list_lookup_insert_ne by done.
    rewrite lookup_app_l by by eapply lookup_lt_Some.
    by rewrite Hlq.
Qed.

(** *** The list returned, from the list passed in *)

Lemma Forall2_filter_agree {A B} (R : A -> B -> Prop) (f : A -> bool)
    (g : B -> bool) l k :
  (forall x y, R x y -> f x = g y) ->
  Forall2 R l k -> Forall2 R (List.filter f l) (List.filter g k).
Proof.
  intros Hfg HF. induction HF as [|x y l k Hxy _ IH]; simpl; [done|].
  rewrite <- (Hfg x y Hxy). destruct (f x); [by constructor|done].
Qed.

Lemma Forall2_elem_r {A B} (R : A -> B -> Prop) l k :
  Forall2 R l k -> Forall2 (fun x y => R x y /\ y ∈ k) l k.
Proof.
  intros HF. induction HF as [|x y l k Hxy _ IH]; [done|].
  constructor; [split; [done|by left]|].
  eapply Forall2_impl; [done|]. intros ? ? [? ?]. split; [done|by right].
Qed.

(** A project and its JSON copy fare alike in the scoping test. *)
Lemma json_copy_scope_test permissions n h h' q q' :
  json_copy n h h' (undefined_to_null q) q' ->
  scope_test permissions (field h q "businessUnit")
  = scope_test permissions (field h' q' "businessUnit").
Proof.
  destruct q as [| | | | |l]; simpl undefined_to_null;
    try (by intros ->%json_copy_primitive).
  destruct n as [|n]; [done|]. cbn [json_copy].
  intros (l' & -> & Hcell). simpl. unfold fields_at at 2.
  unfold fields_at, cell_at at 2.
  destruct (cell_at h l) as [fs|es].
  - destruct Hcell as (fs' & -> & Hk). simpl. specialize (Hk "businessUnit"%string).
    destruct (fs !! "businessUnit") as [x|]; [|by rewrite Hk].
    destruct x; try (by rewrite Hk);
      destruct Hk as (x' & -> & Hx); simpl;
      try (by apply json_copy_primitive in Hx as ->).
    destruct n; [done|]. by destruct Hx as (? & -> & _).
  - by destruct Hcell as (es' & -> & _).
Qed.

(** When the [try] block returns on a portfolio with a project list, the
    list it leaves holds one redacted copy for each project of the input
    that passes the scoping test, in the order of the input. *)
Lemma filter_with_permissions_refines permissions data h0 res h' es0 :
  well_formed h0 -> has_projects h0 data es0 ->
  filter_with_permissions permissions data h0 = (Ok res, h') ->
  exists ps,
    has_projects h' res ps
    /\ Forall2 (redacted_copy permissions (length h0) h0 h')
               (surviving permissions h0 es0) ps.
Proof.
  intros Hwf (a0 & Hf0 & Ha0) Hrun.
  apply field_is_ref in Hf0 as (l0 & fs0 & -> & Hl0 & Hfs0); [|done].
  apply filter_with_permissions_ok in Hrun as (h1 & Hclone & Hlen & Hcases).
  pose proof Hclone as Hcopy.
  apply (json_clone_copy h0 Hwf) in Hcopy;
    [|done|intros ? [= <-]; by eapply lookup_lt_Some].
  apply (json_clone_spec (length h0)) in Hclone as (Hp & Hforest & Hfresh);
    [|done|apply forest_start].
  (* the copy of the portfolio and of its project list *)
  cbn [json_copy] in Hcopy. destruct Hcopy as (ld & -> & Hcopy).
  destruct (Hfresh _ eq_refl ld eq_refl) as [Hld_n Hld_lt]. clear Hfresh.
  unfold cell_at in Hcopy. rewrite Hl0 in Hcopy. simpl in Hcopy.
  destruct Hcopy as (fs1 & Hld & Hk). specialize (Hk "projects"%string).
  rewrite Hfs0 in Hk. destruct Hk as (x' & Hfs1 & Hcopy).
  remember (length h0) as m eqn:Hm in Hcopy.
  destruct m as [|n]; [done|]. cbn [json_copy] in Hcopy.
  destruct Hcopy as (a1 & -> & Hcopy).
  unfold cell_at in Hcopy. rewrite Ha0 in Hcopy. simpl in Hcopy.
  destruct Hcopy as (es1 & Ha1 & Hes).
  assert (Hproj1 : field h1 (VRef ld) "projects" = VRef a1).
  { simpl. unfold fields_at, cell_at. rewrite Hld. simpl. by rewrite Hfs1. }
  destruct Hcases as [[Hfalsy _]|
    (_ & ld' & fs & kept & [= <-] & Hld' & Hnone & Hsome & Hkept
       & Hproj & Harr & Hcopies)].
  { by rewrite Hproj1 in Hfalsy. }
  rewrite Hld in Hld'. injection Hld' as <-.
  cbv zeta in Hproj, Harr, Hcopies.
  set (h3 := <[ld := CObject (<["projects" := VRef (length h1)]> fs1)]>
               (h1 ++ [CArray kept])) in *.
  eexists. split; [by eexists|].
  unfold surviving.
  destruct (_hasPermissionType permissions "PORTFOLIO_VIEW") eqn:Hpv.
  2:{ rewrite (Hnone eq_refl). constructor. }
  destruct (Hsome eq_refl) as (a & es & Hfs & Ha & Hkept_eq).
  rewrite Hfs1 in Hfs. injection Hfs as <-.
  rewrite Ha1 in Ha. injection Ha as <-.
  (* the order of allocation keeps the projects apart from the portfolio *)
  assert (Ha1ld : (length h0 <= a1 < ld)%nat).
  { apply (Hforest ld (CObject fs1) Hld_n Hld (VRef a1)); [|done].
    simpl. eauto. }
  assert (Hbelow : forall l, VRef l ∈ es1 -> (l < a1)%nat).
  { intros l Hl.
    by apply (Hforest a1 (CArray es1) ltac:(lia) Ha1 (VRef l)). }
  (* the projects kept are the copies of the projects that pass the test *)
  assert (HF1 : Forall2 (fun q0 q => json_copy n h0 h1 (undefined_to_null q0) q
                                     /\ q ∈ es1)
                  (List.filter (fun q => scope_test permissions
                                           (field h0 q "businessUnit")) es0)
                  kept).
  { rewrite Hkept_eq. apply Forall2_filter_agree.
    - intros q0 q [Hq _]. by eapply json_copy_scope_test.
    - by apply Forall2_elem_r. }
  assert (HF2 : Forall2 (fun q p => exists i, kept !! i = Some q
                                              /\ p = VRef (length h3 + i)%nat)
                  kept ((fun i => VRef (length h3 + i)%nat)
                          <$> seq 0 (length kept))).
  { apply Forall2_same_length_lookup_2.
    - by rewrite length_fmap, length_seq.
    - intros i q p Hq Hpi. exists i. split; [done|].
      rewrite list_lookup_fmap in Hpi. apply lookup_lt_Some in Hq as Hi.
      rewrite lookup_seq_lt in Hpi by done. by injection Hpi as <-. }
  eapply Forall2_trans; [|exact HF1|exact HF2].
  clear HF1 HF2. intros q0 q p [Hcopy Hq] (i & Hi & ->).
  assert (Hlen3 : length h3 = S (length h1)).
  { unfold h3. rewrite length_insert, length_app. simpl. lia. }
  eexists _, _. split; [done|]. split; [by apply Hcopies|].
  split; [apply prefix_length in Hp; lia|].
  split; [apply redacted_fields_financial|].
  split; [apply redacted_fields_detailed|].
  intros k x Hkb Hkr Hkd Hx Hprim.
  rewrite redacted_fields_other by done.
  apply field_is_ref in Hx as (l & fsq & -> & Hl & Hfsq);
    [|by destruct x].
  simpl undefined_to_null in Hcopy.
  destruct n as [|n]; [done|]. cbn [json_copy] in Hcopy.
  destruct Hcopy as (l' & -> & Hcopy).
  unfold cell_at in Hcopy. rewrite Hl in Hcopy. simpl in Hcopy.
  destruct Hcopy as (fs' & Hl' & Hk). specialize (Hk k).
  rewrite Hfsq in Hk.
  assert (fs' !! k = Some x) as Hres.
  { destruct x; try discriminate Hprim;
      by destruct Hk as (x' & ? & ->%json_copy_primitive). }
  specialize (Hbelow l' Hq).
  simpl. unfold cell_at, h3.
  rewrite list_lookup_insert_ne by lia.
  rewrite lookup_app_l by by eapply lookup_lt_Some.
  by rewrite Hl'.
Qed.

(** *** [filterPortfolioDataByPermissions] *)

Lemma on_heap_inv {A} (m : M heap A) w r w' :
  on_heap m w = (r, w') ->
  exists h', m (heap_of w) = (r, h')
             /\ w' = {| heap_of := h'; calls := calls w |}.
Proof.
  unfold on_heap. destruct (m (heap_of w)) as [r0 h'].
  intros [= <- <-]. eauto.
Qed.

(** The [try] block either fails at the fetch of the permissions, the
    heap untouched, or runs the filtering steps with the list fetched. *)
Lemma filter_try_inv this uid data w r w' :
  filter_try this uid data w = (r, w') ->
  (exists e, forgeUserAdapter_getUserPermissions this uid = Throw e
             /\ r = Throw e /\ heap_of w' = heap_of w)
  \/ (exists perms,
        forgeUserAdapter_getUserPermissions this uid = Ok perms
        /\ filter_with_permissions perms data (heap_of w) = (r, heap_of w')).
Proof.
  unfold filter_try, getUserPermissions, call, bind.
  destruct (forgeUserAdapter_getUserPermissions this uid) as [perms|e].
  - intros Hrun. apply on_heap_inv in Hrun as (h' & Hrun & ->). right. eauto.
  - intros [= <- <-]. left. eauto.
Qed.

(** The value of the handler: a new object whose [projects] is a new empty
    array. *)
Lemma fail_safe_result_run h :
  fail_safe_result h
  = (Ok (VRef (S (length h))),
     h ++ [CArray []; CObject {[ "projects" := VRef (length h) ]}]).
Proof.
  unfold fail_safe_result, bind, alloc. rewrite length_app. simpl.
  rewrite Nat.add_1_r. by rewrite <- app_assoc.
Qed.

Lemma grown_fail_safe h0 h :
  grown h0 h ->
  grown h0 (h ++ [CArray []; CObject {[ "projects" := VRef (length h) ]}])
  /\ fresh (length h0)
        (h ++ [CArray []; CObject {[ "projects" := VRef (length h) ]}])
        (VRef (S (length h))).
Proof.
  intros Hg. pose proof (grown_length _ _ Hg) as Hlen. split.
  - apply grown_app; [done|]. intros c v Hc Hv.
    apply list_elem_of_In in Hc as [<-|[<-|[]]]; simpl in Hv.
    + by inversion Hv.
    + destruct Hv as [k Hk]. apply lookup_singleton_Some in Hk as [_ <-].
      intros l [= <-]. rewrite length_app. simpl. lia.
  - intros l [= <-]. rewrite length_app. simpl. lia.
Qed.

(** The whole method: it returns on every input; the heap it ends with has
    grown out of the heap it started from; the value returned is new; and
    the project list it returns, if any, is scoped and redacted. *)
Lemma filterPortfolioDataByPermissions_spec this uid data w :
  exists res w',
    filterPortfolioDataByPermissions this uid data w = (Ok res, w')
    /\ grown (heap_of w) (heap_of w')
    /\ fresh (length (heap_of w)) (heap_of w') res
    /\ (forall e w1, filter_try this uid data w = (Throw e, w1) ->
        exists o a, res = VRef o
          /\ heap_of w' !! o = Some (CObject {[ "projects" := VRef a ]})
          /\ heap_of w' !! a = Some (CArray []))
    /\ (forall perms a ps,
        forgeUserAdapter_getUserPermissions this uid = Ok perms ->
        field (heap_of w') res "projects" = VRef a ->
        heap_of w' !! a = Some (CArray ps) ->
        (_hasPermissionType perms "PORTFOLIO_VIEW" = false -> ps = [])
        /\ forall p, p ∈ ps ->
             exists o fs, p = VRef o /\ heap_of w' !! o = Some (CObject fs)
               /\ has_grant perms (default VUndefined (fs !! "businessUnit"))
               /\ (_hasPermissionType perms "FINANCIAL_DATA" = false ->
                   fs !! "budget" = None /\ fs !! "revenue" = None)
               /\ (_hasPermissionType perms "DETAILED_METRICS" = false ->
                   fs !! "detailedMetrics" = None)).
Proof.
  unfold filterPortfolioDataByPermissions, try_catch.
  destruct (filter_try this uid data w) as [[res|e] w1] eqn:Htry.
  - (* the [try] block returned *)
    exists res, w1. split; [done|].
    apply filter_try_inv in Htry as [(e & _ & [=] & _)|(perms & Hperms & Hrun)].
    apply filter_with_permissions_spec in Hrun as [Hg Hres].
    destruct (Hres res eq_refl) as [Hfresh Hprojects].
    split; [done|]. split; [done|]. split; [done|].
    intros perms' a ps Hperms'. rewrite Hperms in Hperms'.
    injection Hperms' as <-. apply Hprojects.
  - (* the [try] block threw: the handler answers *)
    assert (Hg1 : grown (heap_of w) (heap_of w1)).
    { apply filter_try_inv in Htry as [(e' & _ & _ & ->)|(perms & _ & Hrun)].
      - apply grown_refl.
      - by apply filter_with_permissions_spec in Hrun as [Hg _]. }
    unfold on_heap. rewrite fail_safe_result_run.
    destruct (grown_fail_safe _ _ Hg1) as [Hg2 Hfresh].
    eexists _, _. split; [done|]. simpl.
    split; [done|]. split; [done|].
    assert (Hobj : (heap_of w1 ++ [CArray [];
                      CObject {[ "projects" := VRef (length (heap_of w1)) ]}])
                   !! S (length (heap_of w1))
                   = Some (CObject {[ "projects" := VRef (length (heap_of w1)) ]})).
    { rewrite lookup_app_r by lia.
      by replace (S (length (heap_of w1)) - length (heap_of w1))%nat
        with 1%nat by lia. }
    assert (Harr : (heap_of w1 ++ [CArray [];
                      CObject {[ "projects" := VRef (length (heap_of w1)) ]}])
                   !! length (heap_of w1) = Some (CArray [])).
    { rewrite lookup_app_r by lia. by rewrite Nat.sub_diag. }
    split.
    + intros _ _ _. eauto.
    + intros perms a ps _ Ha Hps.
      simpl in Ha. unfold fields_at, cell_at in Ha. rewrite Hobj in Ha.
      simpl in Ha. rewrite lookup_singleton_eq in Ha. simpl in Ha.
      injection Ha as <-. rewrite Harr in Hps. injection Hps as <-.
      split; [done|]. intros p Hp. by inversion Hp.
Qed.

(** When the [try] block returns, so does the method, with the same value
    and the same state. *)
Lemma filter_try_returns this uid data w res w1 :
  filter_try this uid data w = (Ok res, w1) ->
  filterPortfolioDataByPermissions this uid data w = (Ok res, w1).
Proof.
  intros Htry. unfold filterPortfolioDataByPermissions, try_catch.
  by rewrite Htry.
Qed.

Lemma filter_try_refines this uid data w perms res w1 es :
  well_formed (heap_of w) -> has_projects (heap_of w) data es ->
  forgeUserAdapter_getUserPermissions this uid = Ok perms ->
  filter_try this uid data w = (Ok res, w1) ->
  exists ps,
    has_projects (heap_of w1) res ps
    /\ Forall2 (redacted_copy perms (length (heap_of w)) (heap_of w) (heap_of w1))
               (surviving perms (heap_of w) es) ps.
Proof.
  intros Hwf Hes Hperms Htry.
  apply filter_try_inv in Htry as [(e & _ & [=] & _)|(perms' & Hperms' & Hrun)].
  rewrite Hperms in Hperms'. injection Hperms' as <-.
  by eapply filter_with_permissions_refines.
Qed.

(** On a portfolio with a project list the method returns a project list. *)
Lemma filterPortfolioDataByPermissions_has_projects this uid data w res w' es :
  well_formed (heap_of w) -> has_projects (heap_of w) data es ->
  filterPortfolioDataByPermissions this uid data w = (Ok res, w') ->
  exists ps, has_projects (heap_of w') res ps.
Proof.
  intros Hwf Hes Hrun.
  destruct (filter_try this uid data w) as [[res1|e] w1] eqn:Htry.
  - rewrite (filter_try_returns _ _ _ _ _ _ Htry) in Hrun.
    injection Hrun as <- <-.
    pose proof Htry as Hinv.
    apply filter_try_inv in Hinv as [(e & _ & [=] & _)|(perms & Hperms & _)].
    destruct (filter_try_refines _ _ _ _ _ _ _ _ Hwf Hes Hperms Htry)
      as (ps & Hps & _).
    eauto.
  - destruct (filterPortfolioDataByPermissions_spec this uid data w)
      as (res0 & w0 & Hrun0 & _ & _ & Hfail & _).
    rewrite Hrun in Hrun0. injection Hrun0 as <- <-.
    destruct (Hfail e w1 Htry) as (o & a & -> & Ho & Ha).
    exists []. exists a. split; [|done].
    simpl. unfold fields_at, cell_at. rewrite Ho. simpl.
    by rewrite lookup_singleton_eq.
Qed.

Lemma surviving_all_units perms h es :
  (exists p, p ∈ perms /\ type p = "PORTFOLIO_VIEW" /\ "All_Units" ∈ scope p) ->
  surviving perms h es = es.
Proof.
  intros (p & Hp & Ht & Hall). unfold surviving.
  rewrite (proj2 (hasPermissionType_true perms "PORTFOLIO_VIEW")) by eauto.
  rewrite <- (List.filter_true es) at 2. apply List.filter_ext.
  intros q. apply scoping_check. exists p. eauto.
Qed.

Lemma hasPermissionType_false permissions t :
  _hasPermissionType permissions t = false <->
  forall p, p ∈ permissions -> type p <> t.
Proof.
  split.
  - intros Hf p Hp Ht.
    assert (_hasPermissionType permissions t = true) by
      (apply hasPermissionType_true; eauto).
    congruence.
  - intros Hno. destruct (_hasPermissionType permissions t) eqn:E; [|done].
    apply hasPermissionType_true in E as (p & Hp & Ht). by destruct (Hno p).
Qed.

(** With [All_Units] granted the scoping step keeps every project. *)
Lemma filterProjectsByBusinessUnit_all_units permissions h a es :
  (exists p, p ∈ permissions /\ type p = "PORTFOLIO_VIEW"
             /\ "All_Units" ∈ scope p) ->
  h !! a = Some (CArray es) ->
  Forall (fun p => p <> VNull /\ p <> VUndefined) es ->
  _filterProjectsByBusinessUnit (VRef a) permissions h
  = (Ok (VRef (length h)), h ++ [CArray es]).
Proof.
  intros (p & Hp & Ht & Hall) Ha Hes.
  assert (Hgrant : forall v, has_grant permissions v).
  { intros v. exists p. eauto. }
  destruct (_filterProjectsByBusinessUnit (VRef a) permissions h)
    as [r h'] eqn:Hrun.
  pose proof Hrun as Hspec.
  apply filterProjectsByBusinessUnit_spec in Hspec
    as [[-> [e ->]]|(kept & -> & -> & _ & Hsome)].
  - (* it cannot throw: no element is [null] or [undefined] *)
    exfalso. unfold _filterProjectsByBusinessUnit in Hrun.
    rewrite portfolio_view_empty in Hrun.
    rewrite (proj2 (hasPermissionType_true permissions "PORTFOLIO_VIEW"))
      in Hrun by eauto.
    simpl in Hrun. unfold array_filter in Hrun. rewrite Ha in Hrun.
    apply bind_inv in Hrun as [(kept & h1 & Hf & Halloc)|(e' & Hf & _)].
    + by apply alloc_inv in Halloc as [[=] _].
    + apply filterM_getProp in Hf as [_ [[=]|[_ (q & Hq & Hbad)]]].
      rewrite Forall_forall in Hes. destruct (Hes q Hq) as [? ?].
      by destruct Hbad.
  - destruct Hsome as (a' & es' & [= <-] & Ha' & ->).
    { apply hasPermissionType_true. eauto. }
    rewrite Ha in Ha'. injection Ha' as <-.
    do 4 f_equal. rewrite <- (List.filter_true es) at 2.
    apply List.filter_ext. intros q.
    apply scoping_check, Hgrant.
Qed.

Lemma has_projects_unique h v ps ps' :
  has_projects h v ps -> has_projects h v ps' -> ps = ps'.
Proof. intros (a & Ha & Hps) (a' & Ha' & Hps'). congruence. Qed.

(** C1: every project of the list that [filterPortfolioDataByPermissions]
    returns has a [businessUnit] found in the scope of one of the caller's
    [PORTFOLIO_VIEW] permissions, unless one of these scopes holds
    [All_Units]; when the caller has no [PORTFOLIO_VIEW] permission the
    list returned is empty.  A portfolio passed in with a project list
    comes back with a project list; and with [All_Units] granted, when
    nothing fails inside the method, every project of the input is in it, as
    its redacted copy. *)
Theorem filterPortfolioDataByPermissions_business_unit_scope
    this uid data w perms res w' :
  forgeUserAdapter_getUserPermissions this uid = Ok perms ->
  filterPortfolioDataByPermissions this uid data w = (Ok res, w') ->
  (forall ps,
     has_projects (heap_of w') res ps ->
     (forall p, p ∈ ps -> has_grant perms (field (heap_of w') p "businessUnit"))
     /\ ((forall p, p ∈ perms -> type p <> "PORTFOLIO_VIEW") -> ps = []))
  /\ (forall es,
       well_formed (heap_of w) -> has_projects (heap_of w) data es ->
       exists ps,
         has_projects (heap_of w') res ps
         /\ ((exists p, p ∈ perms /\ type p = "PORTFOLIO_VIEW"
                        /\ "All_Units" ∈ scope p) ->
             (filter_try this uid data w).1 = Ok res ->
             Forall2 (redacted_copy perms (length (heap_of w))
                        (heap_of w) (heap_of w'))
                     es ps)).
Proof.
  intros Hperms Hrun. split.
  - intros ps (a & Ha & Hps).
    destruct (filterPortfolioDataByPermissions_spec this uid data w)
      as (res0 & w0 & Hrun0 & _ & _ & _ & Hprojects).
    rewrite Hrun in Hrun0. injection Hrun0 as <- <-.
    destruct (Hprojects perms a ps Hperms Ha Hps) as [Hnone Hall].
    split.
    + intros p Hp. destruct (Hall p Hp) as (o & fs & -> & Ho & Hgrant & _).
      simpl. unfold fields_at, cell_at. by rewrite Ho.
    + intros Hno. by apply Hnone, hasPermissionType_false.
  - intros es Hwf Hes.
    destruct (filterPortfolioDataByPermissions_has_projects
                _ _ _ _ _ _ _ Hwf Hes Hrun) as [ps Hps].
    exists ps. split; [done|]. intros Hall Htry.
    destruct (filter_try this uid data w) as [r1 w1] eqn:Htry1.
    simpl in Htry. subst r1.
    rewrite (filter_try_returns _ _ _ _ _ _ Htry1) in Hrun.
    injection Hrun as <-.
    destruct (filter_try_refines _ _ _ _ _ _ _ _ Hwf Hes Hperms Htry1)
      as (ps' & Hps' & HF).
    rewrite (surviving_all_units _ _ _ Hall) in HF.
    by rewrite (has_projects_unique _ _ _ _ Hps Hps').
Qed.

Lemma filterPortfolioDataByPermissions_business_unit_scope_witness :
  let r := filterPortfolioDataByPermissions (answering sales_only)
             (VStr "exec-sales-001") (VRef 7%nat) test_world in
  (forall p, p ∈ [VRef 17%nat; VRef 18%nat] ->
             has_grant sales_only (field (heap_of r.2) p "businessUnit"))
  /\ field (heap_of r.2) (VRef 17%nat) "businessUnit" = VStr "Sales"
  /\ exists ps, has_projects (heap_of r.2) (VRef 15%nat) ps.
Proof.
  intros r.
  pose proof (filterPortfolioDataByPermissions_business_unit_scope
                (answering sales_only) (VStr "exec-sales-001") (VRef 7%nat)
                test_world sales_only (VRef 15%nat) r.2 eq_refl
                ltac:(by vm_compute)) as [Hscoped Hlist].
  split; [|split; [by vm_compute|]].
  - apply (Hscoped [VRef 17%nat; VRef 18%nat]).
    exists 19%nat. split; by vm_compute.
  - destruct (Hlist [VRef 0%nat; VRef 1%nat; VRef 2%nat; VRef 3%nat])
      as (ps & Hps & _); [|by exists 4%nat|by exists ps].
    apply well_formedb_correct. by vm_compute.
Defined.

(** The names of the properties that are not sensitive. *)
Lemma not_sensitive k :
  k ∈ ["key"; "name"; "businessUnit"; "overdueIssues"; "blockedIssues";
       "highPriorityIssues"]%string ->
  k <> "budget"%string /\ k <> "revenue"%string /\ k <> "detailedMetrics"%string.
Proof.
  intros Hk. repeat (apply elem_of_cons in Hk as [->|Hk]; [done|]).
  by inversion Hk.
Qed.

(** C2: the redaction step makes one copy per surviving project, in order.
    The copy has no [budget] and no [revenue] when the caller has no
    [FINANCIAL_DATA] permission, no [detailedMetrics] when the caller has no
    [DETAILED_METRICS] permission, and every other property of the project
    with the value it had ([key], [name], [businessUnit] and the three
    issue counts among them).  Seen from outside: when nothing fails inside
    [filterPortfolioDataByPermissions], the list it returns holds, in order,
    the redacted copy of each project of the input that passes the scoping
    step; and whatever list it returns, the sensitive properties are gone
    from its projects. *)
Theorem filterSensitiveProjectData_redaction permissions :
  (forall h a qs,
     h !! a = Some (CArray qs) -> Forall (in_bounds h) qs ->
     exists a' ps h',
       _filterSensitiveProjectData (VRef a) permissions h = (Ok (VRef a'), h')
       /\ h `prefix_of` h'
       /\ h' !! a' = Some (CArray ps)
       /\ length ps = length qs
       /\ forall i q p,
            qs !! i = Some q -> ps !! i = Some p ->
            (_hasPermissionType permissions "FINANCIAL_DATA" = false ->
               own_properties h' p !! "budget" = None
               /\ own_properties h' p !! "revenue" = None)
            /\ (_hasPermissionType permissions "DETAILED_METRICS" = false ->
                own_properties h' p !! "detailedMetrics" = None)
            /\ (forall k,
                  k ∈ ["key"; "name"; "businessUnit"; "overdueIssues";
                       "blockedIssues"; "highPriorityIssues"]%string ->
                  own_properties h' p !! k = own_properties h q !! k)
            /\ (forall k,
                  k <> "budget"%string -> k <> "revenue"%string ->
                  k <> "detailedMetrics"%string ->
                  own_properties h' p !! k = own_properties h q !! k))
  /\ (forall this uid data w res w' es,
       forgeUserAdapter_getUserPermissions this uid = Ok permissions ->
       well_formed (heap_of w) -> has_projects (heap_of w) data es ->
       filter_try this uid data w = (Ok res, w') ->
       filterPortfolioDataByPermissions this uid data w = (Ok res, w')
       /\ exists ps,
           has_projects (heap_of w') res ps
           /\ Forall2 (redacted_copy permissions (length (heap_of w))
                         (heap_of w) (heap_of w'))
                      (surviving permissions (heap_of w) es) ps)
  /\ (forall this uid data w res w' ps,
       forgeUserAdapter_getUserPermissions this uid = Ok permissions ->
       filterPortfolioDataByPermissions this uid data w = (Ok res, w') ->
       has_projects (heap_of w') res ps ->
       forall p, p ∈ ps ->
         (_hasPermissionType permissions "FINANCIAL_DATA" = false ->
            own_properties (heap_of w') p !! "budget" = None
            /\ own_properties (heap_of w') p !! "revenue" = None)
         /\ (_hasPermissionType permissions "DETAILED_METRICS" = false ->
             own_properties (heap_of w') p !! "detailedMetrics" = None)).
Proof.
  split; [|split].
  - intros h a qs Ha Hqs.
    set (copies := (fun q => CObject (redacted_fields permissions
                                        (own_properties h q))) <$> qs).
    set (refs := (fun i => VRef (length h + i)%nat) <$> seq 0 (length qs)).
    exists (length h + length qs)%nat, refs, (h ++ copies ++ [CArray refs]).
    split; [by apply filterSensitiveProjectData_run|].
    split; [by apply prefix_app_r|].
    assert (Hlenc : length copies = length qs) by (unfold copies; by rewrite length_fmap).
    split.
    { rewrite lookup_app_r by lia. rewrite lookup_app_r by lia.
      rewrite Hlenc.
      by replace (length h + length qs - length h - length qs)%nat
        with 0%nat by lia. }
    split; [unfold refs; by rewrite length_fmap, length_seq|].
    intros i q p Hq Hp. unfold refs in Hp.
    rewrite list_lookup_fmap in Hp.
    apply lookup_lt_Some in Hq as Hi.
    rewrite lookup_seq_lt in Hp by done. injection Hp as <-.
    assert (Hown : own_properties (h ++ copies ++ [CArray refs])
                     (VRef (length h + i)%nat)
                   = redacted_fields permissions (own_properties h q)).
    { simpl. unfold cell_at. rewrite lookup_app_r by lia.
      rewrite lookup_app_l by lia.
      replace (length h + i - length h)%nat with i by lia.
      unfold copies. by rewrite list_lookup_fmap, Hq. }
    rewrite Hown.
    split; [apply redacted_fields_financial|].
    split; [apply redacted_fields_detailed|].
    split.
    + intros k Hk. apply not_sensitive in Hk as (? & ? & ?).
      by apply redacted_fields_other.
    + intros k ? ? ?. by apply redacted_fields_other.
  - intros this uid data w res w' es Hperms Hwf Hes Htry.
    split; [by apply filter_try_returns|].
    by eapply filter_try_refines.
  - intros this uid data w res w' ps Hperms Hrun (a & Ha & Hps) p Hp.
    destruct (filterPortfolioDataByPermissions_spec this uid data w)
      as (res0 & w0 & Hrun0 & _ & _ & _ & Hprojects).
    rewrite Hrun in Hrun0. injection Hrun0 as <- <-.
    destruct (Hprojects permissions a ps Hperms Ha Hps) as [_ Hall].
    destruct (Hall p Hp) as (o & fs & -> & Ho & _ & Hfin & Hdet).
    simpl. unfold cell_at. rewrite Ho. simpl. done.
Qed.

Lemma filterSensitiveProjectData_redaction_witness :
  let r := filter_try (answering sales_only) (VStr "exec-sales-001")
             (VRef 7%nat) test_world in
  exists ps,
    has_projects (heap_of r.2) (VRef 15%nat) ps
    /\ Forall2 (redacted_copy sales_only 8 test_heap (heap_of r.2))
               [VRef 0%nat; VRef 2%nat] ps.
Proof.
  intros r.
  destruct (proj1 (proj2 (filterSensitiveProjectData_redaction sales_only))
              (answering sales_only) (VStr "exec-sales-001") (VRef 7%nat)
              test_world (VRef 15%nat) r.2
              [VRef 0%nat; VRef 1%nat; VRef 2%nat; VRef 3%nat] eq_refl)
    as (_ & ps & Hps & HF).
  - apply well_formedb_correct. by vm_compute.
  - by exists 4%nat.
  - by vm_compute.
  - exists ps. split; [done|].
    by replace [VRef 0%nat; VRef 2%nat]
      with (surviving sales_only (heap_of test_world)
              [VRef 0%nat; VRef 1%nat; VRef 2%nat; VRef 3%nat])
      by by vm_compute.
Defined.

(** C6: [filterPortfolioDataByPermissions] returns on every input and never
    throws.  Every cell of the heap it is called in is still there with its
    content when it returns: the portfolio passed in, its project list and
    its projects are not written to.  Everything reachable from the value
    returned was allocated by the call.  And when the [try] block fails, on
    any error, the value returned is a new object whose only property is
    [projects], a new empty array. *)
Theorem filterPortfolioDataByPermissions_fail_safe this uid data w :
  exists res w',
    filterPortfolioDataByPermissions this uid data w = (Ok res, w')
    /\ heap_of w `prefix_of` heap_of w'
    /\ (forall l c, heap_of w !! l = Some c -> heap_of w' !! l = Some c)
    /\ (forall l, reachable (heap_of w') res l ->
                  (length (heap_of w) <= l < length (heap_of w'))%nat)
    /\ (forall e w1,
         filter_try this uid data w = (Throw e, w1) ->
         exists o a, res = VRef o
           /\ heap_of w' !! o = Some (CObject {[ "projects" := VRef a ]})
           /\ heap_of w' !! a = Some (CArray [])).
Proof.
  destruct (filterPortfolioDataByPermissions_spec this uid data w)
    as (res & w' & Hrun & Hg & Hfresh & Hfail & _).
  exists res, w'. split; [done|]. split; [apply Hg|].
  split; [|split; [|done]].
  - intros l c Hl. destruct Hg as [Hp _].
    by eapply prefix_lookup_Some.
  - intros l Hreach. by eapply reachable_fresh.
Qed.

Lemma filterPortfolioDataByPermissions_fail_safe_witness :
  exists res w',
    filterPortfolioDataByPermissions adapter_down (VStr "exec-sales-001")
      (VRef 7%nat) test_world = (Ok res, w')
    /\ test_heap `prefix_of` heap_of w'
    /\ exists o a, res = VRef o
         /\ heap_of w' !! o = Some (CObject {[ "projects" := VRef a ]})
         /\ heap_of w' !! a = Some (CArray []).
Proof.
  destruct (filterPortfolioDataByPermissions_fail_safe adapter_down
              (VStr "exec-sales-001") (VRef 7%nat) test_world)
    as (res & w' & Hrun & Hp & _ & _ & Hfail).
  exists res, w'. split; [done|]. split; [done|].
  by apply (Hfail {| message := "User service unavailable" |} _ eq_refl).
Defined.

End AuthorizationServiceFacts.

Module ExecutivePortfolioInvariants.
Import ExecutivePortfolio ExecutivePortfolioFacts.

(** The score of a project depends on its three counts only. *)
Lemma score_before_clamp_antitone p q :
  overdueIssues p <= overdueIssues q ->
  blockedIssues p <= blockedIssues q ->
  highPriorityIssues p <= highPriorityIssues q ->
  score_before_clamp q <= score_before_clamp p.
Proof.
  intros Ho Hb Hh. unfold score_before_clamp.
  destruct (0 <? overdueIssues p) eqn:Eo;
    destruct (0 <? blockedIssues p) eqn:Eb;
    destruct (0 <? highPriorityIssues p) eqn:Eh;
    destruct (0 <? overdueIssues q) eqn:Eo';
    destruct (0 <? blockedIssues q) eqn:Eb';
    destruct (0 <? highPriorityIssues q) eqn:Eh';
    rewrite ?Z.ltb_lt, ?Z.ltb_ge in *; lia.
Qed.

(** The sum of the scores of [n] projects lies between [25 n] and [100 n]. *)
Lemma score_sum_bounds ps :
  25 * Z.of_nat (length ps) <= score_sum ps <= 100 * Z.of_nat (length ps).
Proof.
  induction ps as [|p ps IH].
  - change (score_sum []) with 0. simpl. lia.
  - change (score_sum (p :: ps))
      with (_calculateProjectHealth p + score_sum ps).
    rewrite calculateProjectHealth_unclamped.
    pose proof (score_before_clamp_bounds p).
    rewrite length_cons, Nat2Z.inj_succ. lia.
Qed.

(** [Math.round] of a mean keeps the bounds of the terms. *)
Lemma Math_round_div_between a b lo hi :
  0 < b -> lo * b <= a <= hi * b ->
  lo <= Math_round_div a b <= hi.
Proof.
  intros Hb [Hlo Hhi]. unfold Math_round_div. split.
  - apply Z.div_le_lower_bound; [lia|]. nia.
  - apply Z.lt_succ_r. apply Z.div_lt_upper_bound; [lia|]. nia.
Qed.

Lemma calculateHealthScore_mean this :
  projects this <> [] ->
  calculateHealthScore this
  = Math_round_div (score_sum (projects this))
                   (Z.of_nat (length (projects this))).
Proof.
  intros Hne. unfold calculateHealthScore.
  destruct (projects this) as [|p ps]; [done|].
  change (length (p :: ps) =? 0)%nat with false. cbv iota.
  by rewrite fold_left_score_sum, Z.add_0_l.
Qed.

Lemma score_sum_Permutation ps qs : ps ≡ₚ qs -> score_sum ps = score_sum qs.
Proof.
  intros HP. unfold score_sum. induction HP as [|x l l' _ IH|x y l|l l' l'' _ IH1 _ IH2].
  - done.
  - rewrite !fmap_cons. simpl. by rewrite IH.
  - rewrite !fmap_cons. simpl. lia.
  - by rewrite IH1.
Qed.

Lemma length_filter_Permutation {A} (P : A -> Prop) `{!forall x, Decision (P x)}
    (l k : list A) :
  l ≡ₚ k -> length (filter P l) = length (filter P k).
Proof. intros HP. by rewrite HP. Qed.

(** A critical project gets a reason that names a trigger. *)
Lemma getCriticalReason_of_critical p :
  _isProjectCritical p = true ->
  _getCriticalReason p = pretty (overdueIssues p) +:+ " overdue issues"
  \/ _getCriticalReason p = pretty (blockedIssues p) +:+ " blocked issues"
  \/ _getCriticalReason p = "Overall health below 50%"%string.
Proof.
  unfold _isProjectCritical, _getCriticalReason.
  destruct (5 <? overdueIssues p); [by left|].
  destruct (3 <? blockedIssues p); [by right; left|].
  destruct (_calculateProjectHealth p <? 50); [by right; right|done].
Qed.

Lemma append_overdue_ne s :
  s +:+ " overdue issues" <> "Multiple risk factors"%string.
Proof.
  intros H.
  do 7 (destruct s as [|? s]; [discriminate H|];
        simpl in H; injection H as _ H).
  repeat (destruct s as [|? s]; [discriminate H|];
          simpl in H; try discriminate H; injection H as _ H).
Qed.

Lemma append_blocked_ne s :
  s +:+ " blocked issues" <> "Multiple risk factors"%string.
Proof.
  intros H.
  do 7 (destruct s as [|? s]; [discriminate H|];
        simpl in H; injection H as _ H).
  repeat (destruct s as [|? s]; [discriminate H|];
          simpl in H; try discriminate H; injection H as _ H).
Qed.

(** X1: the on-track and the at-risk projects of the summary split the
    portfolio: the two counts add up to [totalProjects], and there are no
    more critical alerts than projects. *)
Theorem getPortfolioSummary_partition this :
  let s := getPortfolioSummary this in
  (onTrackProjects s + atRiskProjects s = totalProjects s)%nat
  /\ (criticalAlerts s <= totalProjects s)%nat.
Proof.
  simpl. split.
  - induction (projects this) as [|p ps IH]; [done|].
    rewrite !filter_cons.
    destruct (decide (70 <= _calculateProjectHealth p));
      destruct (decide (_calculateProjectHealth p < 70)); simpl; lia.
  - unfold getCriticalAlerts. rewrite length_fmap. apply length_filter.
Qed.

(** X2: more open issues never raise the score of a project: the score is
    antitone in each of the three counts. *)
Theorem calculateProjectHealth_antitone p q :
  overdueIssues p <= overdueIssues q ->
  blockedIssues p <= blockedIssues q ->
  highPriorityIssues p <= highPriorityIssues q ->
  _calculateProjectHealth q <= _calculateProjectHealth p.
Proof.
  intros Ho Hb Hh. rewrite !calculateProjectHealth_unclamped.
  by apply score_before_clamp_antitone.
Qed.

Lemma calculateProjectHealth_antitone_witness :
  _calculateProjectHealth (sample 3 2 5) <= _calculateProjectHealth (sample 1 2 0).
Proof.
  apply (calculateProjectHealth_antitone (sample 1 2 0) (sample 3 2 5));
    simpl; lia.
Defined.

(** X3: the deductions are capped: from 6 overdue, 7 blocked and 13
    high-priority issues on, a count no longer moves the score.  Two projects
    whose counts are equal or both at the cap, count by count, score the
    same. *)
Theorem calculateProjectHealth_saturates p q :
  overdueIssues p = overdueIssues q
    \/ (6 <= overdueIssues p /\ 6 <= overdueIssues q) ->
  blockedIssues p = blockedIssues q
    \/ (7 <= blockedIssues p /\ 7 <= blockedIssues q) ->
  highPriorityIssues p = highPriorityIssues q
    \/ (13 <= highPriorityIssues p /\ 13 <= highPriorityIssues q) ->
  _calculateProjectHealth p = _calculateProjectHealth q.
Proof.
  intros Ho Hb Hh. rewrite !calculateProjectHealth_unclamped.
  unfold score_before_clamp.
  destruct (0 <? overdueIssues p) eqn:Eo;
    destruct (0 <? blockedIssues p) eqn:Eb;
    destruct (0 <? highPriorityIssues p) eqn:Eh;
    destruct (0 <? overdueIssues q) eqn:Eo';
    destruct (0 <? blockedIssues q) eqn:Eb';
    destruct (0 <? highPriorityIssues q) eqn:Eh';
    rewrite ?Z.ltb_lt, ?Z.ltb_ge in *; lia.
Qed.

Lemma calculateProjectHealth_saturates_witness :
  _calculateProjectHealth (sample 6 2 13) = _calculateProjectHealth (sample 600 2 40).
Proof.
  apply (calculateProjectHealth_saturates (sample 6 2 13) (sample 600 2 40));
    simpl; lia.
Defined.

(** X4: the health score of a portfolio is a percentage, and that of a
    portfolio with at least one project is at least 25, whatever the counts
    of its projects. *)
Theorem calculateHealthScore_range this :
  0 <= calculateHealthScore this <= 100
  /\ (projects this <> [] -> 25 <= calculateHealthScore this).
Proof.
  destruct (decide (projects this = [])) as [E|Hne].
  - unfold calculateHealthScore. rewrite E. simpl. split; [lia|done].
  - rewrite calculateHealthScore_mean by done.
    pose proof (score_sum_bounds (projects this)) as Hs.
    assert (Hn : 0 < Z.of_nat (length (projects this))).
    { destruct (projects this); [done|]. rewrite length_cons. lia. }
    destruct (Math_round_div_between (score_sum (projects this))
                (Z.of_nat (length (projects this))) 25 100 Hn ltac:(lia)).
    split; [lia|]. intros _. lia.
Qed.

Lemma calculateHealthScore_range_witness :
  25 <= calculateHealthScore
          (constructor "exec-ceo-001" (Some [sample 9 9 99; sample 7 0 0])).
Proof.
  apply (proj2 (calculateHealthScore_range
                  (constructor "exec-ceo-001"
                     (Some [sample 9 9 99; sample 7 0 0])))).
  discriminate.
Defined.

(** X5: the summary does not depend on the order of the projects: two
    portfolios with the same projects, in any order, have the same
    summary. *)
Theorem getPortfolioSummary_permutation this that :
  projects this ≡ₚ projects that ->
  getPortfolioSummary this = getPortfolioSummary that.
Proof.
  intros HP. unfold getPortfolioSummary.
  assert (Hlen : length (projects this) = length (projects that))
    by by rewrite HP.
  assert (Hscore : calculateHealthScore this = calculateHealthScore that).
  { destruct (decide (projects this = [])) as [E|Hne].
    - rewrite E in HP. apply Permutation_nil_l in HP.
      unfold calculateHealthScore. by rewrite E, HP.
    - assert (projects that <> []).
      { intros E. rewrite E in HP. by apply Permutation_nil_r in HP. }
      rewrite !calculateHealthScore_mean by done.
      by rewrite Hlen, (score_sum_Permutation _ _ HP). }
  f_equal; [done|done| | |].
  - unfold getCriticalAlerts. rewrite !length_fmap.
    by apply length_filter_Permutation.
  - by apply length_filter_Permutation.
  - by apply length_filter_Permutation.
Qed.

Lemma getPortfolioSummary_permutation_witness :
  getPortfolioSummary
    (constructor "exec-ceo-001" (Some [sample 7 0 0; sample 0 4 0; sample 1 0 0]))
  = getPortfolioSummary
      (constructor "exec-ceo-001" (Some [sample 1 0 0; sample 7 0 0; sample 0 4 0])).
Proof.
  apply getPortfolioSummary_permutation. simpl.
  change ([sample 7 0 0; sample 0 4 0; sample 1 0 0]
          ≡ₚ [sample 1 0 0] ++ [sample 7 0 0; sample 0 4 0]).
  by rewrite (Permutation_app_comm [sample 1 0 0]).
Defined.

(** X6: the alerts are the critical projects: every alert is at level
    [CRITICAL], carries the key and the name of a critical project of the
    portfolio and the reason of that project, and every critical project
    has its alert.  The reason of an alert names a trigger: the fallback
    text of [_getCriticalReason] is never shown. *)
Theorem getCriticalAlerts_sound_complete this :
  (forall a, a ∈ getCriticalAlerts this ->
     alertLevel a = "CRITICAL"%string
     /\ reason a <> "Multiple risk factors"%string
     /\ exists p, p ∈ projects this /\ _isProjectCritical p = true
          /\ projectKey a = key p /\ projectName a = name p
          /\ reason a = _getCriticalReason p)
  /\ (forall p, p ∈ projects this -> _isProjectCritical p = true ->
        exists a, a ∈ getCriticalAlerts this
          /\ projectKey a = key p /\ projectName a = name p).
Proof.
  unfold getCriticalAlerts. split.
  - intros a Ha. apply list_elem_of_fmap in Ha as (p & -> & Hp).
    apply list_elem_of_filter in Hp as [Hcrit Hp]. simpl.
    split; [done|]. split; [|eauto 10].
    destruct (getCriticalReason_of_critical p Hcrit) as [->|[->| ->]];
      [apply append_overdue_ne|apply append_blocked_ne|done].
  - intros p Hp Hcrit. eexists. split.
    + apply list_elem_of_fmap. exists p. split; [done|].
      by apply list_elem_of_filter.
    + done.
Qed.

Lemma getCriticalAlerts_sound_complete_witness :
  exists a,
    a ∈ getCriticalAlerts (constructor "exec-ceo-001"
                             (Some [sample 1 0 0; sample 7 0 0]))
    /\ projectKey a = "EXEC"%string.
Proof.
  destruct (proj2 (getCriticalAlerts_sound_complete
                     (constructor "exec-ceo-001"
                        (Some [sample 1 0 0; sample 7 0 0])))
              (sample 7 0 0)) as (a & Ha & Hk & _).
  - simpl. apply list_elem_of_In. right. by left.
  - reflexivity.
  - exists a. split; [exact Ha | exact Hk].
Defined.

(** X7: a portfolio with projects and without a critical alert has a health
    score of at least 50: no project of it scores below 50. *)
Theorem no_critical_alert_health_at_least_50 this :
  projects this <> [] -> getCriticalAlerts this = [] ->
  50 <= calculateHealthScore this.
Proof.
  intros Hne Hnone. rewrite calculateHealthScore_mean by done.
  assert (Hall : Forall (fun p => 50 <= _calculateProjectHealth p) (projects this)).
  { apply Forall_forall. intros p Hp.
    destruct (_isProjectCritical p) eqn:Hcrit.
    - exfalso. unfold getCriticalAlerts in Hnone.
      apply fmap_nil_inv in Hnone.
      assert (Hin : p ∈ filter (fun project => _isProjectCritical project = true)
                               (projects this))
        by by apply list_elem_of_filter.
      rewrite Hnone in Hin. by inversion Hin.
    - unfold _isProjectCritical in Hcrit.
      apply orb_false_iff in Hcrit as [Hcrit _].
      apply orb_false_iff in Hcrit as [Hcrit _].
      by apply Z.ltb_ge in Hcrit. }
  assert (Hsum : 50 * Z.of_nat (length (projects this)) <= score_sum (projects this)).
  { clear Hne Hnone. induction Hall as [|p ps Hp _ IH].
    - change (score_sum []) with 0. simpl. lia.
    - change (score_sum (p :: ps))
        with (_calculateProjectHealth p + score_sum ps).
      rewrite length_cons, Nat2Z.inj_succ. lia. }
  pose proof (score_sum_bounds (projects this)) as Hs.
  assert (Hn : 0 < Z.of_nat (length (projects this))).
  { destruct (projects this); [done|]. rewrite length_cons. lia. }
  by destruct (Math_round_div_between (score_sum (projects this))
                 (Z.of_nat (length (projects this))) 50 100 Hn ltac:(lia)).
Qed.

Lemma no_critical_alert_health_at_least_50_witness :
  50 <= calculateHealthScore
          (constructor "exec-ceo-001" (Some [sample 5 3 2; sample 0 0 12])).
Proof.
  apply (no_critical_alert_health_at_least_50
           (constructor "exec-ceo-001" (Some [sample 5 3 2; sample 0 0 12])));
    [discriminate | reflexivity].
Defined.

End ExecutivePortfolioInvariants.

Module AccessGateFacts.
Import JS JSFacts AuthorizationService AuthorizationServiceFacts AuditTrail.

(** The paths through [authorizePortfolioAccess], one goal for each. *)
Ltac gate_paths this uid tok :=
  run_service;
  destruct (truthy tok) eqn:Htok; simpl;
  [destruct (_isValidExecutiveUserId uid) eqn:Hid; simpl;
   [destruct (forgeUserAdapter_getUserPermissions this uid)
      as [perms0|e0] eqn:Hperms0; simpl;
    [destruct (_hasPermissionType perms0 "PORTFOLIO_VIEW") eqn:Ht; simpl;
     [destruct (_hasBusinessUnitAccess perms0 "PORTFOLIO_VIEW" _) eqn:Hb; simpl
     |]
    |]
   |]
  |];
  repeat match goal with
  | |- context [auditService_logAuthorizationEvent this ?d] =>
      let E := fresh "E" in
      destruct (auditService_logAuthorizationEvent this d) as [[]|?] eqn:E; simpl
  end.

(** When the gate returns [true]. *)
Lemma gate_true_iff this uid bu tok w :
  (authorizePortfolioAccess this uid bu tok w).1 = Ok true
  <-> truthy tok = true /\ _isValidExecutiveUserId uid = true
      /\ exists perms,
           forgeUserAdapter_getUserPermissions this uid = Ok perms
           /\ has_grant perms bu
           /\ auditService_logAuthorizationEvent this
                (decision_record uid bu "AUTHORIZED" None) = Ok tt.
Proof.
  unfold decision_record.
  gate_paths this uid tok.
  all: try (split; [discriminate|]).
  all: try (by intros (? & ? & _)).
  all: try (intros (_ & _ & perms & Hp & Hg & Haud); try discriminate Haud;
            try discriminate Hp; injection Hp as <-;
            pose proof (has_grant_permission_type _ _ Hg);
            apply hasBusinessUnitAccess_grant in Hg; congruence).
  split; [|done]. intros _. repeat (split; [done|]).
  exists perms0. split; [done|]. split; [|done].
  by apply hasBusinessUnitAccess_grant.
Qed.

(** The state it leaves then: the heap as it was, and two calls more. *)
Lemma gate_true_state this uid bu tok w :
  (authorizePortfolioAccess this uid bu tok w).1 = Ok true ->
  (authorizePortfolioAccess this uid bu tok w).2
  = {| heap_of := heap_of w;
       calls := calls w ++ [GetUserPermissions uid;
                            LogAuthorizationEvent
                              (decision_record uid bu "AUTHORIZED" None)] |}.
Proof.
  unfold decision_record.
  gate_paths this uid tok; try discriminate.
  intros _. by rewrite <- app_assoc.
Qed.

(** The gate does not touch the heap, and only adds calls. *)
Lemma gate_heap_calls this uid bu tok w :
  heap_of (authorizePortfolioAccess this uid bu tok w).2 = heap_of w
  /\ exists cs, calls (authorizePortfolioAccess this uid bu tok w).2
                = calls w ++ cs.
Proof.
  gate_paths this uid tok; (split; [done|]);
    rewrite <- ?app_assoc; eauto.
Qed.

(** X8: [authorizePortfolioAccess] returns [true] in one case only: the
    token is truthy, the identifier is a string that starts with [exec-],
    the identity provider answers with a permission list that holds a
    [PORTFOLIO_VIEW] grant for the requested business unit or for
    [All_Units], and the audit sink has taken the [AUTHORIZED] record.  The
    calls made are then the fetch of the permissions and that one record. *)
Theorem authorizePortfolioAccess_grants_iff this uid bu tok w :
  ((authorizePortfolioAccess this uid bu tok w).1 = Ok true
   <-> truthy tok = true /\ _isValidExecutiveUserId uid = true
       /\ exists perms,
            forgeUserAdapter_getUserPermissions this uid = Ok perms
            /\ has_grant perms bu
            /\ auditService_logAuthorizationEvent this
                 (decision_record uid bu "AUTHORIZED" None) = Ok tt)
  /\ ((authorizePortfolioAccess this uid bu tok w).1 = Ok true ->
      calls (authorizePortfolioAccess this uid bu tok w).2
      = calls w ++ [GetUserPermissions uid;
                    LogAuthorizationEvent
                      (decision_record uid bu "AUTHORIZED" None)]).
Proof.
  split; [apply gate_true_iff|].
  intros Htrue. by rewrite (gate_true_state _ _ _ _ _ Htrue).
Qed.

Lemma authorizePortfolioAccess_grants_iff_witness :
  (authorizePortfolioAccess (answering ceo_permissions) (VStr "exec-ceo-001")
     (VStr "Marketing") (VStr "auth-token-12345") empty_world).1 = Ok true.
Proof.
  apply (proj2 (proj1 (authorizePortfolioAccess_grants_iff
                         (answering ceo_permissions)
                         (VStr "exec-ceo-001") (VStr "Marketing")
                         (VStr "auth-token-12345") empty_world))).
  split; [reflexivity|]. split; [reflexivity|].
  exists ceo_permissions. split; [reflexivity|]. split; [|reflexivity].
  exists {| type := "PORTFOLIO_VIEW"; scope := ["Corporate"; "All_Units"] |}.
  split; [apply list_elem_of_In; by left|]. split; [reflexivity|].
  right. apply list_elem_of_In. right. by left.
Defined.

(** X9: no decision leaves [authorizePortfolioAccess] without its audit
    record.  When the method returns, the last call it made handed the audit
    sink a record for this user, this business unit and the resource
    [PORTFOLIO_DATA], the sink took the record, and the record says
    [AUTHORIZED] exactly when the value returned is [true].  The heap is as
    it was. *)
Theorem authorizePortfolioAccess_audited this uid bu tok w b :
  (authorizePortfolioAccess this uid bu tok w).1 = Ok b ->
  exists cs d,
    calls (authorizePortfolioAccess this uid bu tok w).2
    = calls w ++ cs ++ [LogAuthorizationEvent d]
    /\ d = decision_record uid bu (result d) (reason d)
    /\ auditService_logAuthorizationEvent this d = Ok tt
    /\ (result d = "AUTHORIZED"%string <-> b = true)
    /\ heap_of (authorizePortfolioAccess this uid bu tok w).2 = heap_of w.
Proof.
  unfold decision_record.
  gate_paths this uid tok.
  all: intros [= <-].
  all: first
    [ solve [ eexists [], _; split; [by rewrite <- ?app_assoc|];
              split; [reflexivity|]; split; [eassumption|]; by split ]
    | solve [ eexists [_], _; split; [by rewrite <- ?app_assoc|];
              split; [reflexivity|]; split; [eassumption|]; by split ]
    | solve [ eexists [_; _], _; split; [by rewrite <- ?app_assoc|];
              split; [reflexivity|]; split; [eassumption|]; by split ] ].
Qed.

Lemma authorizePortfolioAccess_audited_witness :
  exists cs d,
    calls (authorizePortfolioAccess (answering sales_only) (VStr "exec-sales-001")
             (VStr "Engineering") (VStr "auth-token-12345") empty_world).2
    = [] ++ cs ++ [LogAuthorizationEvent d]
    /\ (result d = "AUTHORIZED"%string <-> false = true).
Proof.
  destruct (authorizePortfolioAccess_audited (answering sales_only)
              (VStr "exec-sales-001") (VStr "Engineering")
              (VStr "auth-token-12345") empty_world false eq_refl)
    as (cs & d & Hcalls & _ & _ & Hres & _).
  exists cs, d. split; [exact Hcalls | exact Hres].
Defined.

(** X10: a failure of the identity provider is an audited refusal.  With a
    truthy token and a well-formed identifier, when the fetch of the
    permissions rejects with an error, the calls made are that fetch and one
    [ERROR] record whose reason is the message of the error; and the method
    returns [false] when the audit sink takes that record. *)
Theorem authorizePortfolioAccess_provider_failure this uid bu tok w e :
  truthy tok = true -> _isValidExecutiveUserId uid = true ->
  forgeUserAdapter_getUserPermissions this uid = Throw e ->
  calls (authorizePortfolioAccess this uid bu tok w).2
  = calls w ++ [GetUserPermissions uid;
                LogAuthorizationEvent
                  (decision_record uid bu "ERROR" (Some (message e)))]
  /\ (accepts_error_records this ->
      (authorizePortfolioAccess this uid bu tok w).1 = Ok false).
Proof.
  intros Htok Hid He. unfold decision_record. run_service.
  rewrite Htok, Hid. simpl. rewrite He. simpl.
  split.
  - destruct (auditService_logAuthorizationEvent this _) as [[]|e']; simpl;
      by rewrite <- app_assoc.
  - intros Hacc. by rewrite Hacc.
Qed.

Lemma authorizePortfolioAccess_provider_failure_witness :
  audit_trail (authorizePortfolioAccess adapter_down (VStr "exec-ceo-001")
                 (VStr "Corporate") (VStr "auth-token-12345") empty_world)
  = [("ERROR"%string, Some "User service unavailable"%string)]
  /\ (authorizePortfolioAccess adapter_down (VStr "exec-ceo-001")
        (VStr "Corporate") (VStr "auth-token-12345") empty_world).1 = Ok false.
Proof.
  destruct (authorizePortfolioAccess_provider_failure adapter_down
              (VStr "exec-ceo-001") (VStr "Corporate") (VStr "auth-token-12345")
              empty_world {| message := "User service unavailable" |}
              eq_refl eq_refl eq_refl) as [Hcalls Hres].
  split.
  - unfold audit_trail. rewrite Hcalls. reflexivity.
  - apply Hres. intros d _. reflexivity.
Defined.

(** X11: additional permissions never take access away.  If the gate lets a
    request through with one permission list, it lets the same request through
    with any list that contains it (the audit sink being the same); and the
    projects that pass the scoping test with the smaller list pass it with
    the larger one. *)
Theorem more_permissions_more_access this this' uid bu tok w perms perms' :
  forgeUserAdapter_getUserPermissions this uid = Ok perms ->
  forgeUserAdapter_getUserPermissions this' uid = Ok perms' ->
  (forall d, auditService_logAuthorizationEvent this' d
             = auditService_logAuthorizationEvent this d) ->
  perms ⊆ perms' ->
  ((authorizePortfolioAccess this uid bu tok w).1 = Ok true ->
   (authorizePortfolioAccess this' uid bu tok w).1 = Ok true)
  /\ (forall v, _hasBusinessUnitAccess perms "PORTFOLIO_VIEW" v = true ->
                _hasBusinessUnitAccess perms' "PORTFOLIO_VIEW" v = true)
  /\ (forall v, scope_test perms v = true -> scope_test perms' v = true).
Proof.
  intros Hperms Hperms' Haudit Hsub.
  assert (Hgrant : forall v, has_grant perms v -> has_grant perms' v).
  { intros v (p & Hp & Ht & Hsc). exists p. split; [by apply Hsub|done]. }
  split; [|split].
  - rewrite !gate_true_iff.
    intros (Htok & Hid & ps & Hps & Hg & Hlog).
    rewrite Hperms in Hps. injection Hps as <-.
    split; [done|]. split; [done|]. exists perms'.
    split; [done|]. split; [by apply Hgrant|]. by rewrite Haudit.
  - intros v Hv. apply hasBusinessUnitAccess_grant.
    by apply Hgrant, hasBusinessUnitAccess_grant.
  - intros v Hv. apply scoping_check. by apply Hgrant, scoping_check.
Qed.

Lemma more_permissions_more_access_witness :
  (authorizePortfolioAccess (answering cfo_permissions) (VStr "exec-cfo-001")
     (VStr "Corporate") (VStr "auth-token-12345") empty_world).1 = Ok true.
Proof.
  apply (proj1 (more_permissions_more_access
                  (answering [ {| type := "PORTFOLIO_VIEW";
                                  scope := ["Corporate"] |} ])
                  (answering cfo_permissions) (VStr "exec-cfo-001")
                  (VStr "Corporate") (VStr "auth-token-12345") empty_world
                  [ {| type := "PORTFOLIO_VIEW"; scope := ["Corporate"] |} ]
                  cfo_permissions eq_refl eq_refl (fun d => eq_refl)
                  ltac:(intros p Hp; apply list_elem_of_In in Hp as [<-|[]];
                        apply list_elem_of_In; by left))).
  reflexivity.
Defined.

End AccessGateFacts.

Module PermissionFilterFacts.
Import JS JSFacts AuthorizationService AuthorizationServiceFacts.
Local Open Scope js_scope.

(** The test of the gate and the test of the filter callback are one
    predicate, computed in two ways. *)
Lemma gate_test_scope_test permissions v :
  _hasBusinessUnitAccess permissions "PORTFOLIO_VIEW" v = scope_test permissions v.
Proof.
  apply Bool.eq_true_iff_eq.
  by rewrite hasBusinessUnitAccess_grant, scoping_check.
Qed.

(** The scoping step on an array without holes: it returns, and the array
    it allocates holds the surviving projects. *)
Lemma filterProjectsByBusinessUnit_run permissions h a es :
  h !! a = Some (CArray es) ->
  Forall (fun q => q <> VNull /\ q <> VUndefined) es ->
  _filterProjectsByBusinessUnit (VRef a) permissions h
  = (Ok (VRef (length h)), h ++ [CArray (surviving permissions h es)]).
Proof.
  intros Ha Hes.
  destruct (_filterProjectsByBusinessUnit (VRef a) permissions h)
    as [r h'] eqn:Hrun.
  pose proof Hrun as Hspec.
  apply filterProjectsByBusinessUnit_spec in Hspec
    as [[-> [e ->]]|(kept & -> & -> & Hnone & Hsome)].
  - exfalso. unfold _filterProjectsByBusinessUnit in Hrun.
    rewrite portfolio_view_empty in Hrun.
    destruct (_hasPermissionType permissions "PORTFOLIO_VIEW"); simpl in Hrun.
    + unfold array_filter in Hrun. rewrite Ha in Hrun.
      apply bind_inv in Hrun as [(kept & h1 & Hf & Halloc)|(e' & Hf & _)].
      * by apply alloc_inv in Halloc as [[=] _].
      * apply filterM_getProp in Hf as [_ [[=]|[_ (q & Hq & Hbad)]]].
        rewrite Forall_forall in Hes. destruct (Hes q Hq) as [? ?].
        by destruct Hbad.
    + by apply alloc_inv in Hrun as [[=] _].
  - unfold surviving.
    destruct (_hasPermissionType permissions "PORTFOLIO_VIEW").
    + destruct (Hsome eq_refl) as (a' & es' & [= <-] & Ha' & ->).
      rewrite Ha in Ha'. by injection Ha' as <-.
    + by rewrite Hnone.
Qed.

Lemma surviving_gate permissions h es :
  surviving permissions h es
  = List.filter (fun q => _hasBusinessUnitAccess permissions "PORTFOLIO_VIEW"
                            (field h q "businessUnit")) es.
Proof.
  unfold surviving.
  destruct (_hasPermissionType permissions "PORTFOLIO_VIEW") eqn:Hpv.
  - apply List.filter_ext. intros q. by rewrite gate_test_scope_test.
  - induction es as [|q es IH]; [done|]. simpl.
    destruct (_hasBusinessUnitAccess permissions "PORTFOLIO_VIEW"
                (field h q "businessUnit")) eqn:Hq; [|done].
    apply hasBusinessUnitAccess_grant, has_grant_permission_type in Hq.
    congruence.
Qed.

(** X12: the scoping step of the filter keeps exactly the projects whose
    business unit the gate would admit: on a project array without [null]
    or [undefined] elements [_filterProjectsByBusinessUnit] returns a new
    array with the projects for whose [businessUnit] [_hasBusinessUnitAccess]
    answers [true], in the order of the input, and nothing else. *)
Theorem filterProjectsByBusinessUnit_agrees_with_gate permissions h a es :
  h !! a = Some (CArray es) ->
  Forall (fun q => q <> VNull /\ q <> VUndefined) es ->
  _filterProjectsByBusinessUnit (VRef a) permissions h
  = (Ok (VRef (length h)),
     h ++ [CArray (List.filter
                     (fun q => _hasBusinessUnitAccess permissions "PORTFOLIO_VIEW"
                                 (field h q "businessUnit")) es)]).
Proof.
  intros Ha Hes. rewrite <- surviving_gate.
  by apply filterProjectsByBusinessUnit_run.
Qed.

Lemma filterProjectsByBusinessUnit_agrees_with_gate_witness :
  _filterProjectsByBusinessUnit (VRef 4%nat) sales_only test_heap
  = (Ok (VRef 8%nat), test_heap ++ [CArray [VRef 0%nat; VRef 2%nat]]).
Proof.
  rewrite (filterProjectsByBusinessUnit_agrees_with_gate sales_only test_heap
             4%nat [VRef 0%nat; VRef 1%nat; VRef 2%nat; VRef 3%nat]).
  - reflexivity.
  - reflexivity.
  - repeat constructor; discriminate.
Defined.

(** The filter asks the identity provider once and writes nothing to the
    audit sink, whether it returns the filtered portfolio or the fail-safe
    result. *)
Lemma filter_calls this uid data w :
  calls (filterPortfolioDataByPermissions this uid data w).2
  = calls w ++ [GetUserPermissions uid].
Proof.
  unfold filterPortfolioDataByPermissions, try_catch, filter_try,
    getUserPermissions, call, bind, on_heap.
  destruct (forgeUserAdapter_getUserPermissions this uid) as [perms|e]; simpl.
  - destruct (filter_with_permissions perms data (heap_of w)) as [[res|e] h'];
      simpl; [done|]. by destruct (fail_safe_result h').
  - by destruct (fail_safe_result (heap_of w)).
Qed.

(** *** What the filter leaves alone *)

Lemma field_object h l fs k :
  h !! l = Some (CObject fs) -> field h (VRef l) k = default VUndefined (fs !! k).
Proof. intros Hl. simpl. unfold fields_at, cell_at. by rewrite Hl. Qed.

Lemma field_not_object h l k :
  (forall fs, h !! l <> Some (CObject fs)) -> field h (VRef l) k = VUndefined.
Proof.
  intros Hl. simpl. unfold fields_at, cell_at.
  destruct (h !! l) as [[fs|es]|]; simpl; [by destruct (Hl fs)|done|done].
Qed.

(** After [delete v.k] the property reads as [undefined]. *)
Lemma field_deleteProp_eq v k h r h' :
  deleteProp v k h = (r, h') -> r = Ok tt -> field h' v k = VUndefined.
Proof.
  intros Hrun ->. destruct v as [| | | | |l]; try done.
  unfold deleteProp in Hrun.
  destruct (h !! l) as [[fs|es]|] eqn:E; injection Hrun as <-.
  - rewrite (field_object _ _ (delete k fs)).
    + by rewrite lookup_delete_eq.
    + apply list_lookup_insert_eq. by eapply lookup_lt_Some.
  - apply field_not_object. intros fs. by rewrite E.
  - apply field_not_object. intros fs. by rewrite E.
Qed.

(** [delete v.k] writes to the cell of [v] only. *)
Lemma deleteProp_other v k h r h' l :
  deleteProp v k h = (r, h') -> v <> VRef l -> h' !! l = h !! l.
Proof.
  intros Hrun Hne.
  apply deleteProp_inv in Hrun as [[-> _]|(l' & fs & -> & Hl & -> & ->)]; [done|].
  apply list_lookup_insert_ne. congruence.
Qed.

(** The [try] block writes to one cell of the copy only, its root, and
    there to [projects] and [financialData] only. *)
Lemma filter_with_permissions_frame permissions data h0 res h' :
  filter_with_permissions permissions data h0 = (Ok res, h') ->
  exists h1,
    JSON_parse_stringify data h0 = (Ok res, h1)
    /\ (length h1 <= length h')%nat
    /\ (forall l, (l < length h1)%nat -> res <> VRef l -> h' !! l = h1 !! l)
    /\ (forall k, k <> "projects"%string -> k <> "financialData"%string ->
                  field h' res k = field h1 res k)
    /\ field h' res "financialData"
       = if _hasPermissionType permissions "FINANCIAL_DATA"
         then field h1 res "financialData" else VUndefined.
Proof.
  intros Hrun. unfold filter_with_permissions in Hrun.
  apply bind_ok in Hrun as (d & h1 & Hclone & Hrun).
  pose proof Hclone as Hspec.
  apply (json_clone_spec (length h0)) in Hspec as (Hp & Hreg & Hd);
    [|done|apply forest_start].
  apply forest_region in Hreg. specialize (Hd d eq_refl).
  assert (Hg1 : grown h0 h1) by done.
  apply bind_ok in Hrun as (p0 & ? & Hget & Hrun).
  apply getProp_inv in Hget as [-> [[_ [? [=]]]|(_ & _ & [= ->])]].
  apply bind_ok in Hrun as ([] & h5 & Hblock & Hrun).
  apply bind_ok in Hrun as ([] & h6 & Hdel & Hrun).
  apply ret_inv in Hrun as [[= ->] ->].
  exists h1. split; [done|].
  (* the two assignments to [projects] *)
  assert (Hfive : (length h1 <= length h5)%nat
            /\ (forall l, (l < length h1)%nat -> d <> VRef l -> h5 !! l = h1 !! l)
            /\ (forall k, k <> "projects"%string -> field h5 d k = field h1 d k)).
  { destruct (truthy (field h1 d "projects")).
    2:{ by apply ret_inv in Hblock as [_ ->]. }
    apply filter_projects_spec with (h0 := h0) in Hblock as [_ Hfacts];
      [|done..].
    destruct (Hfacts eq_refl)
      as (ld & fs & kept & -> & Hld & _ & _ & _ & Hh5).
    clear Hfacts. simpl in Hh5.
    set (h3 := <[ld := CObject (<["projects" := VRef (length h1)]> fs)]>
                 (h1 ++ [CArray kept])) in *.
    assert (Hlen3 : length h3 = S (length h1)).
    { unfold h3. rewrite length_insert, length_app. simpl. lia. }
    apply lookup_lt_Some in Hld as Hld_lt.
    split; [|split].
    - subst h5. rewrite length_insert, !length_app. lia.
    - intros l Hl Hne. subst h5.
      rewrite list_lookup_insert_ne by congruence.
      rewrite lookup_app_l by lia. unfold h3.
      rewrite list_lookup_insert_ne by congruence.
      by rewrite lookup_app_l.
    - intros k Hk. rewrite (field_object h1 ld fs) by done.
      erewrite field_object.
      2:{ subst h5. apply list_lookup_insert_eq. rewrite length_app. lia. }
      by rewrite !lookup_insert_ne by done. }
  destruct Hfive as (Hlen5 & Hcells5 & Hfields5).
  (* the deletion of [financialData] *)
  destruct (_hasPermissionType permissions "FINANCIAL_DATA"); simpl in Hdel.
  - apply ret_inv in Hdel as [_ ->].
    split; [done|]. split; [done|]. split; [|by apply Hfields5].
    intros k Hk _. by apply Hfields5.
  - pose proof (deleteProp_length _ _ _ _ _ Hdel) as Hlen6.
    split; [lia|]. split; [|split].
    + intros l Hl Hne. rewrite (deleteProp_other _ _ _ _ _ _ Hdel) by done.
      by apply Hcells5.
    + intros k Hk1 Hk2.
      rewrite (field_deleteProp_ne _ _ _ _ _ _ _ Hdel) by done.
      by apply Hfields5.
    + by eapply field_deleteProp_eq.
Qed.

(** A JSON copy reads the cells below its root only: it stays a copy when
    the heap changes elsewhere. *)
Lemma json_copy_below n0 h1 h' b :
  forest n0 h1 ->
  (forall l, (n0 <= l < b)%nat -> h' !! l = h1 !! l) ->
  forall n h v v',
    json_copy n h h1 v v' ->
    (forall l', v' = VRef l' -> (n0 <= l' < b)%nat) ->
    json_copy n h h' v v'.
Proof.
  intros Hforest Hsame.
  induction n as [|n IH]; intros h v v'; destruct v as [| | | | |l]; simpl;
    try done.
  intros (l' & -> & H) Hb. specialize (Hb l' eq_refl).
  exists l'. split; [done|].
  destruct (cell_at h l) as [fs|es].
  - destruct H as (fs' & Hl' & Hk). exists fs'.
    split; [by rewrite Hsame|].
    intros k. specialize (Hk k).
    destruct (fs !! k) as [x|] eqn:Hx; [|done].
    assert (Hchild : forall x', fs' !! k = Some x' ->
              forall l'', x' = VRef l'' -> (n0 <= l'' < b)%nat).
    { intros x' Hx' l'' ->.
      destruct (Hforest l' (CObject fs') ltac:(lia) Hl' (VRef l'')
                  ltac:(simpl; eauto) l'' eq_refl). lia. }
    destruct x; try done; destruct Hk as (x' & Hx' & Hc);
      exists x'; (split; [done|]); apply IH; eauto.
  - destruct H as (es' & Hl' & HF). exists es'.
    split; [by rewrite Hsame|].
    apply Forall2_elem_r in HF.
    eapply Forall2_impl; [exact HF|]. intros x x' [Hc Hin]. apply IH; [done|].
    intros l'' ->.
    destruct (Hforest l' (CArray es') ltac:(lia) Hl' (VRef l'') Hin l'' eq_refl).
    lia.
Qed.

(** The properties of the copy, read off the properties of the original. *)
Lemma filter_with_permissions_passes permissions data h0 res h' k :
  well_formed h0 -> in_bounds h0 data ->
  filter_with_permissions permissions data h0 = (Ok res, h') ->
  k <> "projects"%string ->
  k <> "financialData"%string
    \/ _hasPermissionType permissions "FINANCIAL_DATA" = true ->
  if is_defined (field h0 data k)
  then json_copy (length h0) h0 h' (field h0 data k) (field h' res k)
  else field h' res k = VUndefined.
Proof.
  intros Hwf Hin Hrun Hk Hfin.
  apply filter_with_permissions_frame in Hrun
    as (h1 & Hclone & Hlen & Hcells & Hfields & Hfd).
  assert (Hsame : field h' res k = field h1 res k).
  { destruct (decide (k = "financialData"%string)) as [->|Hne].
    - destruct Hfin as [?|Hfin]; [done|]. by rewrite Hfd, Hfin.
    - by apply Hfields. }
  rewrite Hsame. clear Hsame Hfields Hfd.
  pose proof Hclone as Hcopy.
  apply (json_clone_copy h0 Hwf) in Hcopy; [|done..].
  apply (json_clone_spec (length h0)) in Hclone as (Hp & Hforest & Hfresh);
    [|done|apply forest_start].
  specialize (Hfresh res eq_refl).
  destruct data as [| | | | |l]; simpl in Hcopy; try done;
    try (by subst res).
  destruct Hcopy as (ld & -> & Hcopy).
  destruct (Hfresh ld eq_refl) as [Hld1 Hld2].
  specialize (Hin l eq_refl).
  change (field h0 (VRef l) k) with (default VUndefined (fields_at h0 l !! k)).
  unfold fields_at.
  destruct (cell_at h0 l) as [fs|es].
  - destruct Hcopy as (fs' & Hld & Hprops). specialize (Hprops k).
    rewrite (field_object _ _ _ _ Hld).
    destruct (fs !! k) as [x|] eqn:Hx; simpl; [|by rewrite Hprops].
    assert (Hbelow : forall l0, (length h0 <= l0 < ld)%nat -> h' !! l0 = h1 !! l0).
    { intros l0 Hl0. apply Hcells; [lia|]. intros [= E]. lia. }
    assert (Hchild : forall x', fs' !! k = Some x' ->
              forall l'', x' = VRef l'' -> (length h0 <= l'' < ld)%nat).
    { intros x' Hx' l'' ->.
      by destruct (Hforest ld (CObject fs') Hld1 Hld (VRef l'')
                     ltac:(simpl; eauto) l'' eq_refl). }
    destruct x; simpl; try (by rewrite Hprops);
      destruct Hprops as (x' & Hx' & Hc); rewrite Hx'; simpl;
      eapply (json_copy_below (length h0) h1 h' ld); eauto.
  - destruct Hcopy as (es' & Hld & _). rewrite lookup_empty. simpl.
    apply field_not_object. intros fs. by rewrite Hld.
Qed.

(** Without [FINANCIAL_DATA] nothing is returned under [financialData],
    on either path. *)
Lemma filter_financialData_removed this uid data w perms res w' :
  forgeUserAdapter_getUserPermissions this uid = Ok perms ->
  filterPortfolioDataByPermissions this uid data w = (Ok res, w') ->
  _hasPermissionType perms "FINANCIAL_DATA" = false ->
  field (heap_of w') res "financialData" = VUndefined.
Proof.
  intros Hperms Hrun Hfin.
  destruct (filter_try this uid data w) as [[res1|e] w1] eqn:Htry.
  - rewrite (filter_try_returns _ _ _ _ _ _ Htry) in Hrun.
    injection Hrun as <- <-.
    apply filter_try_inv in Htry as [(e & _ & [=] & _)|(perms' & Hperms' & Htry)].
    rewrite Hperms in Hperms'. injection Hperms' as <-.
    apply filter_with_permissions_frame in Htry as (h1 & _ & _ & _ & _ & Hfd).
    by rewrite Hfd, Hfin.
  - destruct (filterPortfolioDataByPermissions_spec this uid data w)
      as (res0 & w0 & Hrun0 & _ & _ & Hfail & _).
    rewrite Hrun in Hrun0. injection Hrun0 as <- <-.
    destruct (Hfail e w1 Htry) as (o & a & -> & Ho & _).
    by rewrite (field_object _ _ _ _ Ho).
Qed.

(** X13: what the filter does to the properties of the portfolio itself.
    Without a [FINANCIAL_DATA] permission the value returned has no
    [financialData], on every path.  And when the [try] block returns, every
    property of the portfolio other than [projects] (and other than
    [financialData], unless the caller has [FINANCIAL_DATA]) comes back as
    its JSON copy, whatever the permissions: the filter leaves it alone. *)
Theorem filterPortfolioDataByPermissions_top_level
    this uid data w perms res w' :
  forgeUserAdapter_getUserPermissions this uid = Ok perms ->
  filterPortfolioDataByPermissions this uid data w = (Ok res, w') ->
  (_hasPermissionType perms "FINANCIAL_DATA" = false ->
   field (heap_of w') res "financialData" = VUndefined)
  /\ (forall k,
        well_formed (heap_of w) -> in_bounds (heap_of w) data ->
        (filter_try this uid data w).1 = Ok res ->
        k <> "projects"%string ->
        k <> "financialData"%string
          \/ _hasPermissionType perms "FINANCIAL_DATA" = true ->
        if is_defined (field (heap_of w) data k)
        then json_copy (length (heap_of w)) (heap_of w) (heap_of w')
               (field (heap_of w) data k) (field (heap_of w') res k)
        else field (heap_of w') res k = VUndefined).
Proof.
  intros Hperms Hrun.
  split; [by eapply filter_financialData_removed|].
  intros k Hwf Hin Htry Hk Hfin.
  destruct (filter_try this uid data w) as [r1 w1] eqn:Htry1.
  simpl in Htry. subst r1.
  rewrite (filter_try_returns _ _ _ _ _ _ Htry1) in Hrun.
  injection Hrun as <-.
  apply filter_try_inv in Htry1 as [(e & _ & [=] & _)|(perms' & Hperms' & Htry1)].
  rewrite Hperms in Hperms'. injection Hperms' as <-.
  by eapply filter_with_permissions_passes.
Qed.

Lemma filterPortfolioDataByPermissions_top_level_witness :
  let r := filterPortfolioDataByPermissions (answering sales_only)
             (VStr "exec-sales-001") (VRef 7%nat) test_world in
  field (heap_of r.2) (VRef 15%nat) "financialData" = VUndefined.
Proof.
  intros r.
  apply (proj1 (filterPortfolioDataByPermissions_top_level
                  (answering sales_only) (VStr "exec-sales-001") (VRef 7%nat)
                  test_world sales_only (VRef 15%nat) r.2 eq_refl
                  ltac:(by vm_compute))).
  reflexivity.
Defined.

(** *** When the filter does not fall back *)

Lemma bind_run {S A B} (m : M S A) (f : A -> M S B) s a s1 :
  m s = (Ok a, s1) -> bind m f s = f a s1.
Proof. intros H. unfold bind. by rewrite H. Qed.

(** The two assignments to [projects] go through on a copy whose project
    list is an array without holes. *)
Lemma filter_projects_returns permissions h1 ld fs a es :
  h1 !! ld = Some (CObject fs) -> fs !! "projects" = Some (VRef a) ->
  h1 !! a = Some (CArray es) ->
  Forall (fun q => q <> VNull /\ q <> VUndefined) es ->
  Forall (in_bounds h1) es ->
  exists h5, filter_projects permissions (VRef ld) h1 = (Ok tt, h5).
Proof.
  intros Hld Hp Ha Hes Hin. unfold filter_projects.
  assert (Hld_lt : (ld < length h1)%nat) by by eapply lookup_lt_Some.
  erewrite bind_run.
  2:{ unfold getProp. by rewrite (field_object _ _ _ _ Hld), Hp. }
  simpl.
  erewrite bind_run by by apply filterProjectsByBusinessUnit_run.
  set (kept := surviving permissions h1 es).
  assert (Hkept : Forall (in_bounds h1) kept).
  { unfold kept, surviving.
    destruct (_hasPermissionType permissions "PORTFOLIO_VIEW"); [|constructor].
    apply Forall_forall. intros q Hq.
    apply list_elem_of_In, filter_In in Hq as [Hq _].
    rewrite Forall_forall in Hin. by apply Hin, list_elem_of_In. }
  erewrite bind_run.
  2:{ unfold setProp. rewrite lookup_app_l by done. by rewrite Hld. }
  set (h3 := <[ld := CObject (<["projects" := VRef (length h1)]> fs)]>
               (h1 ++ [CArray kept])).
  assert (Hld3 : h3 !! ld
                 = Some (CObject (<["projects" := VRef (length h1)]> fs))).
  { unfold h3. apply list_lookup_insert_eq. rewrite length_app. lia. }
  erewrite bind_run.
  2:{ unfold getProp. rewrite (field_object _ _ _ _ Hld3).
      by rewrite lookup_insert_eq. }
  simpl.
  assert (Harr : h3 !! length h1 = Some (CArray kept)).
  { unfold h3. rewrite list_lookup_insert_ne by lia.
    rewrite lookup_app_r by done. by rewrite Nat.sub_diag. }
  assert (Hin3 : Forall (in_bounds h3) kept).
  { eapply Forall_impl; [exact Hkept|]. intros q Hq l Hl.
    specialize (Hq l Hl). unfold h3. rewrite length_insert, length_app. lia. }
  erewrite bind_run by by apply filterSensitiveProjectData_run.
  unfold setProp. rewrite lookup_app_l
    by (unfold h3; rewrite length_insert, length_app; lia).
  rewrite Hld3. eauto.
Qed.

(** The JSON copy of a value that is neither [null] nor [undefined] is
    neither. *)
Lemma json_copy_not_null n h h' x x' :
  x <> VNull -> x <> VUndefined ->
  json_copy n h h' (undefined_to_null x) x' -> x' <> VNull /\ x' <> VUndefined.
Proof.
  intros Hn Hu. destruct x as [| | | | |l]; simpl; try done;
    try (intros ->%json_copy_primitive; done).
  destruct n; [done|]. by intros (l' & -> & _).
Qed.

(** On a portfolio object whose structure is not cyclic and whose project
    list, if it has one, is an array without holes, the statements that
    follow the fetch of the permissions all go through. *)
Lemma filter_with_permissions_returns permissions h0 l fs :
  well_formed h0 -> h0 !! l = Some (CObject fs) ->
  (forall ls, starts_at (VRef l) ls -> chain h0 ls -> NoDup ls) ->
  (truthy (default VUndefined (fs !! "projects")) = true ->
   exists a es,
     fs !! "projects" = Some (VRef a) /\ h0 !! a = Some (CArray es)
     /\ Forall (fun q => q <> VNull /\ q <> VUndefined) es) ->
  exists res h', filter_with_permissions permissions (VRef l) h0 = (Ok res, h').
Proof.
  intros Hwf Hl Hacyclic Hprojects.
  assert (Hin : in_bounds h0 (VRef l)).
  { intros ? [= <-]. by eapply lookup_lt_Some. }
  unfold filter_with_permissions.
  destruct (JSON_parse_stringify (VRef l) h0) as [[d|e] h1] eqn:Hclone.
  2:{ apply (JSON_parse_stringify_throws_on_cycle h0 Hwf) in Hclone
        as (ls & Hstart & Hchain & Hdup); [|done..].
      destruct Hdup. by apply Hacyclic. }
  pose proof Hclone as Hcopy.
  apply (json_clone_copy h0 Hwf) in Hcopy; [|done..].
  apply (json_clone_spec (length h0)) in Hclone as Hspec;
    [|done|apply forest_start].
  destruct Hspec as (Hp & Hforest & Hfresh).
  specialize (Hfresh d eq_refl).
  cbn [json_copy] in Hcopy. destruct Hcopy as (ld & -> & Hcopy).
  unfold cell_at in Hcopy. rewrite Hl in Hcopy. simpl in Hcopy.
  destruct Hcopy as (fs' & Hld & Hprops).
  destruct (Hfresh ld eq_refl) as [Hld1 Hld2].
  erewrite bind_run by done.
  erewrite bind_run by (unfold getProp; reflexivity).
  rewrite (field_object _ _ _ _ Hld).
  assert (Hblock : exists h5,
            (if truthy (default VUndefined (fs' !! "projects"))
             then filter_projects permissions (VRef ld) else ret tt) h1
            = (Ok tt, h5)).
  { destruct (truthy (default VUndefined (fs' !! "projects"))) eqn:Htruthy;
      [|by eexists].
    pose proof (Hprops "projects"%string) as Hpr.
    destruct (fs !! "projects") as [x|] eqn:Hx;
      [|by rewrite Hpr in Htruthy].
    assert (Horig : truthy x = true).
    { destruct x; try (by rewrite Hpr in Htruthy); try done;
        destruct Hpr as (x' & Hx' & Hc); rewrite Hx' in Htruthy;
        apply json_copy_primitive in Hc; try done; by subst x'. }
    destruct (Hprojects Horig) as (a & es & [= ->] & Ha & Hes).
    destruct Hpr as (x' & Hx' & Hc).
    destruct (length h0) as [|n] eqn:Hn.
    { apply lookup_lt_Some in Hl. lia. }
    cbn [json_copy] in Hc. destruct Hc as (a' & -> & Hc).
    unfold cell_at in Hc. rewrite Ha in Hc. simpl in Hc.
    destruct Hc as (es' & Ha' & HF).
    assert (Ha'1 : (length h0 <= a' < ld)%nat).
    { rewrite Hn.
      by destruct (Hforest ld (CObject fs') ltac:(lia) Hld (VRef a')
                     ltac:(simpl; eauto) a' eq_refl). }
    eapply (filter_projects_returns _ _ _ _ a' es'); [done..| |].
    - apply Forall_forall. intros q' Hq'.
      apply list_elem_of_lookup in Hq' as [i Hi].
      destruct (Forall2_lookup_r _ _ _ _ _ HF Hi) as (q & Hq & Hqq).
      rewrite Forall_forall in Hes.
      destruct (Hes q) as [? ?]; [by eapply list_elem_of_lookup_2|].
      by eapply json_copy_not_null.
    - apply Forall_forall. intros q' Hq' l' ->.
      destruct (Hforest a' (CArray es') ltac:(lia) Ha' (VRef l') Hq' l' eq_refl).
      apply lookup_lt_Some in Ha'. lia. }
  destruct Hblock as [h5 Hblock].
  erewrite bind_run by exact Hblock.
  destruct (negb (_hasPermissionType permissions "FINANCIAL_DATA")).
  - destruct (deleteProp (VRef ld) "financialData" h5) as [r6 h6] eqn:Hdel.
    pose proof (deleteProp_ref_ok _ _ _ _ _ Hdel) as ->.
    erewrite bind_run by exact Hdel. by eexists _, _.
  - erewrite bind_run by reflexivity. by eexists _, _.
Qed.

(** X14: the filter falls back on [{ projects: [] }] for a reason only.
    When the identity provider answers, the portfolio is an object whose
    structure is not cyclic, and its [projects], if truthy, is an array
    without [null] or [undefined] elements, the [try] block runs to its end:
    the value returned is the filtered copy, not the fail-safe result. *)
Theorem filterPortfolioDataByPermissions_no_silent_failure
    this uid w perms l fs :
  forgeUserAdapter_getUserPermissions this uid = Ok perms ->
  well_formed (heap_of w) -> heap_of w !! l = Some (CObject fs) ->
  (forall ls, starts_at (VRef l) ls -> chain (heap_of w) ls -> NoDup ls) ->
  (truthy (default VUndefined (fs !! "projects")) = true ->
   exists a es,
     fs !! "projects" = Some (VRef a) /\ heap_of w !! a = Some (CArray es)
     /\ Forall (fun q => q <> VNull /\ q <> VUndefined) es) ->
  exists res w',
    filter_try this uid (VRef l) w = (Ok res, w')
    /\ filterPortfolioDataByPermissions this uid (VRef l) w = (Ok res, w').
Proof.
  intros Hperms Hwf Hl Hacyclic Hprojects.
  destruct (filter_with_permissions_returns perms (heap_of w) l fs
              Hwf Hl Hacyclic Hprojects) as (res & h' & Hrun).
  assert (Htry : filter_try this uid (VRef l) w
                 = (Ok res, {| heap_of := h';
                               calls := calls w ++ [GetUserPermissions uid] |})).
  { unfold filter_try, getUserPermissions, call, bind, on_heap.
    rewrite Hperms. simpl. by rewrite Hrun. }
  eexists _, _. split; [exact Htry|]. by apply filter_try_returns.
Qed.

Lemma filterPortfolioDataByPermissions_no_silent_failure_witness :
  let w := {| heap_of := [CArray [VRef 2%nat];
                          CObject {[ "projects" := VRef 0%nat ]};
                          CObject {[ "businessUnit" := VStr "Sales" ]}];
              calls := [] |} in
  exists res w',
    filterPortfolioDataByPermissions (answering sales_only)
      (VStr "exec-sales-001") (VRef 1%nat) w = (Ok res, w').
Proof.
  intros w.
  destruct (filterPortfolioDataByPermissions_no_silent_failure
              (answering sales_only) (VStr "exec-sales-001") w sales_only
              1%nat {[ "projects" := VRef 0%nat ]})
    as (res & w' & _ & Hrun).
  - reflexivity.
  - apply well_formedb_correct. reflexivity.
  - reflexivity.
  - intros ls (l0 & rest & [= <-] & ->) Hchain.
    inversion Hchain as [|? l1 ls1 Hst1 Hch1]; subst; [compute_done|].
    destruct Hst1 as [k1 Hk1].
    apply lookup_singleton_Some in Hk1 as [_ [= <-]].
    inversion Hch1 as [|? l2 ls2 Hst2 Hch2]; subst; [compute_done|].
    apply list_elem_of_In in Hst2 as [[= <-]|[]].
    inversion Hch2 as [|? l3 ls3 Hst3 Hch3]; subst; [compute_done|].
    destruct Hst3 as [k3 Hk3].
    by apply lookup_singleton_Some in Hk3 as [_ [=]].
  - intros _. exists 0%nat, [VRef 2%nat].
    split; [reflexivity|]. split; [reflexivity|].
    repeat constructor; discriminate.
  - exists res, w'. exact Hrun.
Defined.

(** X15: what the gate admits, the filter shows.  When
    [authorizePortfolioAccess] has returned [true] for a business unit, and
    the [try] block of the filter returns on a portfolio with a project
    list, every project of that business unit is in the list returned, as
    its redacted copy. *)
Theorem gate_admits_filter_shows
    this uid bu tok w0 data w perms res w' es :
  (authorizePortfolioAccess this uid bu tok w0).1 = Ok true ->
  forgeUserAdapter_getUserPermissions this uid = Ok perms ->
  well_formed (heap_of w) -> has_projects (heap_of w) data es ->
  filter_try this uid data w = (Ok res, w') ->
  exists ps,
    has_projects (heap_of w') res ps
    /\ forall q, q ∈ es -> field (heap_of w) q "businessUnit" = bu ->
         exists p, p ∈ ps
           /\ redacted_copy perms (length (heap_of w)) (heap_of w) (heap_of w') q p.
Proof.
  intros Hgate Hperms Hwf Hes Htry.
  assert (Hgrant : has_grant perms bu).
  { revert Hgate. unfold authorizePortfolioAccess, try_catch, bind,
      _logAuthorizationEvent, getUserPermissions, call, ret. simpl.
    rewrite Hperms.
    destruct (truthy tok); simpl.
    2:{ by destruct (auditService_logAuthorizationEvent this _) as [[]|e];
          simpl; [|destruct (auditService_logAuthorizationEvent this _) as [[]|e']]. }
    destruct (_isValidExecutiveUserId uid); simpl.
    2:{ by destruct (auditService_logAuthorizationEvent this _) as [[]|e];
          simpl; [|destruct (auditService_logAuthorizationEvent this _) as [[]|e']]. }
    destruct (_hasPermissionType perms "PORTFOLIO_VIEW"); simpl.
    2:{ by destruct (auditService_logAuthorizationEvent this _) as [[]|e];
          simpl; [|destruct (auditService_logAuthorizationEvent this _) as [[]|e']]. }
    destruct (_hasBusinessUnitAccess perms "PORTFOLIO_VIEW" bu) eqn:Hb; simpl.
    2:{ by destruct (auditService_logAuthorizationEvent this _) as [[]|e];
          simpl; [|destruct (auditService_logAuthorizationEvent this _) as [[]|e']]. }
    intros _. by apply hasBusinessUnitAccess_grant. }
  destruct (filter_try_refines _ _ _ _ _ _ _ _ Hwf Hes Hperms Htry)
    as (ps & Hps & HF).
  exists ps. split; [done|]. intros q Hq Hbu.
  assert (Hsurv : q ∈ surviving perms (heap_of w) es).
  { unfold surviving. rewrite (has_grant_permission_type _ _ Hgrant).
    apply list_elem_of_In, filter_In. split; [by apply list_elem_of_In|].
    rewrite Hbu. by apply scoping_check. }
  apply list_elem_of_lookup in Hsurv as [i Hi].
  destruct (Forall2_lookup_l _ _ _ _ _ HF Hi) as (p & Hp & Hcopy).
  exists p. split; [by eapply list_elem_of_lookup_2|done].
Qed.

Lemma gate_admits_filter_shows_witness :
  let r := filter_try (answering sales_only) (VStr "exec-sales-001")
             (VRef 7%nat) test_world in
  exists ps,
    has_projects (heap_of r.2) (VRef 15%nat) ps
    /\ exists p, p ∈ ps
         /\ redacted_copy sales_only 8 test_heap (heap_of r.2) (VRef 2%nat) p.
Proof.
  intros r.
  destruct (gate_admits_filter_shows (answering sales_only)
              (VStr "exec-sales-001") (VStr "Sales") (VStr "auth-token-12345")
              empty_world (VRef 7%nat) test_world sales_only (VRef 15%nat) r.2
              [VRef 0%nat; VRef 1%nat; VRef 2%nat; VRef 3%nat])
    as (ps & Hps & Hall).
  - reflexivity.
  - reflexivity.
  - apply well_formedb_correct. by vm_compute.
  - by exists 4%nat.
  - by vm_compute.
  - exists ps. split; [exact Hps|].
    apply (Hall (VRef 2%nat)); [|reflexivity].
    apply list_elem_of_In. right. right. by left.
Defined.

End PermissionFilterFacts.

Module PortfolioServiceFacts.
Import JS JSFacts AuditTrail PortfolioService AccessGateFacts PermissionFilterFacts.
Local Open Scope js_scope.

(** *** The business unit of an executive *)

Lemma String_prefix_app t s :
  String.prefix t s = true <-> exists b, s = t +:+ b.
Proof.
  revert s. induction t as [|c t IH]; intros s.
  - split; [intros _; by exists s|]. intros _. by destruct s.
  - destruct s as [|c' s].
    { split; [done|]. by intros [b [=]]. }
    cbn [String.prefix].
    destruct (Ascii.ascii_dec c c') as [<-|Hne].
    + rewrite IH. split; intros [b Hb]; exists b.
      * cbn. by rewrite Hb.
      * cbn in Hb. by injection Hb.
    + split; [done|]. intros [b Hb]. cbn in Hb. by injection Hb.
Qed.

(** [String_includes t s] holds exactly when [t] occurs in [s]. *)
Lemma String_includes_occurs t s :
  String_includes t s = true <-> exists a b, s = a +:+ t +:+ b.
Proof.
  induction s as [|c s IH]; cbn [String_includes].
  - rewrite orb_false_r, String_prefix_app. split.
    + intros [b Hb]. by exists ""%string, b.
    + intros (a & b & Hab). destruct a; [by exists b|done].
  - rewrite orb_true_iff, String_prefix_app, IH. split.
    + intros [[b Hb]|(a & b & Hab)].
      * by exists ""%string, b.
      * exists (String c a), b. cbn. by rewrite Hab.
    + intros (a & b & Hab). destruct a as [|c' a]; [left; by exists b|].
      right. exists a, b. cbn in Hab. by injection Hab.
Qed.

Lemma includes_method_heap v t h r h' :
  includes_method v t h = (r, h') -> h' = h.
Proof.
  unfold includes_method. repeat case_match; by intros [= _ <-].
Qed.

Lemma includes_method_eq v t h :
  includes_method v t h = ((includes_method v t h).1, h).
Proof.
  destruct (includes_method v t h) as [r h'] eqn:E.
  by apply includes_method_heap in E as ->.
Qed.

Lemma getExecutiveBusinessUnit_heap uid h r h' :
  _getExecutiveBusinessUnit uid h = (r, h') -> h' = h.
Proof.
  unfold _getExecutiveBusinessUnit, bind, ret.
  rewrite (includes_method_eq uid "ceo").
  destruct (includes_method uid "ceo" h).1 as [[]|]; simpl;
    try (by intros [= _ <-]).
  rewrite (includes_method_eq uid "cfo").
  destruct (includes_method uid "cfo" h).1 as [[]|]; simpl;
    try (by intros [= _ <-]).
  rewrite (includes_method_eq uid "sales").
  destruct (includes_method uid "sales" h).1 as [[]|]; simpl;
    try (by intros [= _ <-]).
  rewrite (includes_method_eq uid "engineering").
  destruct (includes_method uid "engineering" h).1 as [[]|]; simpl;
    by intros [= _ <-].
Qed.

Lemma includes_method_string t s h :
  includes_method (VStr s) t h = (Ok (String_includes t s), h).
Proof. done. Qed.

Lemma String_includes_false t s :
  String_includes t s = false <-> ~ occurs t s.
Proof.
  unfold occurs. rewrite <- String_includes_occurs.
  by destruct (String_includes t s).
Qed.

(** X16: the business unit of an executive is read off the identifier, in
    a fixed order of precedence.  On every string [_getExecutiveBusinessUnit]
    returns and leaves the heap as it is; the unit is [Corporate] as soon as
    [ceo] or [cfo] occurs anywhere in the identifier, whatever else it
    names; otherwise [Sales] when [sales] occurs; otherwise [Engineering]
    when [engineering] occurs; and [Corporate] again when none of the four
    words occurs. *)
Theorem getExecutiveBusinessUnit_precedence s h :
  exists bu,
    _getExecutiveBusinessUnit (VStr s) h = (Ok bu, h)
    /\ (occurs "ceo" s \/ occurs "cfo" s -> bu = "Corporate"%string)
    /\ (~ occurs "ceo" s -> ~ occurs "cfo" s ->
        (occurs "sales" s -> bu = "Sales"%string)
        /\ (~ occurs "sales" s -> occurs "engineering" s ->
            bu = "Engineering"%string)
        /\ (~ occurs "sales" s -> ~ occurs "engineering" s ->
            bu = "Corporate"%string)).
Proof.
  unfold _getExecutiveBusinessUnit, bind, ret, occurs.
  rewrite !includes_method_string.
  destruct (String_includes "ceo" s) eqn:Hceo.
  { eexists. split; [done|]. split; [done|].
    intros []. by apply String_includes_occurs. }
  rewrite !includes_method_string.
  destruct (String_includes "cfo" s) eqn:Hcfo.
  { eexists. split; [done|]. split; [done|].
    intros _ []. by apply String_includes_occurs. }
  rewrite !includes_method_string.
  destruct (String_includes "sales" s) eqn:Hsales.
  { eexists. split; [done|]. split.
    - intros [H|H]; apply String_includes_occurs in H; congruence.
    - intros _ _. split; [done|].
      split; intros []; by apply String_includes_occurs. }
  rewrite !includes_method_string.
  destruct (String_includes "engineering" s) eqn:Heng.
  - eexists. split; [done|]. split.
    + intros [H|H]; apply String_includes_occurs in H; congruence.
    + intros _ _. split.
      * intros H; apply String_includes_occurs in H; congruence.
      * split; [done|]. intros _ []. by apply String_includes_occurs.
  - eexists. split; [done|]. split.
    + intros [H|H]; apply String_includes_occurs in H; congruence.
    + intros _ _. split.
      * intros H; apply String_includes_occurs in H; congruence.
      * split; [|done]. intros _ H; apply String_includes_occurs in H; congruence.
Qed.

(** *** The steps of [getExecutivePortfolio] *)

Lemma authorization_eq {A} (m : M AuthorizationService.World A) w :
  authorization m w
  = ((m {| AuthorizationService.heap_of := objects w;
           AuthorizationService.calls := [] |}).1,
     {| objects := AuthorizationService.heap_of
                     (m {| AuthorizationService.heap_of := objects w;
                           AuthorizationService.calls := [] |}).2;
        history := history w
                   ++ (Authorization
                         <$> AuthorizationService.calls
                               (m {| AuthorizationService.heap_of := objects w;
                                     AuthorizationService.calls := [] |}).2) |}).
Proof. unfold authorization. by destruct (m _). Qed.

Lemma state_eta w cs :
  cs = [] -> w = {| objects := objects w; history := history w ++ cs |}.
Proof. intros ->. destruct w. simpl. by rewrite app_nil_r. Qed.

Lemma invoke_inv {A} (c : ServiceCall) (r0 : outcome A) w r w' :
  invoke c r0 w = (r, w') ->
  r = r0 /\ w' = {| objects := objects w; history := history w ++ [c] |}.
Proof. unfold invoke. by intros [= <- <-]. Qed.

Lemma in_heap_inv {A} (m : M heap A) w r w' :
  in_heap m w = (r, w') ->
  exists h', m (objects w) = (r, h')
             /\ w' = {| objects := h'; history := history w |}.
Proof.
  unfold in_heap. destruct (m (objects w)) as [r0 h'].
  intros [= <- <-]. eauto.
Qed.

(** One cell for each element of a list. *)
Lemma mapM_alloc_cells {A} (g : A -> cell) (xs : list A) h :
  mapM (fun x => alloc (g x)) xs h
  = (Ok ((fun i => VRef (length h + i)%nat) <$> seq 0 (length xs)),
     h ++ (g <$> xs)).
Proof.
  revert h. induction xs as [|x xs IH]; intros h.
  - simpl. unfold ret. by rewrite app_nil_r.
  - cbn [mapM]. unfold bind at 1. unfold alloc at 1. unfold bind at 1.
    rewrite IH. unfold ret. f_equal.
    + f_equal. cbn [length seq fmap list_fmap]. f_equal.
      * f_equal. lia.
      * rewrite <- seq_shift, <- (list_fmap_compose S).
        apply list_fmap_ext. intros _ i _. simpl. f_equal.
        rewrite length_app. simpl. lia.
    + rewrite fmap_cons. by rewrite <- app_assoc.
Qed.

Lemma Promise_all_length {A} (rs : list (outcome A)) l :
  Promise_all rs = Ok l -> length l = length rs.
Proof.
  revert l. induction rs as [|[a|e] rs IH]; intros l; simpl.
  - by intros [= <-].
  - destruct (Promise_all rs) as [l'|e]; [|done].
    intros [= <-]. simpl. by rewrite (IH l').
  - done.
Qed.

(** *** The raw portfolio in the heap *)

Lemma enhanced_fields_primitive b project metrics k v :
  enhanced_fields b project metrics !! k = Some v -> is_primitive v = true.
Proof.
  unfold enhanced_fields. intros H.
  repeat (apply lookup_insert_Some in H as [[_ <-]|[_ H]]; [done|]).
  destruct b, (businessUnit project);
    repeat (apply lookup_insert_Some in H as [[_ <-]|[_ H]]; [done|]);
    by apply lookup_singleton_Some in H as [_ <-].
Qed.

Lemma summary_fields_primitive s k v :
  summary_fields s !! k = Some v -> is_primitive v = true.
Proof.
  unfold summary_fields. intros H.
  repeat (apply lookup_insert_Some in H as [[_ <-]|[_ H]]; [done|]).
  by apply lookup_singleton_Some in H as [_ <-].
Qed.

Lemma alert_fields_primitive a k v :
  alert_fields a !! k = Some v -> is_primitive v = true.
Proof.
  unfold alert_fields. intros H.
  repeat (apply lookup_insert_Some in H as [[_ <-]|[_ H]]; [done|]).
  by apply lookup_singleton_Some in H as [_ <-].
Qed.

(** Cells that hold no reference extend a forest. *)
Lemma forest_app_primitive n h cells :
  forest n h ->
  Forall (fun c => forall v, stores c v -> is_primitive v = true) cells ->
  forest n (h ++ cells).
Proof.
  intros Hf Hcells. revert h Hf.
  induction Hcells as [|c cells Hc _ IH]; intros h Hf.
  - by rewrite app_nil_r.
  - replace (h ++ c :: cells) with ((h ++ [c]) ++ cells)
      by (by rewrite <- app_assoc).
    apply IH.
    apply forest_alloc; [done|]. intros v Hv l ->. by apply Hc in Hv.
Qed.

(** In a forest no cell points outside the heap. *)
Lemma forest_well_formed h0 h :
  well_formed h0 -> h0 `prefix_of` h -> forest (length h0) h -> well_formed h.
Proof.
  intros Hwf [k ->] Hf l c v Hl Hv l' ->.
  destruct (decide (l < length h0)%nat) as [Hlt|Hge].
  - rewrite lookup_app_l in Hl by done.
    specialize (Hwf l c (VRef l') Hl Hv l' eq_refl).
    rewrite length_app. lia.
  - destruct (Hf l c ltac:(lia) Hl (VRef l') Hv l' eq_refl).
    apply lookup_lt_Some in Hl. lia.
Qed.

(** In a forest the chains go down: none comes back to a location. *)
Lemma forest_chain_descends n h l ls :
  forest n h -> (n <= l)%nat -> chain h (l :: ls) ->
  Forall (fun l' => n <= l' < l)%nat ls.
Proof.
  intros Hf. revert l. induction ls as [|l' ls IH]; intros l Hl Hch; [done|].
  inversion Hch as [|? ? ? Hst Hch']; subst.
  assert (Hl' : (n <= l' < l)%nat).
  { unfold cell_at in Hst. destruct (h !! l) as [c|] eqn:Hc; simpl in Hst.
    - by eapply Hf.
    - destruct Hst as [k Hk]. by rewrite lookup_empty in Hk. }
  constructor; [done|].
  eapply Forall_impl; [apply (IH l'); [lia|done]|].
  intros x Hx. simpl in Hx. lia.
Qed.

Lemma forest_chain_NoDup n h ls :
  forest n h -> chain h ls -> (forall l, head ls = Some l -> (n <= l)%nat) ->
  NoDup ls.
Proof.
  intros Hf. induction ls as [|l ls IH]; intros Hch Hl; [constructor|].
  specialize (Hl l eq_refl).
  pose proof (forest_chain_descends n h l ls Hf Hl Hch) as Hdesc.
  constructor.
  - intros Hin. rewrite Forall_forall in Hdesc. specialize (Hdesc l Hin). lia.
  - inversion Hch as [|? l' ls' Hst Hch']; subst; [constructor|].
    apply IH; [done|]. intros ? [= <-].
    apply Forall_cons in Hdesc as [? _]. lia.
Qed.

(** A JSON copy of an object that holds no reference is the same
    object. *)
Lemma json_copy_flat n h h' l fs v' :
  json_copy (S n) h h' (VRef l) v' ->
  h !! l = Some (CObject fs) ->
  (forall k x, fs !! k = Some x -> is_primitive x = true) ->
  exists l', v' = VRef l' /\ h' !! l' = Some (CObject fs).
Proof.
  cbn [json_copy]. intros (l' & -> & Hcell) Hl Hprim.
  unfold cell_at in Hcell. rewrite Hl in Hcell. simpl in Hcell.
  destruct Hcell as (fs' & Hl' & Hk).
  exists l'. split; [done|]. rewrite Hl'. do 2 f_equal.
  apply map_eq. intros k. specialize (Hk k).
  destruct (fs !! k) as [x|] eqn:Hx; [|done].
  pose proof (Hprim k x Hx) as Hp.
  destruct x; try done; destruct Hk as (x' & -> & Hc);
    by apply json_copy_primitive in Hc as ->.
Qed.

Lemma enhanced_fields_lookup p m :
  enhanced_fields true p m !! "key" = Some (VStr (key p))
  /\ enhanced_fields true p m !! "name" = Some (VStr (name p))
  /\ enhanced_fields true p m !! "businessUnit"
     = Some (VStr (businessUnit_or_default p))
  /\ enhanced_fields true p m !! "overdueIssues" = Some (VNum (overdueIssues m))
  /\ enhanced_fields true p m !! "blockedIssues" = Some (VNum (blockedIssues m))
  /\ enhanced_fields true p m !! "highPriorityIssues"
     = Some (VNum (highPriorityIssues m)).
Proof.
  unfold enhanced_fields.
  destruct (businessUnit p); repeat split; by simplify_map_eq.
Qed.

Lemma Forall2_compose {A B C} (R : A -> B -> Prop) (Q : B -> C -> Prop) l k m :
  Forall2 R l k -> Forall2 Q k m ->
  Forall2 (fun a c => exists b, R a b /\ Q b c) l m.
Proof.
  intros HR. revert m. induction HR as [|a b l k Hab _ IH]; intros m HQ.
  - inversion HQ. constructor.
  - inversion HQ as [|? c ? m' Hbc HQ']; subst. constructor; eauto.
Qed.

Section Service.
Context (this : Dependencies) (now : string) (teamSatisfaction : val).

(** [_getRawPortfolioData] when the port answers every call. *)
Lemma getRawPortfolioData_run uid w ps ms :
  jiraDataPort_getExecutiveProjects this = Ok ps ->
  Promise_all ((fun project =>
                  jiraDataPort_getProjectHealthMetrics this (key project))
                 <$> ps) = Ok ms ->
  _getRawPortfolioData this now teamSatisfaction uid w
  = (Ok (VRef (length (objects w) + length ps + 2
               + length (ExecutivePortfolio.getCriticalAlerts
                           (portfolio_of (executiveId_of uid) ps ms)) + 3)%nat),
     {| objects := objects w
                   ++ raw_cells now teamSatisfaction uid ps ms (length (objects w));
        history := history w
                   ++ GetExecutiveProjects
                      :: ((fun project => GetProjectHealthMetrics (key project))
                            <$> ps) |}).
Proof.
  intros Hps Hms.
  assert (Hlen : length (zip_with (enhanced_fields true) ps ms) = length ps).
  { apply Promise_all_length in Hms. rewrite length_fmap in Hms.
    rewrite length_zip_with. lia. }
  unfold _getRawPortfolioData, raw_cells.
  unfold bind at 1, invoke at 1. rewrite Hps.
  unfold bind at 1, getAllProjectHealthMetrics at 1. rewrite Hms. simpl.
  unfold in_heap. simpl.
  set (alerts := ExecutivePortfolio.getCriticalAlerts
                   (portfolio_of (executiveId_of uid) ps ms)).
  unfold bind at 1. rewrite (mapM_alloc_cells CObject).
  unfold bind at 1, alloc at 1.
  unfold bind at 1, alloc at 1.
  unfold bind at 1.
  rewrite (mapM_alloc_cells (fun alert => CObject (alert_fields alert))).
  unfold bind at 1, alloc at 1.
  unfold bind at 1, alloc at 1.
  unfold bind at 1, alloc at 1.
  unfold alloc.
  rewrite !length_app, !length_fmap, Hlen. simpl.
  replace (length (objects w) + length ps + 1 + 1)%nat
    with (length (objects w) + length ps + 2)%nat by lia.
  replace (length (objects w) + length ps + 2 + length alerts + 1 + 1 + 1)%nat
    with (length (objects w) + length ps + 2 + length alerts + 3)%nat by lia.
  replace (length (objects w) + length ps + 2 + length alerts + 1 + 1)%nat
    with (length (objects w) + length ps + 2 + length alerts + 2)%nat by lia.
  by rewrite <- !app_assoc.
Qed.


(** The [try] block up to the authorization check: it is left with an
    error, the heap untouched and the authorization service alone called,
    or the gate has let the request through and the read begins. *)
Lemma getExecutivePortfolio_try_cases uid tok w r w1 :
  getExecutivePortfolio_try this now teamSatisfaction uid tok w = (r, w1) ->
  (exists e cs,
      r = Throw e
      /\ w1 = {| objects := objects w;
                 history := history w ++ (Authorization <$> cs) |})
  \/ (truthy tok = true
      /\ AuthorizationService._isValidExecutiveUserId uid = true
      /\ exists bu perms,
           _getExecutiveBusinessUnit uid (objects w) = (Ok bu, objects w)
           /\ AuthorizationService.forgeUserAdapter_getUserPermissions
                (authorizationService this) uid = Ok perms
           /\ AuthorizationService.has_grant perms (VStr bu)
           /\ authorized_read this now teamSatisfaction uid bu
                {| objects := objects w;
                   history :=
                     history w
                     ++ [Authorization (AuthorizationService.GetUserPermissions uid);
                         Authorization
                           (AuthorizationService.LogAuthorizationEvent
                              (decision_record uid (VStr bu) "AUTHORIZED" None))] |}
              = (r, w1)).
Proof.
  unfold getExecutivePortfolio_try. intros Hrun.
  destruct w as [h cs0]. simpl in *.
  destruct (truthy tok) eqn:Htok; simpl in Hrun.
  2:{ left. injection Hrun as <- <-. eexists _, [].
      split; [done|]. simpl. by rewrite app_nil_r. }
  apply bind_inv in Hrun as [([] & ? & [= <-] & Hrun)|(? & [=] & _)].
  apply bind_inv in Hrun as [(bu & w2 & Hbu & Hrun)|(e & Hbu & ->)];
    unfold in_heap in Hbu; simpl in Hbu;
    destruct (_getExecutiveBusinessUnit uid h) as [r0 h1] eqn:Hunit;
    pose proof (getExecutiveBusinessUnit_heap _ _ _ _ Hunit) as ->;
    injection Hbu as -> <-.
  2:{ left. exists e, []. split; [done|]. simpl. by rewrite app_nil_r. }
  apply bind_inv in Hrun as [(ok & w3 & Hgate & Hrun)|(e & Hgate & ->)];
    rewrite authorization_eq in Hgate; simpl in Hgate;
    set (w0 := {| AuthorizationService.heap_of := h;
                  AuthorizationService.calls := [] |}) in *;
    destruct (gate_heap_calls (authorizationService this) uid (VStr bu) tok w0)
      as [Hheap [cs Hcs]];
    rewrite Hheap in Hgate; simpl in Hcs; injection Hgate as Hgate <-.
  2:{ left. exists e, cs. by rewrite Hcs. }
  destruct ok; simpl in Hrun.
  - right. apply gate_true_iff in Hgate as Hiff.
    destruct Hiff as (_ & Hid & perms & Hperms & Hgrant & _).
    split; [done|]. split; [done|]. exists bu, perms.
    repeat (split; [done|]).
    rewrite (gate_true_state _ _ _ _ _ Hgate) in Hrun.
    by apply bind_inv in Hrun as [([] & ? & [= <-] & Hrun)|(? & [=] & _)].
  - left. injection Hrun as <- <-. eexists _, cs. by rewrite Hcs.
Qed.

(** The cells of the raw portfolio, one by one. *)
Lemma raw_cells_lookup uid ps ms h :
  length ms = length ps ->
  let portfolio := portfolio_of (executiveId_of uid) ps ms in
  let alerts := ExecutivePortfolio.getCriticalAlerts portfolio in
  let n := length h in
  let k := length ps in
  let a := length alerts in
  let hR := h ++ raw_cells now teamSatisfaction uid ps ms n in
  length hR = (n + k + 2 + a + 4)%nat
  /\ (forall i fields,
        zip_with (enhanced_fields true) ps ms !! i = Some fields ->
        hR !! (n + i)%nat = Some (CObject fields))
  /\ hR !! (n + k)%nat
     = Some (CArray ((fun i => VRef (n + i)%nat) <$> seq 0 k))
  /\ hR !! (n + k + 1)%nat
     = Some (CObject (summary_fields
                        (ExecutivePortfolio.getPortfolioSummary portfolio)))
  /\ (forall j alert,
        alerts !! j = Some alert ->
        hR !! (n + k + 2 + j)%nat = Some (CObject (alert_fields alert)))
  /\ hR !! (n + k + 2 + a)%nat
     = Some (CArray ((fun i => VRef (n + k + 2 + i)%nat) <$> seq 0 a))
  /\ hR !! (n + k + 2 + a + 1)%nat
     = Some (CObject {[ "totalBudget" := VNum 5000000;
                        "totalRevenue" := VNum 8000000 ]})
  /\ hR !! (n + k + 2 + a + 2)%nat
     = Some (CObject {[ "averageVelocity" := VNum 85;
                        "teamSatisfaction" := teamSatisfaction ]})
  /\ hR !! (n + k + 2 + a + 3)%nat
     = Some (CObject {[ "projects" := VRef (n + k)%nat;
                        "portfolio" := VRef (n + k + 1)%nat;
                        "criticalAlerts" := VRef (n + k + 2 + a)%nat;
                        "financialData" := VRef (n + k + 2 + a + 1)%nat;
                        "detailedMetrics" := VRef (n + k + 2 + a + 2)%nat;
                        "lastUpdated" := VStr now ]}).
Proof.
  intros Hlen. cbv zeta. unfold raw_cells. cbv zeta.
  set (alerts := ExecutivePortfolio.getCriticalAlerts
                   (portfolio_of (executiveId_of uid) ps ms)).
  assert (Hk : length (zip_with (enhanced_fields true) ps ms) = length ps).
  { rewrite length_zip_with. lia. }
  rewrite Hk.
  set (E := CObject <$> zip_with (enhanced_fields true) ps ms).
  set (AL := (fun alert => CObject (alert_fields alert)) <$> alerts).
  assert (HE : length E = length ps) by (unfold E; by rewrite length_fmap).
  assert (HAL : length AL = length alerts) by (unfold AL; by rewrite length_fmap).
  split.
  { rewrite ?length_app, ?HE. simpl. rewrite ?length_app, ?HAL. simpl. lia. }
  split.
  { intros i fields Hi. apply lookup_lt_Some in Hi as Hlt. rewrite Hk in Hlt.
    rewrite lookup_app_r by lia. rewrite lookup_app_l by lia.
    replace (length h + i - length h)%nat with i by lia.
    unfold E. by rewrite list_lookup_fmap, Hi. }
  split.
  { rewrite lookup_app_r by lia. rewrite lookup_app_r by lia.
    by replace (length h + length ps - length h - length E)%nat
      with 0%nat by lia. }
  split.
  { rewrite lookup_app_r by lia. rewrite lookup_app_r by lia.
    by replace (length h + length ps + 1 - length h - length E)%nat
      with 1%nat by lia. }
  split.
  { intros j alert Hj. apply lookup_lt_Some in Hj as Hlt.
    rewrite lookup_app_r by lia. rewrite lookup_app_r by lia.
    replace (length h + length ps + 2 + j - length h - length E)%nat
      with (2 + j)%nat by lia.
    simpl. rewrite lookup_app_l by lia.
    unfold AL. by rewrite list_lookup_fmap, Hj. }
  assert (Htail : forall i c j,
            j = (length h + length ps + 2 + length alerts + i)%nat ->
            [CArray ((fun i => VRef (length h + length ps + 2 + i)%nat)
                       <$> seq 0 (length alerts));
             CObject {[ "totalBudget" := VNum 5000000;
                        "totalRevenue" := VNum 8000000 ]};
             CObject {[ "averageVelocity" := VNum 85;
                        "teamSatisfaction" := teamSatisfaction ]};
             CObject {[ "projects" := VRef (length h + length ps)%nat;
                        "portfolio" := VRef (length h + length ps + 1)%nat;
                        "criticalAlerts" :=
                          VRef (length h + length ps + 2 + length alerts)%nat;
                        "financialData" :=
                          VRef (length h + length ps + 2 + length alerts + 1)%nat;
                        "detailedMetrics" :=
                          VRef (length h + length ps + 2 + length alerts + 2)%nat;
                        "lastUpdated" := VStr now ]}] !! i = Some c ->
            (h ++ E ++ [CArray ((fun i => VRef (length h + i)%nat)
                                  <$> seq 0 (length ps));
                        CObject (summary_fields
                                   (ExecutivePortfolio.getPortfolioSummary
                                      (portfolio_of (executiveId_of uid) ps ms)))]
               ++ AL
               ++ [CArray ((fun i => VRef (length h + length ps + 2 + i)%nat)
                             <$> seq 0 (length alerts));
                   CObject {[ "totalBudget" := VNum 5000000;
                              "totalRevenue" := VNum 8000000 ]};
                   CObject {[ "averageVelocity" := VNum 85;
                              "teamSatisfaction" := teamSatisfaction ]};
                   CObject {[ "projects" := VRef (length h + length ps)%nat;
                              "portfolio" := VRef (length h + length ps + 1)%nat;
                              "criticalAlerts" :=
                                VRef (length h + length ps + 2 + length alerts)%nat;
                              "financialData" :=
                                VRef (length h + length ps + 2 + length alerts + 1)%nat;
                              "detailedMetrics" :=
                                VRef (length h + length ps + 2 + length alerts + 2)%nat;
                              "lastUpdated" := VStr now ]}])
              !! j = Some c).
  { intros i c j -> Hi.
    rewrite lookup_app_r by lia. rewrite lookup_app_r by lia.
    replace (length h + length ps + 2 + length alerts + i
             - length h - length E)%nat
      with (2 + (length alerts + i))%nat by lia.
    simpl. rewrite lookup_app_r by lia.
    by replace (length alerts + i - length AL)%nat with i by lia. }
  split; [by apply (Htail 0%nat); [lia|]|].
  split; [by apply (Htail 1%nat)|].
  split; [by apply (Htail 2%nat)|by apply (Htail 3%nat)].
Qed.

(** The raw portfolio is a forest: its cells point to older cells of it
    only. *)
Lemma raw_heap_forest uid ps ms h :
  length ms = length ps -> is_primitive teamSatisfaction = true ->
  forest (length h) (h ++ raw_cells now teamSatisfaction uid ps ms (length h)).
Proof.
  intros Hlen Hts.
  destruct (raw_cells_lookup uid ps ms h Hlen)
    as (Hlength & HE & HA1 & HS & HAL & HA2 & HF & HD & HR).
  cbv zeta in *.
  set (alerts := ExecutivePortfolio.getCriticalAlerts
                   (portfolio_of (executiveId_of uid) ps ms)) in *.
  set (hR := h ++ raw_cells now teamSatisfaction uid ps ms (length h)) in *.
  assert (Hk : length (zip_with (enhanced_fields true) ps ms) = length ps).
  { rewrite length_zip_with. lia. }
  intros l c Hl Hc v Hv l' ->.
  apply lookup_lt_Some in Hc as Hlt. rewrite Hlength in Hlt.
  destruct (decide (l < length h + length ps)%nat) as [H1|H1].
  { destruct (lookup_lt_is_Some_2 (zip_with (enhanced_fields true) ps ms)
                (l - length h)%nat ltac:(lia)) as [fields Hfields].
    pose proof (HE _ _ Hfields) as Hcell.
    replace (length h + (l - length h))%nat with l in Hcell by lia.
    rewrite Hcell in Hc. injection Hc as <-. destruct Hv as [k Hk'].
    apply lookup_zip_with_Some in Hfields as (p & m & -> & _ & _).
    by apply enhanced_fields_primitive in Hk'. }
  destruct (decide (l = length h + length ps)%nat) as [->|H2].
  { rewrite HA1 in Hc. injection Hc as <-. simpl in Hv.
    apply list_elem_of_fmap in Hv as (i & [= ->] & Hi).
    apply elem_of_seq in Hi. lia. }
  destruct (decide (l = length h + length ps + 1)%nat) as [->|H3].
  { rewrite HS in Hc. injection Hc as <-. destruct Hv as [k Hk'].
    by apply summary_fields_primitive in Hk'. }
  destruct (decide (l < length h + length ps + 2 + length alerts)%nat) as [H4|H4].
  { destruct (lookup_lt_is_Some_2 alerts (l - length h - length ps - 2)%nat
                ltac:(lia)) as [alert Halert].
    apply HAL in Halert.
    replace (length h + length ps + 2 + (l - length h - length ps - 2))%nat
      with l in Halert by lia.
    rewrite Halert in Hc. injection Hc as <-. destruct Hv as [k Hk'].
    by apply alert_fields_primitive in Hk'. }
  destruct (decide (l = length h + length ps + 2 + length alerts)%nat) as [->|H5].
  { rewrite HA2 in Hc. injection Hc as <-. simpl in Hv.
    apply list_elem_of_fmap in Hv as (i & [= ->] & Hi).
    apply elem_of_seq in Hi. lia. }
  destruct (decide (l = length h + length ps + 2 + length alerts + 1)%nat)
    as [->|H6].
  { rewrite HF in Hc. injection Hc as <-. destruct Hv as [k Hk'].
    apply lookup_insert_Some in Hk' as [[_ [=]]|[_ Hk']].
    by apply lookup_singleton_Some in Hk' as [_ [=]]. }
  destruct (decide (l = length h + length ps + 2 + length alerts + 2)%nat)
    as [->|H7].
  { rewrite HD in Hc. injection Hc as <-. destruct Hv as [k Hk'].
    apply lookup_insert_Some in Hk' as [[_ [=]]|[_ Hk']].
    apply lookup_singleton_Some in Hk' as [_ E]. by rewrite E in Hts. }
  assert (l = length h + length ps + 2 + length alerts + 3)%nat as -> by lia.
  rewrite HR in Hc. injection Hc as <-. destruct Hv as [k Hk'].
  repeat (apply lookup_insert_Some in Hk' as [[_ [= <-]]|[_ Hk']]; [lia|]).
  by apply lookup_singleton_Some in Hk' as [_ [=]].
Qed.

(** The filter on the raw portfolio: it runs to its end; the summary, the
    alerts and the detailed metrics come back as they were computed; the
    project list holds a copy of each project whose business unit the gate
    admits, and of no other. *)
Lemma filter_raw_portfolio uid ps ms h perms :
  well_formed h -> length ms = length ps ->
  is_primitive teamSatisfaction = true ->
  let portfolio := portfolio_of (executiveId_of uid) ps ms in
  let alerts := ExecutivePortfolio.getCriticalAlerts portfolio in
  let hR := h ++ raw_cells now teamSatisfaction uid ps ms (length h) in
  let root := (length h + length ps + 2 + length alerts + 3)%nat in
  exists o h',
    AuthorizationService.filter_with_permissions perms (VRef root) hR
    = (Ok (VRef o), h')
    /\ (exists s, field h' (VRef o) "portfolio" = VRef s
          /\ h' !! s = Some (CObject
                               (summary_fields
                                  (ExecutivePortfolio.getPortfolioSummary portfolio))))
    /\ (exists a als,
          field h' (VRef o) "criticalAlerts" = VRef a
          /\ h' !! a = Some (CArray als)
          /\ Forall2 (fun alert v =>
                        exists l, v = VRef l
                          /\ h' !! l = Some (CObject (alert_fields alert)))
                     alerts als)
    /\ (exists d, field h' (VRef o) "detailedMetrics" = VRef d
          /\ h' !! d = Some (CObject {[ "averageVelocity" := VNum 85;
                                        "teamSatisfaction" := teamSatisfaction ]}))
    /\ (exists prs,
          AuthorizationService.has_projects h' (VRef o) prs
          /\ Forall2 (fun (pm : JiraProject * HealthMetrics) p =>
                        field h' p "key" = VStr (key pm.1)
                        /\ field h' p "name" = VStr (name pm.1)
                        /\ field h' p "businessUnit"
                           = VStr (businessUnit_or_default pm.1)
                        /\ field h' p "overdueIssues" = VNum (overdueIssues pm.2)
                        /\ field h' p "blockedIssues" = VNum (blockedIssues pm.2)
                        /\ field h' p "highPriorityIssues"
                           = VNum (highPriorityIssues pm.2))
                     (List.filter
                        (fun pm : JiraProject * HealthMetrics =>
                           AuthorizationService._hasBusinessUnitAccess perms
                             "PORTFOLIO_VIEW"
                             (VStr (businessUnit_or_default pm.1)))
                        (zip ps ms))
                     prs).
Proof.
  intros Hwf Hlen Hts. cbv zeta.
  destruct (raw_cells_lookup uid ps ms h Hlen)
    as (Hlength & HE & HA1 & HS & HAL & HA2 & HFD & HD & HR).
  pose proof (raw_heap_forest uid ps ms h Hlen Hts) as Hforest.
  cbv zeta in *.
  set (portfolio := portfolio_of (executiveId_of uid) ps ms) in *.
  set (alerts := ExecutivePortfolio.getCriticalAlerts portfolio) in *.
  set (hR := h ++ raw_cells now teamSatisfaction uid ps ms (length h)) in *.
  set (root := (length h + length ps + 2 + length alerts + 3)%nat) in *.
  set (refs := (fun i => VRef (length h + i)%nat) <$> seq 0 (length ps)) in *.
  assert (HwfR : well_formed hR).
  { eapply forest_well_formed; [done|by apply prefix_app_r|done]. }
  assert (Hroot_in : in_bounds hR (VRef root)).
  { intros ? [= <-]. by eapply lookup_lt_Some. }
  (* the filter runs to its end *)
  destruct (filter_with_permissions_returns perms hR root _ HwfR HR)
    as (res & h' & Hrun).
  { intros ls (l0 & rest & [= <-] & ->) Hch.
    eapply forest_chain_NoDup; [done..|]. intros ? [= <-]. unfold root. lia. }
  { intros _. exists (length h + length ps)%nat, refs.
    split; [by simplify_map_eq|]. split; [done|].
    apply Forall_forall. intros q Hq.
    by apply list_elem_of_fmap in Hq as (i & -> & _). }
  (* the value returned is the copy of the root *)
  pose proof Hrun as Hframe.
  apply filter_with_permissions_frame in Hframe as (h1 & Hclone & _).
  apply (json_clone_copy hR HwfR) in Hclone; [|done..].
  cbn [json_copy] in Hclone. destruct Hclone as (o & -> & _).
  exists o, h'. split; [done|].
  assert (Hdepth : length hR = S (S (length h + length ps + 2 + length alerts + 2)%nat))
    by lia.
  assert (Hpass : forall k x,
            k <> "projects"%string -> k <> "financialData"%string ->
            field hR (VRef root) k = x -> is_defined x = true ->
            json_copy (length hR) hR h' x (field h' (VRef o) k)).
  { intros k x Hk1 Hk2 Hx Hdef.
    pose proof (filter_with_permissions_passes perms (VRef root) hR (VRef o) h' k
                  HwfR Hroot_in Hrun Hk1 (or_introl Hk2)) as Hp.
    rewrite Hx, Hdef in Hp. done. }
  split; [|split; [|split]].
  - (* the summary *)
    specialize (Hpass "portfolio"%string _ ltac:(done) ltac:(done) eq_refl).
    rewrite (field_object _ _ _ _ HR) in Hpass.
    rewrite Hdepth in Hpass.
    replace (_ !! "portfolio"%string)
      with (Some (VRef (length h + length ps + 1)%nat)) in Hpass
      by (by simplify_map_eq).
    specialize (Hpass eq_refl). simpl default in Hpass.
    eapply json_copy_flat in Hpass as (s & Hs & Hcell);
      [|done|apply summary_fields_primitive].
    eauto.
  - (* the alerts *)
    specialize (Hpass "criticalAlerts"%string _ ltac:(done) ltac:(done) eq_refl).
    rewrite (field_object _ _ _ _ HR) in Hpass.
    rewrite Hdepth in Hpass.
    replace (_ !! "criticalAlerts"%string)
      with (Some (VRef (length h + length ps + 2 + length alerts)%nat)) in Hpass
      by (by simplify_map_eq).
    specialize (Hpass eq_refl). simpl default in Hpass.
    cbn [json_copy] in Hpass. destruct Hpass as (a & Ha & Hcell).
    unfold cell_at in Hcell. rewrite HA2 in Hcell. simpl in Hcell.
    destruct Hcell as (als & Hals & HF2).
    exists a, als. split; [done|]. split; [done|].
    apply Forall2_same_length_lookup. split.
    { apply Forall2_length in HF2. by rewrite length_fmap, length_seq in HF2. }
    intros j alert v Halert Hv.
    apply lookup_lt_Some in Halert as Hj.
    assert (Href : ((fun i => VRef (length h + length ps + 2 + i)%nat)
                      <$> seq 0 (length alerts)) !! j
                   = Some (VRef (length h + length ps + 2 + j)%nat)).
    { rewrite list_lookup_fmap, lookup_seq_lt by done. done. }
    destruct (Forall2_lookup_l _ _ _ _ _ HF2 Href) as (v' & Hv' & Hc).
    rewrite Hv in Hv'. injection Hv' as <-. simpl undefined_to_null in Hc.
    eapply json_copy_flat in Hc as (l & -> & Hl);
      [|by apply HAL|apply alert_fields_primitive].
    eauto.
  - (* the detailed metrics *)
    specialize (Hpass "detailedMetrics"%string _ ltac:(done) ltac:(done) eq_refl).
    rewrite (field_object _ _ _ _ HR) in Hpass.
    rewrite Hdepth in Hpass.
    replace (_ !! "detailedMetrics"%string)
      with (Some (VRef (length h + length ps + 2 + length alerts + 2)%nat))
      in Hpass by (by simplify_map_eq).
    specialize (Hpass eq_refl). simpl default in Hpass.
    eapply json_copy_flat in Hpass as (d & Hd & Hcell); [|done|].
    + eauto.
    + intros k x Hk.
      apply lookup_insert_Some in Hk as [[_ <-]|[_ Hk]]; [done|].
      by apply lookup_singleton_Some in Hk as [_ <-].
  - (* the projects *)
    assert (Hhas : AuthorizationService.has_projects hR (VRef root) refs).
    { exists (length h + length ps)%nat. rewrite (field_object _ _ _ _ HR).
      split; [by simplify_map_eq|done]. }
    destruct (AuthorizationServiceFacts.filter_with_permissions_refines
                perms (VRef root) hR (VRef o) h' refs HwfR Hhas Hrun)
      as (prs & Hprs & HF).
    exists prs. split; [done|].
    rewrite surviving_gate in HF.
    set (R := fun (pm : JiraProject * HealthMetrics) (q : val) =>
                exists l, q = VRef l
                  /\ hR !! l = Some (CObject (enhanced_fields true pm.1 pm.2))).
    assert (Hzip : Forall2 R (zip ps ms) refs).
    { apply Forall2_same_length_lookup. split.
      { unfold refs. rewrite length_fmap, length_seq, length_zip_with. lia. }
      intros i [p m] q Hi Hq. unfold refs in Hq.
      apply lookup_lt_Some in Hi as Hlt. rewrite length_zip_with in Hlt.
      rewrite list_lookup_fmap, lookup_seq_lt in Hq by lia.
      injection Hq as <-. exists (length h + i)%nat. split; [done|].
      apply HE. apply lookup_zip_with_Some in Hi as (p' & m' & [= <- <-] & Hp & Hm).
      apply lookup_zip_with_Some. eauto. }
    eapply (AuthorizationServiceFacts.Forall2_filter_agree R
              (fun pm => AuthorizationService._hasBusinessUnitAccess perms
                           "PORTFOLIO_VIEW" (VStr (businessUnit_or_default pm.1)))
              (fun q => AuthorizationService._hasBusinessUnitAccess perms
                          "PORTFOLIO_VIEW" (field hR q "businessUnit")))
      in Hzip.
    2:{ intros [p m] q (l & -> & Hl). rewrite (field_object _ _ _ _ Hl).
        cbn [fst snd].
        by rewrite (proj1 (proj2 (proj2 (enhanced_fields_lookup p m)))). }
    eapply Forall2_impl; [exact (Forall2_compose _ _ _ _ _ Hzip HF)|].
    intros [p m] pr (q & (l & -> & Hl) & (o' & fs & -> & Ho' & _ & _ & _ & Hkeep)).
    cbn [fst snd] in Hl.
    destruct (enhanced_fields_lookup p m) as (Hkey & Hname & Hbu & Hov & Hbl & Hhp).
    rewrite !(field_object _ _ _ _ Ho'). cbn [fst snd].
    repeat split.
    all: erewrite Hkeep;
      [done|done|done|done|rewrite (field_object _ _ _ _ Hl)|done].
    all: first [by rewrite Hkey | by rewrite Hname | by rewrite Hbu
               | by rewrite Hov | by rewrite Hbl | by rewrite Hhp].
Qed.

(** [_getRawPortfolioData] only allocates and only adds calls; when it
    fails, on a rejection of the port, it has allocated nothing. *)
Lemma getRawPortfolioData_inv uid w r w' :
  _getRawPortfolioData this now teamSatisfaction uid w = (r, w') ->
  (exists cs, history w' = history w ++ cs)
  /\ objects w `prefix_of` objects w'
  /\ ((exists e, r = Throw e) -> objects w' = objects w)
  /\ (forall raw, r = Ok raw ->
      exists ps ms,
        jiraDataPort_getExecutiveProjects this = Ok ps
        /\ Promise_all ((fun project =>
                           jiraDataPort_getProjectHealthMetrics this (key project))
                          <$> ps) = Ok ms).
Proof.
  intros Hrun.
  destruct (jiraDataPort_getExecutiveProjects this) as [ps|e] eqn:Hps.
  2:{ unfold _getRawPortfolioData, bind, invoke in Hrun. rewrite Hps in Hrun.
      injection Hrun as <- <-. simpl.
      split; [eauto|]. split; [done|]. split; [done|]. by intros ? [=]. }
  destruct (Promise_all ((fun project =>
              jiraDataPort_getProjectHealthMetrics this (key project)) <$> ps))
    as [ms|e] eqn:Hms.
  2:{ unfold _getRawPortfolioData, bind at 1, invoke in Hrun.
      rewrite Hps in Hrun.
      unfold bind at 1, getAllProjectHealthMetrics in Hrun.
      rewrite Hms in Hrun. injection Hrun as <- <-. simpl.
      split; [rewrite <- app_assoc; eauto|]. split; [done|].
      split; [done|]. by intros ? [=]. }
  rewrite (getRawPortfolioData_run uid w ps ms Hps Hms) in Hrun.
  injection Hrun as <- <-. simpl.
  split; [eauto|]. split; [by apply prefix_app_r|].
  split; [by intros [? [=]]|]. intros raw _. eauto.
Qed.

(** The handler of [getExecutivePortfolio]: one record for the audit sink,
    then the secure fallback, newly allocated. *)
Lemma getExecutivePortfolio_catch_run uid e w1 :
  (invoke (LogSecurityEvent (security_event uid e))
        (auditService_logSecurityEvent this (security_event uid e)) ;;
   in_heap (_getSecureFallbackPortfolio now)) w1
  = match auditService_logSecurityEvent this (security_event uid e) with
    | Ok _ =>
        (Ok (VRef (length (objects w1) + 3)%nat),
         {| objects := objects w1 ++ fallback_cells now (length (objects w1));
            history := history w1 ++ [LogSecurityEvent (security_event uid e)] |})
    | Throw e' =>
        (Throw e',
         {| objects := objects w1;
            history := history w1 ++ [LogSecurityEvent (security_event uid e)] |})
    end.
Proof.
  unfold bind, invoke.
  destruct (auditService_logSecurityEvent this (security_event uid e))
    as [[]|e']; [|done].
  unfold in_heap, _getSecureFallbackPortfolio, bind, alloc, fallback_cells.
  simpl. rewrite !length_app. simpl.
  replace (length (objects w1) + 1 + 1 + 1)%nat
    with (length (objects w1) + 3)%nat by lia.
  replace (length (objects w1) + 1 + 1)%nat
    with (length (objects w1) + 2)%nat by lia.
  by rewrite <- !app_assoc.
Qed.

(** The read after the authorization check. *)
Lemma authorized_read_inv uid bu wA r w1 :
  authorized_read this now teamSatisfaction uid bu wA = (r, w1) ->
  (exists cs, history w1 = history wA ++ cs)
  /\ objects wA `prefix_of` objects w1
  /\ (forall res, r = Ok res ->
      exists raw wR wF,
        _getRawPortfolioData this now teamSatisfaction uid wA = (Ok raw, wR)
        /\ AuthorizationService.filterPortfolioDataByPermissions
             (authorizationService this) uid raw
             {| AuthorizationService.heap_of := objects wR;
                AuthorizationService.calls := [] |} = (Ok res, wF)
        /\ res <> VNull /\ res <> VUndefined
        /\ auditService_logDataAccessEvent this
             (data_access_event uid bu
                (optional_length (AuthorizationService.heap_of wF)
                   (field (AuthorizationService.heap_of wF) res "projects")))
           = Ok tt
        /\ w1 = {| objects := AuthorizationService.heap_of wF;
                   history :=
                     history wR
                     ++ [Authorization (AuthorizationService.GetUserPermissions uid);
                         LogDataAccessEvent
                           (data_access_event uid bu
                              (optional_length (AuthorizationService.heap_of wF)
                                 (field (AuthorizationService.heap_of wF) res
                                    "projects")))] |}).
Proof.
  unfold authorized_read. intros Hrun.
  apply bind_inv in Hrun as [(raw & wR & Hraw & Hrun)|(e & Hraw & ->)].
  2:{ apply getRawPortfolioData_inv in Hraw as (Hcs & Hpre & _). by split. }
  pose proof (getRawPortfolioData_inv _ _ _ _ Hraw) as [[cs1 Hcs1] [Hpre1 _]].
  set (w0 := {| AuthorizationService.heap_of := objects wR;
                AuthorizationService.calls := [] |}) in *.
  pose proof (filter_calls (authorizationService this) uid raw w0) as Hcalls.
  destruct (AuthorizationServiceFacts.filterPortfolioDataByPermissions_spec
              (authorizationService this) uid raw w0)
    as (res & wF & Hf & [Hpre2 _] & _).
  rewrite Hf in Hcalls. simpl in Hcalls, Hpre2.
  apply bind_inv in Hrun as [(res' & w2 & Hfilter & Hrun)|(e & Hfilter & ->)];
    rewrite authorization_eq in Hfilter; fold w0 in Hfilter;
    rewrite Hf in Hfilter; simpl in Hfilter; rewrite Hcalls in Hfilter;
    [|discriminate Hfilter].
  injection Hfilter as <- <-.
  assert (Hpre : objects wA `prefix_of` AuthorizationService.heap_of wF)
    by by etrans.
  apply bind_inv in Hrun as [(p & w3 & Hget & Hrun)|(e & Hget & ->)];
    apply in_heap_inv in Hget as (h3 & Hget & ->);
    apply getProp_inv in Hget as [-> Hget]; simpl in *.
  2:{ split; [rewrite Hcs1, <- app_assoc; eauto|]. by split. }
  destruct Hget as [[_ [? [=]]]|(Hnn & Hnu & [= ->])].
  apply bind_inv in Hrun as [(n & w4 & Hlen & Hrun)|(e & Hlen & ->)];
    apply in_heap_inv in Hlen as (h4 & [= <- <-] & ->); simpl in *.
  apply bind_inv in Hrun as [([] & w5 & Hlog & Hrun)|(e & Hlog & ->)];
    apply invoke_inv in Hlog as [Hlog ->]; simpl in *.
  2:{ split; [rewrite Hcs1, <- !app_assoc; eauto|]. by split. }
  apply ret_inv in Hrun as [-> ->].
  split; [simpl; rewrite Hcs1, <- !app_assoc; eauto|]. split; [done|].
  intros ? [= <-]. exists raw, wR, wF.
  split; [done|]. split; [done|]. split; [done|]. split; [done|].
  split; [done|]. by rewrite <- app_assoc.
Qed.

(** The whole method, by the outcome of its [try] block. *)
Lemma getExecutivePortfolio_eq uid tok w :
  getExecutivePortfolio this now teamSatisfaction uid tok w
  = match getExecutivePortfolio_try this now teamSatisfaction uid tok w with
    | (Ok res, w1) => (Ok res, w1)
    | (Throw e, w1) =>
        match auditService_logSecurityEvent this (security_event uid e) with
        | Ok _ =>
            (Ok (VRef (length (objects w1) + 3)%nat),
             {| objects := objects w1 ++ fallback_cells now (length (objects w1));
                history := history w1 ++ [LogSecurityEvent (security_event uid e)] |})
        | Throw e' =>
            (Throw e',
             {| objects := objects w1;
                history := history w1 ++ [LogSecurityEvent (security_event uid e)] |})
        end
    end.
Proof.
  unfold getExecutivePortfolio, try_catch.
  destruct (getExecutivePortfolio_try this now teamSatisfaction uid tok w)
    as [[res|e] w1]; [done|].
  apply getExecutivePortfolio_catch_run.
Qed.

(** The [try] block only allocates and only adds calls. *)
Lemma getExecutivePortfolio_try_grows uid tok w r w1 :
  getExecutivePortfolio_try this now teamSatisfaction uid tok w = (r, w1) ->
  objects w `prefix_of` objects w1 /\ exists cs, history w1 = history w ++ cs.
Proof.
  intros Htry.
  apply getExecutivePortfolio_try_cases in Htry
    as [(e & cs & -> & ->)|(_ & _ & bu & perms & _ & _ & _ & Hread)].
  - simpl. split; [done|eauto].
  - apply authorized_read_inv in Hread as ([cs Hcs] & Hpre & _).
    simpl in *. split; [done|]. rewrite Hcs, <- app_assoc. eauto.
Qed.

(** The secure fallback, read back from the heap. *)
Lemma fallback_cells_read h :
  let h' := h ++ fallback_cells now (length h) in
  let res := VRef (length h + 3)%nat in
  field h' res "status" = VStr "access_denied"
  /\ AuthorizationService.has_projects h' res []
  /\ field h' res "criticalAlerts" = VRef (length h + 2)%nat
  /\ h' !! (length h + 2)%nat = Some (CArray [])
  /\ field h' res "portfolio" = VRef (length h + 1)%nat
  /\ h' !! (length h + 1)%nat = Some (CObject zero_summary).
Proof.
  cbv zeta.
  assert (Hroot : (h ++ fallback_cells now (length h)) !! (length h + 3)%nat
                  = Some (CObject {[ "projects" := VRef (length h);
                                     "portfolio" := VRef (length h + 1)%nat;
                                     "criticalAlerts" := VRef (length h + 2)%nat;
                                     "lastUpdated" := VStr now;
                                     "status" := VStr "access_denied" ]})).
  { rewrite lookup_app_r by lia.
    by replace (length h + 3 - length h)%nat with 3%nat by lia. }
  assert (Hat : forall i c, fallback_cells now (length h) !! i = Some c ->
            (h ++ fallback_cells now (length h)) !! (length h + i)%nat = Some c).
  { intros i c Hi. rewrite lookup_app_r by lia.
    by replace (length h + i - length h)%nat with i by lia. }
  rewrite !(field_object _ _ _ _ Hroot).
  split; [done|]. split; [|split; [done|split; [|split; [done|]]]].
  - exists (length h). rewrite (field_object _ _ _ _ Hroot).
    split; [done|]. rewrite lookup_app_r by lia. by rewrite Nat.sub_diag.
  - by apply Hat.
  - by apply Hat.
Qed.

(** The run in which every collaborator answers and the gate lets the
    request through. *)
Lemma getExecutivePortfolio_read_run uid tok w bu perms ps ms o h' :
  truthy tok = true ->
  _getExecutiveBusinessUnit uid (objects w) = (Ok bu, objects w) ->
  (AuthorizationService.authorizePortfolioAccess (authorizationService this)
     uid (VStr bu) tok
     {| AuthorizationService.heap_of := objects w;
        AuthorizationService.calls := [] |}).1 = Ok true ->
  AuthorizationService.forgeUserAdapter_getUserPermissions
    (authorizationService this) uid = Ok perms ->
  jiraDataPort_getExecutiveProjects this = Ok ps ->
  Promise_all ((fun project =>
                  jiraDataPort_getProjectHealthMetrics this (key project))
                 <$> ps) = Ok ms ->
  AuthorizationService.filter_with_permissions perms
    (VRef (length (objects w) + length ps + 2
           + length (ExecutivePortfolio.getCriticalAlerts
                       (portfolio_of (executiveId_of uid) ps ms)) + 3)%nat)
    (objects w ++ raw_cells now teamSatisfaction uid ps ms (length (objects w)))
  = (Ok (VRef o), h') ->
  auditService_logDataAccessEvent this
    (data_access_event uid bu
       (optional_length h' (field h' (VRef o) "projects"))) = Ok tt ->
  getExecutivePortfolio this now teamSatisfaction uid tok w
  = (Ok (VRef o),
     {| objects := h';
        history :=
          history w
          ++ [Authorization (AuthorizationService.GetUserPermissions uid);
              Authorization
                (AuthorizationService.LogAuthorizationEvent
                   (decision_record uid (VStr bu) "AUTHORIZED" None))]
          ++ GetExecutiveProjects
             :: ((fun project => GetProjectHealthMetrics (key project)) <$> ps)
          ++ [Authorization (AuthorizationService.GetUserPermissions uid);
              LogDataAccessEvent
                (data_access_event uid bu
                   (optional_length h' (field h' (VRef o) "projects")))] |}).
Proof.
  intros Htok Hbu Hgate Hperms Hps Hms Hfilter Hlog.
  rewrite getExecutivePortfolio_eq.
  assert (Htry : getExecutivePortfolio_try this now teamSatisfaction uid tok w
                 = authorized_read this now teamSatisfaction uid bu
                     {| objects := objects w;
                        history :=
                          history w
                          ++ [Authorization (AuthorizationService.GetUserPermissions uid);
                              Authorization
                                (AuthorizationService.LogAuthorizationEvent
                                   (decision_record uid (VStr bu) "AUTHORIZED"
                                      None))] |}).
  { unfold getExecutivePortfolio_try. rewrite Htok. simpl negb. cbv iota.
    erewrite bind_run by reflexivity.
    erewrite bind_run by (unfold in_heap; by rewrite Hbu).
    erewrite bind_run.
    2:{ rewrite authorization_eq. cbn [objects history].
        rewrite (gate_true_state _ _ _ _ _ Hgate), Hgate. reflexivity. }
    simpl negb. cbv iota. by erewrite bind_run by reflexivity. }
  rewrite Htry. unfold authorized_read.
  erewrite bind_run by by apply getRawPortfolioData_run.
  assert (Hrun : AuthorizationService.filterPortfolioDataByPermissions
                   (authorizationService this) uid
                   (VRef (length (objects w) + length ps + 2
                          + length (ExecutivePortfolio.getCriticalAlerts
                                      (portfolio_of (executiveId_of uid) ps ms))
                          + 3)%nat)
                   {| AuthorizationService.heap_of :=
                        objects w ++ raw_cells now teamSatisfaction uid ps ms
                                       (length (objects w));
                      AuthorizationService.calls := [] |}
                 = (Ok (VRef o),
                    {| AuthorizationService.heap_of := h';
                       AuthorizationService.calls :=
                         [AuthorizationService.GetUserPermissions uid] |})).
  { apply AuthorizationServiceFacts.filter_try_returns.
    unfold AuthorizationService.filter_try, AuthorizationService.getUserPermissions,
      AuthorizationService.call, bind, AuthorizationService.on_heap.
    rewrite Hperms. cbn [AuthorizationService.heap_of AuthorizationService.calls].
    by rewrite Hfilter. }
  erewrite bind_run.
  2:{ rewrite authorization_eq. cbn [objects history]. rewrite Hrun. reflexivity. }
  cbn [fst snd AuthorizationService.heap_of AuthorizationService.calls].
  erewrite bind_run by reflexivity.
  erewrite bind_run by reflexivity.
  cbn [objects history].
  unfold bind at 1, invoke at 1. rewrite Hlog. unfold ret.
  cbn [objects history]. f_equal. f_equal.
  rewrite <- !app_assoc. simpl. by rewrite <- ?app_assoc.
Qed.

(** X17: no portfolio data is read before the gate has let the request
    through.  In every run of [getExecutivePortfolio], either no call goes
    to the Jira port and no read is recorded, or the token is truthy, the
    identifier well formed, the identity provider has answered with a
    [PORTFOLIO_VIEW] grant for the business unit derived from the
    identifier, and the first two calls of the run are the fetch of the
    permissions and the [AUTHORIZED] record. *)
Theorem getExecutivePortfolio_reads_after_authorization uid tok w :
  exists cs,
    history (getExecutivePortfolio this now teamSatisfaction uid tok w).2
    = history w ++ cs
    /\ (Forall (fun c => is_data_call c = false) cs
        \/ (truthy tok = true
            /\ AuthorizationService._isValidExecutiveUserId uid = true
            /\ exists bu perms cs',
                 _getExecutiveBusinessUnit uid (objects w) = (Ok bu, objects w)
                 /\ AuthorizationService.forgeUserAdapter_getUserPermissions
                      (authorizationService this) uid = Ok perms
                 /\ AuthorizationService.has_grant perms (VStr bu)
                 /\ cs = [Authorization (AuthorizationService.GetUserPermissions uid);
                          Authorization
                            (AuthorizationService.LogAuthorizationEvent
                               (decision_record uid (VStr bu) "AUTHORIZED" None))]
                         ++ cs')).
Proof.
  rewrite getExecutivePortfolio_eq.
  destruct (getExecutivePortfolio_try this now teamSatisfaction uid tok w)
    as [r w1] eqn:Htry.
  apply getExecutivePortfolio_try_cases in Htry
    as [(e & cs & -> & ->)
       |(Htok & Hid & bu & perms & Hbu & Hperms & Hgrant & Hread)].
  - (* refused: the authorization service alone has been called *)
    exists ((Authorization <$> cs) ++ [LogSecurityEvent (security_event uid e)]).
    split.
    + destruct (auditService_logSecurityEvent this _) as [[]|e'];
        simpl; by rewrite <- app_assoc.
    + left. apply Forall_app. split; [|by repeat constructor].
      apply Forall_forall. intros c Hc.
      by apply list_elem_of_fmap in Hc as (c' & -> & _).
  - apply authorized_read_inv in Hread as ([cs1 Hcs1] & _ & _).
    simpl in Hcs1.
    destruct r as [res|e].
    + eexists. split; [simpl; by rewrite Hcs1, <- app_assoc|].
      right. eauto 10.
    + exists ([Authorization (AuthorizationService.GetUserPermissions uid);
               Authorization
                 (AuthorizationService.LogAuthorizationEvent
                    (decision_record uid (VStr bu) "AUTHORIZED" None))]
              ++ cs1 ++ [LogSecurityEvent (security_event uid e)]).
      split.
      * destruct (auditService_logSecurityEvent this _) as [[]|e'];
          simpl; by rewrite Hcs1, <- !app_assoc.
      * right. eauto 10.
Qed.

(** X18: [getExecutivePortfolio] fails secure.  When the audit sink takes
    the security events of this user, the method returns on every input and
    never throws, and the heap it was called in is untouched.  And whenever
    its [try] block fails, for whatever reason (no token, a refusal of the
    gate, a rejection of the Jira port or of an audit call), the last call
    is the security event that carries the message of the error, and the
    value returned is the secure fallback: a new object with the status
    [access_denied], an empty project list, no alerts and the summary of an
    empty portfolio. *)
Theorem getExecutivePortfolio_fails_secure uid tok w :
  (forall e, auditService_logSecurityEvent this (security_event uid e) = Ok tt) ->
  exists res w',
    getExecutivePortfolio this now teamSatisfaction uid tok w = (Ok res, w')
    /\ objects w `prefix_of` objects w'
    /\ forall e w1,
         getExecutivePortfolio_try this now teamSatisfaction uid tok w
         = (Throw e, w1) ->
         history w' = history w1 ++ [LogSecurityEvent (security_event uid e)]
         /\ (forall l, res = VRef l -> (length (objects w) <= l)%nat)
         /\ field (objects w') res "status" = VStr "access_denied"
         /\ AuthorizationService.has_projects (objects w') res []
         /\ (exists a, field (objects w') res "criticalAlerts" = VRef a
                       /\ objects w' !! a = Some (CArray []))
         /\ (exists s, field (objects w') res "portfolio" = VRef s
                       /\ objects w' !! s = Some (CObject zero_summary)).
Proof.
  intros Hsink. rewrite getExecutivePortfolio_eq.
  destruct (getExecutivePortfolio_try this now teamSatisfaction uid tok w)
    as [[res|e] w1] eqn:Htry;
    apply getExecutivePortfolio_try_grows in Htry as [Hpre _].
  - exists res, w1. split; [done|]. split; [done|]. by intros ? ? [=].
  - rewrite Hsink. eexists _, _. split; [done|]. simpl.
    split; [etrans; [done|by apply prefix_app_r]|].
    intros ? ? [= <- <-]. split; [done|].
    destruct (fallback_cells_read (objects w1))
      as (Hstatus & Hprojects & Halerts & Hnone & Hsummary & Hzero).
    split.
    { intros l [= <-]. apply prefix_length in Hpre. lia. }
    split; [done|]. split; [done|]. split; eauto.
Qed.



Lemma projectCount_of_list h res prs uid bu :
  AuthorizationService.has_projects h res prs ->
  data_access_event uid bu (optional_length h (field h res "projects"))
  = {| DataAccessEvent.userId := uid;
       DataAccessEvent.resource := "EXECUTIVE_PORTFOLIO";
       DataAccessEvent.action := "read";
       DataAccessEvent.businessUnit := bu;
       DataAccessEvent.projectCount := VNum (Z.of_nat (length prs)) |}.
Proof.
  intros (a & -> & Ha). unfold data_access_event, optional_length, cell_at.
  rewrite Ha. simpl. f_equal.
  destruct (Z.of_nat (length prs) =? 0) eqn:E; [|done].
  apply Z.eqb_eq in E. by rewrite E.
Qed.

(** X20: a read that goes through, end to end.  When the token is truthy,
    the gate lets the user through for the business unit derived from the
    identifier, and every collaborator answers, [getExecutivePortfolio]
    returns a portfolio whose project list holds, in the order of the Jira
    port, one project for each Jira project whose business unit
    ([Corporate] when it has none) the gate admits, with the key, the name,
    the business unit and the three issue counts that the port gave, and for
    no other project.  The calls made are the two of the gate, the fetch of
    the projects, one fetch of metrics for every project (the filtered-out
    ones included), a second fetch of the permissions, and the record of the
    read, whose [projectCount] is the number of projects returned. *)
Theorem getExecutivePortfolio_returns_granted_projects
    uid tok w bu perms ps ms :
  well_formed (objects w) -> is_primitive teamSatisfaction = true ->
  truthy tok = true ->
  AuthorizationService._isValidExecutiveUserId uid = true ->
  _getExecutiveBusinessUnit uid (objects w) = (Ok bu, objects w) ->
  AuthorizationService.forgeUserAdapter_getUserPermissions
    (authorizationService this) uid = Ok perms ->
  AuthorizationService.has_grant perms (VStr bu) ->
  (forall d, AuthorizationService.auditService_logAuthorizationEvent
               (authorizationService this) d = Ok tt) ->
  jiraDataPort_getExecutiveProjects this = Ok ps ->
  Promise_all ((fun project =>
                  jiraDataPort_getProjectHealthMetrics this (key project))
                 <$> ps) = Ok ms ->
  (forall ev, auditService_logDataAccessEvent this ev = Ok tt) ->
  let granted :=
    List.filter
      (fun pm : JiraProject * HealthMetrics =>
         AuthorizationService._hasBusinessUnitAccess perms "PORTFOLIO_VIEW"
           (VStr (businessUnit_or_default pm.1)))
      (zip ps ms) in
  exists res w' prs,
    getExecutivePortfolio this now teamSatisfaction uid tok w = (Ok res, w')
    /\ AuthorizationService.has_projects (objects w') res prs
    /\ Forall2 (fun (pm : JiraProject * HealthMetrics) p =>
                  field (objects w') p "key" = VStr (key pm.1)
                  /\ field (objects w') p "name" = VStr (name pm.1)
                  /\ field (objects w') p "businessUnit"
                     = VStr (businessUnit_or_default pm.1)
                  /\ field (objects w') p "overdueIssues"
                     = VNum (overdueIssues pm.2)
                  /\ field (objects w') p "blockedIssues"
                     = VNum (blockedIssues pm.2)
                  /\ field (objects w') p "highPriorityIssues"
                     = VNum (highPriorityIssues pm.2))
               granted prs
    /\ history w'
       = history w
         ++ [Authorization (AuthorizationService.GetUserPermissions uid);
             Authorization
               (AuthorizationService.LogAuthorizationEvent
                  (decision_record uid (VStr bu) "AUTHORIZED" None))]
         ++ GetExecutiveProjects
            :: ((fun project => GetProjectHealthMetrics (key project)) <$> ps)
         ++ [Authorization (AuthorizationService.GetUserPermissions uid);
             LogDataAccessEvent
               {| DataAccessEvent.userId := uid;
                  DataAccessEvent.resource := "EXECUTIVE_PORTFOLIO";
                  DataAccessEvent.action := "read";
                  DataAccessEvent.businessUnit := bu;
                  DataAccessEvent.projectCount :=
                    VNum (Z.of_nat (length granted)) |}].
Proof.
  intros Hwf Hts Htok Hid Hbu Hperms Hgrant Haudit Hps Hms Hlog granted.
  assert (Hlen : length ms = length ps).
  { apply Promise_all_length in Hms. by rewrite length_fmap in Hms. }
  destruct (filter_raw_portfolio uid ps ms (objects w) perms Hwf Hlen Hts)
    as (o & h' & Hfilter & _ & _ & _ & prs & Hprs & HF).
  eexists (VRef o), _, prs. split.
  - apply (getExecutivePortfolio_read_run uid tok w bu perms ps ms o h');
      try done.
    apply gate_true_iff. split; [done|]. split; [done|]. eauto.
  - cbn [objects history]. split; [done|]. split; [done|].
    rewrite (projectCount_of_list _ _ _ _ _ Hprs).
    by rewrite <- (Forall2_length _ _ _ HF).
Qed.

Lemma getCriticalAlerts_lookup portfolio p :
  p ∈ ExecutivePortfolio.projects portfolio ->
  ExecutivePortfolio._isProjectCritical p = true ->
  exists j alert,
    ExecutivePortfolio.getCriticalAlerts portfolio !! j = Some alert
    /\ ExecutivePortfolio.projectKey alert = ExecutivePortfolio.key p
    /\ ExecutivePortfolio.projectName alert = ExecutivePortfolio.name p
    /\ ExecutivePortfolio.reason alert = ExecutivePortfolio._getCriticalReason p.
Proof.
  intros Hp Hcrit. unfold ExecutivePortfolio.getCriticalAlerts.
  assert (Hin : p ∈ filter (fun project =>
                  ExecutivePortfolio._isProjectCritical project = true)
                  (ExecutivePortfolio.projects portfolio))
    by by apply list_elem_of_filter.
  apply list_elem_of_lookup in Hin as [j Hj].
  exists j. eexists. split; [by rewrite list_lookup_fmap, Hj|done].
Qed.

(** X21: the summary and the alerts are not scoped.  In the same run, the
    [portfolio] of the value returned is the summary of all the projects of
    the Jira port, and its [criticalAlerts] holds the alert of every critical
    project of the port, with its key, its name and its reason, whatever the
    business unit of the project and whatever the grants of the user: the
    filter scopes [projects] only.  The [detailedMetrics] of the portfolio
    come back as well, with or without a [DETAILED_METRICS] permission. *)
Theorem getExecutivePortfolio_summary_covers_all_projects
    uid tok w bu perms ps ms :
  well_formed (objects w) -> is_primitive teamSatisfaction = true ->
  truthy tok = true ->
  AuthorizationService._isValidExecutiveUserId uid = true ->
  _getExecutiveBusinessUnit uid (objects w) = (Ok bu, objects w) ->
  AuthorizationService.forgeUserAdapter_getUserPermissions
    (authorizationService this) uid = Ok perms ->
  AuthorizationService.has_grant perms (VStr bu) ->
  (forall d, AuthorizationService.auditService_logAuthorizationEvent
               (authorizationService this) d = Ok tt) ->
  jiraDataPort_getExecutiveProjects this = Ok ps ->
  Promise_all ((fun project =>
                  jiraDataPort_getProjectHealthMetrics this (key project))
                 <$> ps) = Ok ms ->
  (forall ev, auditService_logDataAccessEvent this ev = Ok tt) ->
  let portfolio := portfolio_of (executiveId_of uid) ps ms in
  exists res w',
    getExecutivePortfolio this now teamSatisfaction uid tok w = (Ok res, w')
    /\ (exists s,
          field (objects w') res "portfolio" = VRef s
          /\ objects w' !! s
             = Some (CObject (summary_fields
                                (ExecutivePortfolio.getPortfolioSummary portfolio)))
          /\ field (objects w') (VRef s) "totalProjects"
             = VNum (Z.of_nat (length ps)))
    /\ (exists a als,
          field (objects w') res "criticalAlerts" = VRef a
          /\ objects w' !! a = Some (CArray als)
          /\ Forall2 (fun alert v =>
                        exists l, v = VRef l
                          /\ objects w' !! l = Some (CObject (alert_fields alert)))
                     (ExecutivePortfolio.getCriticalAlerts portfolio) als
          /\ forall p m,
               (p, m) ∈ zip ps ms ->
               ExecutivePortfolio._isProjectCritical (enhanced_project p m) = true ->
               exists v, v ∈ als
                 /\ field (objects w') v "projectKey" = VStr (key p)
                 /\ field (objects w') v "projectName" = VStr (name p)
                 /\ field (objects w') v "reason"
                    = VStr (ExecutivePortfolio._getCriticalReason
                              (enhanced_project p m)))
    /\ (exists d,
          field (objects w') res "detailedMetrics" = VRef d
          /\ objects w' !! d
             = Some (CObject {[ "averageVelocity" := VNum 85;
                                "teamSatisfaction" := teamSatisfaction ]})).
Proof.
  intros Hwf Hts Htok Hid Hbu Hperms Hgrant Haudit Hps Hms Hlog portfolio.
  assert (Hlen : length ms = length ps).
  { apply Promise_all_length in Hms. by rewrite length_fmap in Hms. }
  destruct (filter_raw_portfolio uid ps ms (objects w) perms Hwf Hlen Hts)
    as (o & h' & Hfilter & (s & Hs & Hsum) & (a & als & Ha & Hals & HF) & Hdet & _).
  eexists (VRef o), _. split.
  { apply (getExecutivePortfolio_read_run uid tok w bu perms ps ms o h');
      try done.
    apply gate_true_iff. split; [done|]. split; [done|]. eauto. }
  cbn [objects history]. split; [|split; [|done]].
  - exists s. split; [done|]. split; [done|].
    rewrite (field_object _ _ _ _ Hsum). unfold summary_fields.
    rewrite lookup_insert_eq. simpl. do 2 f_equal.
    unfold portfolio_of. simpl. rewrite length_zip_with. lia.
  - exists a, als. split; [done|]. split; [done|]. split; [done|].
    intros p m Hpm Hcrit.
    destruct (getCriticalAlerts_lookup (portfolio_of (executiveId_of uid) ps ms)
                (enhanced_project p m)) as (j & alert & Hj & Hkey & Hname & Hreason);
      [|done|].
    { unfold portfolio_of. simpl.
      apply list_elem_of_lookup in Hpm as [i Hi].
      apply lookup_zip_with_Some in Hi as (p' & m' & [= <- <-] & Hp & Hm).
      eapply list_elem_of_lookup_2. apply lookup_zip_with_Some. eauto. }
    destruct (Forall2_lookup_l _ _ _ _ _ HF Hj) as (v & Hv & l & -> & Hl).
    exists (VRef l). split; [by eapply list_elem_of_lookup_2|].
    rewrite !(field_object _ _ _ _ Hl). unfold alert_fields.
    rewrite Hkey, Hname, Hreason. simpl.
    repeat split; by simplify_map_eq.
Qed.

End Service.

(** The four properties on the sample data: a user whose one grant is the
    portfolio of [Corporate], three projects of which the third belongs to
    [Sales]. *)

Lemma getExecutivePortfolio_fails_secure_witness :
  exists res w',
    getExecutivePortfolio (port_down corporate_only) "2024-01-15T10:00:00.000Z"
      (VNum 8) (VStr "exec-ceo-001") (VStr "auth-token-12345") fresh_state
    = (Ok res, w')
    /\ field (objects w') res "status" = VStr "access_denied"
    /\ AuthorizationService.has_projects (objects w') res [].
Proof.
  destruct (getExecutivePortfolio_fails_secure (port_down corporate_only)
              "2024-01-15T10:00:00.000Z" (VNum 8) (VStr "exec-ceo-001")
              (VStr "auth-token-12345") fresh_state)
    as (res & w' & Hrun & _ & Hfail).
  - intros e. reflexivity.
  - exists res, w'. split; [exact Hrun|].
    destruct (Hfail (Error "Jira API error: Service Unavailable")
                (getExecutivePortfolio_try (port_down corporate_only)
                   "2024-01-15T10:00:00.000Z" (VNum 8) (VStr "exec-ceo-001")
                   (VStr "auth-token-12345") fresh_state).2)
      as (_ & _ & Hstatus & Hprojects & _).
    + by vm_compute.
    + split; [exact Hstatus|exact Hprojects].
Defined.


Lemma getExecutivePortfolio_returns_granted_projects_witness :
  exists res w' prs,
    getExecutivePortfolio (all_answering corporate_only) "2024-01-15T10:00:00.000Z"
      (VNum 8) (VStr "exec-ceo-001") (VStr "auth-token-12345") fresh_state
    = (Ok res, w')
    /\ AuthorizationService.has_projects (objects w') res prs
    /\ length prs = 2%nat.
Proof.
  destruct (getExecutivePortfolio_returns_granted_projects
              (all_answering corporate_only) "2024-01-15T10:00:00.000Z" (VNum 8)
              (VStr "exec-ceo-001") (VStr "auth-token-12345") fresh_state
              "Corporate" corporate_only sample_projects
              [sample_metrics "PROJ1"; sample_metrics "PROJ2";
               sample_metrics "PROJ3"])
    as (res & w' & prs & Hrun & Hprs & Hall & _).
  - apply well_formedb_correct. reflexivity.
  - reflexivity.
  - reflexivity.
  - reflexivity.
  - reflexivity.
  - reflexivity.
  - eexists. split; [by left|]. split; [reflexivity|].
    left. eexists. split; [reflexivity|]. by left.
  - intros d. reflexivity.
  - reflexivity.
  - reflexivity.
  - intros ev. reflexivity.
  - exists res, w', prs. split; [exact Hrun|]. split; [exact Hprs|].
    by rewrite <- (Forall2_length _ _ _ Hall).
Defined.

Lemma getExecutivePortfolio_summary_covers_all_projects_witness :
  exists res w' s,
    getExecutivePortfolio (all_answering corporate_only) "2024-01-15T10:00:00.000Z"
      (VNum 8) (VStr "exec-ceo-001") (VStr "auth-token-12345") fresh_state
    = (Ok res, w')
    /\ field (objects w') res "portfolio" = VRef s
    /\ field (objects w') (VRef s) "totalProjects" = VNum 3.
Proof.
  destruct (getExecutivePortfolio_summary_covers_all_projects
              (all_answering corporate_only) "2024-01-15T10:00:00.000Z" (VNum 8)
              (VStr "exec-ceo-001") (VStr "auth-token-12345") fresh_state
              "Corporate" corporate_only sample_projects
              [sample_metrics "PROJ1"; sample_metrics "PROJ2";
               sample_metrics "PROJ3"])
    as (res & w' & Hrun & (s & Hs & _ & Htotal) & _).
  - apply well_formedb_correct. reflexivity.
  - reflexivity.
  - reflexivity.
  - reflexivity.
  - reflexivity.
  - reflexivity.
  - eexists. split; [by left|]. split; [reflexivity|].
    left. eexists. split; [reflexivity|]. by left.
  - intros d. reflexivity.
  - reflexivity.
  - reflexivity.
  - intros ev. reflexivity.
  - exists res, w', s. split; [exact Hrun|]. split; [exact Hs|exact Htotal].
Defined.

(** *** The dashboard *)

Lemma lookup_app_at {A} (h cells : list A) i c :
  cells !! i = Some c -> (h ++ cells) !! (length h + i)%nat = Some c.
Proof.
  intros Hi. rewrite lookup_app_r by lia.
  by replace (length h + i - length h)%nat with i by lia.
Qed.

Section Dashboard.
Context (this : Dependencies) (now : string).

(** [getExecutiveDashboard] when the port answers every call. *)
Lemma getExecutiveDashboard_run w u ps ms :
  jiraDataPort_getCurrentUser this = Ok u ->
  jiraDataPort_getExecutiveProjects this = Ok ps ->
  Promise_all ((fun project =>
                  jiraDataPort_getProjectHealthMetrics this (key project))
                 <$> ps) = Ok ms ->
  getExecutiveDashboard this now w
  = (Ok (VRef (length (objects w) + length ps + 3
               + length (ExecutivePortfolio.getCriticalAlerts
                           (portfolio_of (accountId u) ps ms)) + 1)%nat),
     {| objects := objects w ++ dashboard_cells now u ps ms (length (objects w));
        history := history w
                   ++ GetCurrentUser :: GetExecutiveProjects
                      :: ((fun project => GetProjectHealthMetrics (key project))
                            <$> ps) |}).
Proof.
  intros Hu Hps Hms.
  assert (Hlen : length (zip_with (enhanced_fields false) ps ms) = length ps).
  { apply Promise_all_length in Hms. rewrite length_fmap in Hms.
    rewrite length_zip_with. lia. }
  unfold getExecutiveDashboard, try_catch, dashboard_cells.
  unfold bind at 1, invoke at 1. rewrite Hu.
  unfold bind at 1, invoke at 1. rewrite Hps.
  unfold bind at 1, getAllProjectHealthMetrics at 1. rewrite Hms. simpl.
  unfold in_heap. simpl.
  set (alerts := ExecutivePortfolio.getCriticalAlerts
                   (portfolio_of (accountId u) ps ms)).
  unfold bind at 1. rewrite (mapM_alloc_cells CObject).
  unfold bind at 1, alloc at 1.
  unfold bind at 1, alloc at 1.
  unfold bind at 1, alloc at 1.
  unfold bind at 1.
  rewrite (mapM_alloc_cells (fun alert => CObject (alert_fields alert))).
  unfold bind at 1, alloc at 1.
  unfold alloc.
  rewrite !length_app, !length_fmap, Hlen. simpl.
  replace (length (objects w) + length ps + 1 + 1 + 1)%nat
    with (length (objects w) + length ps + 3)%nat by lia.
  replace (length (objects w) + length ps + 1 + 1)%nat
    with (length (objects w) + length ps + 2)%nat by lia.
  by rewrite <- !app_assoc.
Qed.

Lemma getFallbackDashboard_run w :
  in_heap (_getFallbackDashboard now) w
  = (Ok (VRef (length (objects w) + 3)%nat),
     {| objects := objects w ++ fallback_dashboard_cells now (length (objects w));
        history := history w |}).
Proof.
  unfold in_heap, _getFallbackDashboard, bind, alloc, fallback_dashboard_cells.
  simpl. rewrite !length_app. simpl.
  replace (length (objects w) + 1 + 1 + 1)%nat
    with (length (objects w) + 3)%nat by lia.
  replace (length (objects w) + 1 + 1)%nat
    with (length (objects w) + 2)%nat by lia.
  by rewrite <- !app_assoc.
Qed.

(** The fallback dashboard, read field by field. *)
Lemma fallback_dashboard_read h :
  let h' := h ++ fallback_dashboard_cells now (length h) in
  let res := VRef (length h + 3)%nat in
  field h' res "status" = VStr "fallback"
  /\ (exists x, field h' res "executive" = VRef x
        /\ h' !! x = Some (CObject {[ "name" := VStr "Executive User";
                                      "accountId" := VStr "unknown" ]}))
  /\ (exists s, field h' res "portfolio" = VRef s
        /\ h' !! s = Some (CObject zero_summary))
  /\ (exists a, field h' res "criticalAlerts" = VRef a
        /\ h' !! a = Some (CArray [])).
Proof.
  cbv zeta.
  assert (Hat : forall i c, fallback_dashboard_cells now (length h) !! i = Some c ->
            (h ++ fallback_dashboard_cells now (length h)) !! (length h + i)%nat
            = Some c) by (intros; by apply lookup_app_at).
  rewrite !(field_object _ _ _ _ (Hat 3%nat _ eq_refl)).
  split; [done|].
  split; [exists (length h); split; [done|]; rewrite lookup_app_r by lia;
          by rewrite Nat.sub_diag|].
  split; eexists; (split; [done|]); by apply Hat.
Qed.

(** The dashboard built from the answers of the port, read field by
    field. *)
Lemma dashboard_read h u ps ms :
  length ms = length ps ->
  let portfolio := portfolio_of (accountId u) ps ms in
  let alerts := ExecutivePortfolio.getCriticalAlerts portfolio in
  let h' := h ++ dashboard_cells now u ps ms (length h) in
  let res := VRef (length h + length ps + 3 + length alerts + 1)%nat in
  field h' res "status" = VUndefined
  /\ (exists x, field h' res "executive" = VRef x
        /\ h' !! x = Some (CObject {[ "name" := VStr (displayName u);
                                      "accountId" := VStr (accountId u) ]}))
  /\ (exists s, field h' res "portfolio" = VRef s
        /\ h' !! s
           = Some (CObject (summary_fields
                              (ExecutivePortfolio.getPortfolioSummary portfolio))))
  /\ (exists a als, field h' res "criticalAlerts" = VRef a
        /\ h' !! a = Some (CArray als)
        /\ Forall2 (fun alert v =>
                      exists l, v = VRef l
                        /\ h' !! l = Some (CObject (alert_fields alert)))
                   alerts als).
Proof.
  intros Hlen. cbv zeta. unfold dashboard_cells. cbv zeta.
  set (alerts := ExecutivePortfolio.getCriticalAlerts
                   (portfolio_of (accountId u) ps ms)).
  assert (Hk : length (zip_with (enhanced_fields false) ps ms) = length ps).
  { rewrite length_zip_with. lia. }
  rewrite Hk.
  set (E := CObject <$> zip_with (enhanced_fields false) ps ms).
  set (AL := (fun alert => CObject (alert_fields alert)) <$> alerts).
  assert (HE : length E = length ps) by (unfold E; by rewrite length_fmap).
  assert (HAL : length AL = length alerts) by (unfold AL; by rewrite length_fmap).
  set (A2 := CArray ((fun i => VRef (length h + length ps + 3 + i)%nat)
                       <$> seq 0 (length alerts))).
  set (Root := CObject {[ "executive" := VRef (length h + length ps + 1)%nat;
                          "portfolio" := VRef (length h + length ps + 2)%nat;
                          "criticalAlerts" :=
                            VRef (length h + length ps + 3 + length alerts)%nat;
                          "lastUpdated" := VStr now ]}).
  set (A1 := CArray ((fun i => VRef (length h + i)%nat) <$> seq 0 (length ps))).
  set (Ex := CObject {[ "name" := VStr (displayName u);
                        "accountId" := VStr (accountId u) ]}).
  set (Sm := CObject (summary_fields
                        (ExecutivePortfolio.getPortfolioSummary
                           (portfolio_of (accountId u) ps ms)))).
  set (h' := h ++ E ++ [A1; Ex; Sm] ++ AL ++ [A2; Root]).
  assert (Hhead : forall i c j, j = (length h + length ps + i)%nat ->
            [A1; Ex; Sm] !! i = Some c -> h' !! j = Some c).
  { intros i c j -> Hi. apply lookup_lt_Some in Hi as Hlt. simpl in Hlt.
    unfold h'. rewrite lookup_app_r by lia. rewrite lookup_app_r by lia.
    replace (length h + length ps + i - length h - length E)%nat
      with i by lia.
    by rewrite lookup_app_l by (simpl; lia). }
  assert (Halert : forall j c, AL !! j = Some c ->
            h' !! (length h + length ps + 3 + j)%nat = Some c).
  { intros j c Hj. apply lookup_lt_Some in Hj as Hlt.
    unfold h'. rewrite lookup_app_r by lia. rewrite lookup_app_r by lia.
    replace (length h + length ps + 3 + j - length h - length E)%nat
      with (3 + j)%nat by lia.
    simpl. by rewrite lookup_app_l by lia. }
  assert (Htail : forall i c j, j = (length h + length ps + 3 + length alerts + i)%nat ->
            [A2; Root] !! i = Some c -> h' !! j = Some c).
  { intros i c j -> Hi.
    unfold h'. rewrite lookup_app_r by lia. rewrite lookup_app_r by lia.
    replace (length h + length ps + 3 + length alerts + i
             - length h - length E)%nat
      with (3 + (length alerts + i))%nat by lia.
    simpl. rewrite lookup_app_r by lia.
    by replace (length alerts + i - length AL)%nat with i by lia. }
  assert (Hroot : h' !! (length h + length ps + 3 + length alerts + 1)%nat
                  = Some Root) by by apply (Htail 1%nat).
  rewrite !(field_object _ _ _ _ Hroot).
  split; [done|].
  split; [eexists; split; [done|]; by apply (Hhead 1%nat)|].
  split; [eexists; split; [done|]; by apply (Hhead 2%nat)|].
  eexists _, _. split; [done|].
  split; [by apply (Htail 0%nat); [lia|]|].
  apply Forall2_same_length_lookup. split.
  { by rewrite length_fmap, length_seq. }
  intros j alert v Hj Hv.
  apply list_lookup_fmap_Some in Hv as (i & -> & Hi).
  apply lookup_seq in Hi as [-> _]. simpl.
  eexists. split; [done|]. apply Halert.
  unfold AL. by rewrite list_lookup_fmap, Hj.
Qed.

(** X22: [getExecutiveDashboard] never throws and asks no one for access.
    On every run it returns, the heap it was called in is untouched, and the
    calls it makes go to the Jira port only: the authorization service and
    the audit sink are not called.  When the port answers the three kinds of
    call, the value returned has no [status], names the current user, and
    carries the summary and the alerts of all the projects of the port.  When
    one call is rejected, be it the first, the value returned is the
    fallback: the status [fallback], the executive [Executive User] with the
    account [unknown], the summary of an empty portfolio and no alert. *)
Theorem getExecutiveDashboard_never_throws w :
  exists res w' cs,
    getExecutiveDashboard this now w = (Ok res, w')
    /\ objects w `prefix_of` objects w'
    /\ history w' = history w ++ cs
    /\ Forall (fun c => is_port_call c = true) cs
    /\ ((exists u ps ms,
           jiraDataPort_getCurrentUser this = Ok u
           /\ jiraDataPort_getExecutiveProjects this = Ok ps
           /\ Promise_all ((fun project =>
                              jiraDataPort_getProjectHealthMetrics this
                                (key project)) <$> ps) = Ok ms
           /\ field (objects w') res "status" = VUndefined
           /\ (exists x, field (objects w') res "executive" = VRef x
                 /\ objects w' !! x
                    = Some (CObject {[ "name" := VStr (displayName u);
                                       "accountId" := VStr (accountId u) ]}))
           /\ (exists s, field (objects w') res "portfolio" = VRef s
                 /\ objects w' !! s
                    = Some (CObject
                              (summary_fields
                                 (ExecutivePortfolio.getPortfolioSummary
                                    (portfolio_of (accountId u) ps ms)))))
           /\ (exists a als, field (objects w') res "criticalAlerts" = VRef a
                 /\ objects w' !! a = Some (CArray als)
                 /\ Forall2 (fun alert v =>
                               exists l, v = VRef l
                                 /\ objects w' !! l
                                    = Some (CObject (alert_fields alert)))
                            (ExecutivePortfolio.getCriticalAlerts
                               (portfolio_of (accountId u) ps ms)) als))
        \/ ((exists e,
               jiraDataPort_getCurrentUser this = Throw e
               \/ jiraDataPort_getExecutiveProjects this = Throw e
               \/ exists ps,
                    jiraDataPort_getExecutiveProjects this = Ok ps
                    /\ Promise_all ((fun project =>
                                       jiraDataPort_getProjectHealthMetrics this
                                         (key project)) <$> ps) = Throw e)
            /\ field (objects w') res "status" = VStr "fallback"
            /\ (exists x, field (objects w') res "executive" = VRef x
                  /\ objects w' !! x
                     = Some (CObject {[ "name" := VStr "Executive User";
                                        "accountId" := VStr "unknown" ]}))
            /\ (exists s, field (objects w') res "portfolio" = VRef s
                  /\ objects w' !! s = Some (CObject zero_summary))
            /\ (exists a, field (objects w') res "criticalAlerts" = VRef a
                  /\ objects w' !! a = Some (CArray [])))).
Proof.
  destruct (jiraDataPort_getCurrentUser this) as [u|e] eqn:Hu.
  2:{ unfold getExecutiveDashboard, try_catch.
      unfold bind at 1, invoke at 1. rewrite Hu. rewrite getFallbackDashboard_run.
      eexists _, _, [GetCurrentUser]. split; [done|]. cbn [objects history].
      split; [by apply prefix_app_r|]. split; [done|].
      split; [by repeat constructor|]. right.
      split; [eauto|]. apply fallback_dashboard_read. }
  destruct (jiraDataPort_getExecutiveProjects this) as [ps|e] eqn:Hps.
  2:{ unfold getExecutiveDashboard, try_catch.
      unfold bind at 1, invoke at 1. rewrite Hu.
      unfold bind at 1, invoke at 1. rewrite Hps. rewrite getFallbackDashboard_run.
      eexists _, _, [GetCurrentUser; GetExecutiveProjects].
      split; [done|]. cbn [objects history].
      split; [by apply prefix_app_r|]. split; [by rewrite <- app_assoc|].
      split; [by repeat constructor|]. right.
      split; [eauto|]. apply fallback_dashboard_read. }
  destruct (Promise_all ((fun project =>
                            jiraDataPort_getProjectHealthMetrics this (key project))
                           <$> ps)) as [ms|e] eqn:Hms.
  2:{ unfold getExecutiveDashboard, try_catch.
      unfold bind at 1, invoke at 1. rewrite Hu.
      unfold bind at 1, invoke at 1. rewrite Hps.
      unfold bind at 1, getAllProjectHealthMetrics at 1. rewrite Hms.
      rewrite getFallbackDashboard_run.
      eexists _, _, (GetCurrentUser :: GetExecutiveProjects
                     :: ((fun project => GetProjectHealthMetrics (key project))
                           <$> ps)).
      split; [done|]. cbn [objects history].
      split; [by apply prefix_app_r|].
      split; [by rewrite <- !app_assoc|].
      split.
      { repeat constructor. apply Forall_forall. intros c Hc.
        by apply list_elem_of_fmap in Hc as (p & -> & _). }
      right. split; [eauto 10|]. apply fallback_dashboard_read. }
  rewrite (getExecutiveDashboard_run w u ps ms Hu Hps Hms).
  eexists _, _, _. split; [done|]. cbn [objects history].
  split; [by apply prefix_app_r|]. split; [done|].
  split.
  { repeat constructor. apply Forall_forall. intros c Hc.
    by apply list_elem_of_fmap in Hc as (p & -> & _). }
  left. exists u, ps, ms. do 3 (split; [done|]).
  apply dashboard_read.
  apply Promise_all_length in Hms. by rewrite length_fmap in Hms.
Qed.

End Dashboard.

End PortfolioServiceFacts.
